(** * flavio.statistics.fits: a shallow embedding of the fit classes

    The module [flavio/statistics/fits.py] defines three classes, [Fit],
    [BayesianFit] and [FastFit].  This development embeds their methods as
    Rocq functions and states properties of them.

    - Python floats and numpy float64 entries are binary64 primitive floats.
    - Python exceptions are values of [Exception]; a computation that may
      raise returns a [Result].
    - Objects that are shared and mutated (dictionaries, the fit object, the
      parameter registry) live in a heap addressed by locations; the
      process-wide registries of flavio are fields of the [World].
    - Code of flavio and numpy that is not part of [fits.py] (distributions,
      registries, prediction functions, numerical kernels) is an interface,
      the class [Externals]. *)

From Stdlib Require Import PrimFloat.
From stdpp Require Import base option list strings gmap.

(** ** Exceptions and results *)

Inductive Exception :=
| AssertionError (msg : string)
| ValueError (msg : string)
| TypeError (msg : string)
| NameError (name : string)
| KeyError (key : string)
| IndexError (msg : string)
| AttributeError (msg : string)
| LinAlgError (msg : string).

Inductive Result (A : Type) :=
| Ok (a : A)
| Raise (e : Exception).
Arguments Ok {A} a.
Arguments Raise {A} e.

Global Instance Result_ret : MRet Result := λ A a, Ok a.
Global Instance Result_bind : MBind Result := λ A B f m,
  match m with Ok a => f a | Raise e => Raise e end.
Global Instance Result_fmap : FMap Result := λ A B f m,
  match m with Ok a => Ok (f a) | Raise e => Raise e end.

Definition is_Ok {A} (r : Result A) : bool :=
  match r with Ok _ => true | Raise _ => false end.

(** [assert cond, msg]: the message is an expression, evaluated only when
    the condition is false, and evaluating it may itself raise. *)
Definition py_assert (cond : bool) (msg : Result string) : Result unit :=
  if cond then Ok tt else m ← msg; Raise (AssertionError m).

(** ** Name resolution in the module

    The names bound at module level in [fits.py]: its four import statements
    and its three class statements.  A name that is neither local to a
    function nor bound here (nor a builtin) raises [NameError] when read. *)

Inductive GlobalObject :=
| PyModule (name : string)
| PyClass (name : string)
| PyFunction (name : string).

Definition module_globals : list (string * GlobalObject) :=
  [ ("flavio", PyModule "flavio");
    ("np", PyModule "numpy");
    ("copy", PyModule "copy");
    ("NormalDistribution", PyClass "NormalDistribution");
    ("MultivariateNormalDistribution", PyClass "MultivariateNormalDistribution");
    ("convolve_distributions", PyFunction "convolve_distributions");
    ("Fit", PyClass "Fit");
    ("BayesianFit", PyClass "BayesianFit");
    ("FastFit", PyClass "FastFit") ].

Fixpoint assoc_lookup {K V} `{EqDecision K} (k : K) (l : list (K * V)) : option V :=
  match l with
  | [] => None
  | (k', v) :: l' => if decide (k = k') then Some v else assoc_lookup k l'
  end.

Definition load_global (name : string) : Result GlobalObject :=
  match assoc_lookup name module_globals with
  | Some g => Ok g
  | None => Raise (NameError name)
  end.

(** A module, class or function used as a summand of an integer sum. *)
Definition int_of_global (g : GlobalObject) : Result nat :=
  Raise (TypeError "unsupported operand type(s) for +").

(** ** Python lists, numpy arrays *)

(** [x[i]] for a non-negative index. *)
Definition getitem {A} (x : list A) (i : nat) : Result A :=
  match x !! i with
  | Some v => Ok v
  | None => Raise (IndexError "index out of bounds")
  end.

(** [d[k]] on a dictionary with string keys. *)
Definition getkey {V} (d : gmap string V) (k : string) : Result V :=
  match d !! k with
  | Some v => Ok v
  | None => Raise (KeyError k)
  end.

(** [np.zeros(n)] *)
Definition np_zeros (n : nat) : list float := replicate n 0%float.

(** [arr[a:b] = vals] on a one-dimensional array, [b = None] for [arr[a:]].
    The slice is clipped to the array; a list of the slice's length is
    copied in, a list of length one is broadcast, anything else raises. *)
Definition setslice (arr : list float) (a : nat) (b : option nat)
    (vals : list float) : Result (list float) :=
  let n := length arr in
  let start := a `min` n in
  let stop := from_option (λ b, b `min` n) n b in
  let len := stop - start in
  if decide (length vals = len) then
    Ok (take start arr ++ vals ++ drop (start + len) arr)
  else
    match vals with
    | [v] => Ok (take start arr ++ replicate len v ++ drop (start + len) arr)
    | _ => Raise (ValueError "could not broadcast input array")
    end.

(** [l.index(x)], with the message of the exception left to [repr]. *)
Fixpoint list_index {A} `{EqDecision A} (repr : A → string) (l : list A) (x : A)
    : Result nat :=
  match l with
  | [] => Raise (ValueError (repr x +:+ " is not in list"))
  | y :: l' => if decide (x = y) then Ok 0 else S <$> list_index repr l' x
  end.

(** Sets built from lists.  The order of iteration of a Python set is not
    specified; here it is the order of first occurrence. *)
Definition set_of {A} `{EqDecision A} (l : list A) : list A := remove_dups l.
Definition set_diff {A} `{EqDecision A} (a b : list A) : list A :=
  filter (λ x, x ∉ b) a.
Definition set_inter {A} `{EqDecision A} (a b : list A) : list A :=
  filter (λ x, x ∈ b) a.
Definition isdisjoint {A} `{EqDecision A} (a b : list A) : bool :=
  forallb (λ x, bool_decide (x ∉ b)) a.

(** numpy arrays of dimension zero, one and two. *)
Inductive ndarray :=
| Arr0 (v : float)
| Arr1 (v : list float)
| Arr2 (rows : list (list float)).

Definition too_many_indices {A} : Result A :=
  Raise (IndexError "too many indices for array").

(** [a.T] *)
Fixpoint transpose (rows : list (list float)) : list (list float) :=
  match rows with
  | [] => []
  | [r] => (λ v, [v]) <$> r
  | r :: rows' => zip_with cons r (transpose rows')
  end.

Definition ndarray_T (a : ndarray) : ndarray :=
  match a with
  | Arr2 rows => Arr2 (transpose rows)
  | _ => a
  end.

(** [a[k]] *)
Definition ndarray_getitem (a : ndarray) (k : nat) : Result ndarray :=
  match a with
  | Arr0 _ => too_many_indices
  | Arr1 v => Arr0 <$> getitem v k
  | Arr2 rows => Arr1 <$> getitem rows k
  end.

(** [np.diff(v)] *)
Fixpoint diff (v : list float) : list float :=
  match v with
  | a :: (b :: _) as v' => PrimFloat.sub b a :: diff v'
  | _ => []
  end.

Definition np_diff (a : ndarray) : Result ndarray :=
  match a with
  | Arr0 _ => Raise (ValueError "diff requires input that is at least one dimensional")
  | Arr1 v => Ok (Arr1 (diff v))
  | Arr2 rows => Ok (Arr2 (diff <$> rows))
  end.

(** A scalar operand; an array where a scalar is stored raises. *)
Definition as_scalar (a : ndarray) : Result float :=
  match a with
  | Arr0 v => Ok v
  | _ => Raise (ValueError "setting an array element with a sequence.")
  end.

(** [a[ppos][:, ppos]]: rows, then columns, selected by a list of indices. *)
Definition fancy_index (a : ndarray) (ppos : list nat) : Result (list (list float)) :=
  match a with
  | Arr2 rows =>
      sel ← mapM (getitem rows) ppos;
      mapM (λ row, mapM (getitem row) ppos) sel
  | _ => too_many_indices
  end.

(** [a[i, j]] and [a[i, j] = v] *)
Definition getitem2 (a : list (list float)) (i j : nat) : Result float :=
  row ← getitem a i; getitem row j.

Definition setitem2 (a : list (list float)) (i j : nat) (v : float)
    : Result (list (list float)) :=
  row ← getitem a i;
  _ ← getitem row j;
  Ok (<[i := <[j := v]> row]> a).

(** [np.diag(a)] of a matrix *)
Definition np_diag (a : list (list float)) : list float :=
  omap (λ '(i, row), row !! i) (imap (λ i row, (i, row)) a).

(** [np.where(v == 0)[0]] *)
Definition where_zero (v : list float) : list nat :=
  omap (λ '(i, x), if PrimFloat.eqb x 0%float then Some i else None)
       (imap (λ i x, (i, x)) v).

(** ** Observable references

    An entry of [observables] is a bare name or a tuple whose first
    component is the name and whose other components are the extra
    positional arguments of the prediction function. *)

Inductive ObsRef (Arg : Type) :=
| ObsName (name : string)
| ObsTuple (name : string) (args : list Arg).
Arguments ObsName {Arg} name.
Arguments ObsTuple {Arg} name args.

Global Instance ObsRef_eq_dec {Arg} `{EqDecision Arg} : EqDecision (ObsRef Arg).
Proof. solve_decision. Defined.

(** [obs[0]] for a tuple, [obs] otherwise, and the remaining components. *)
Definition obs_name {Arg} (o : ObsRef Arg) : string :=
  match o with ObsName n => n | ObsTuple n _ => n end.
Definition obs_args {Arg} (o : ObsRef Arg) : list Arg :=
  match o with ObsName _ => [] | ObsTuple _ args => args end.

(** A dictionary keyed by observable references, in insertion order. *)
Definition obs_dict_set {Arg V} `{EqDecision Arg} (k : ObsRef Arg) (v : V)
    (d : list (ObsRef Arg * V)) : list (ObsRef Arg * V) :=
  if decide (k ∈ d.*1)
  then (λ kv, if decide (kv.1 = k) then (k, v) else kv) <$> d
  else d ++ [(k, v)].

(** A Wilson coefficient object: the Standard Model, or what [set_initial]
    was given (the dictionary of complex values and the scale). *)
Record WilsonCoefficients := {
  wc_initial : option (gmap string (float * float) * float)
}.

(** ** Collaborators outside [fits.py] *)

Class Externals (Arg : Type) := {
  (** [repr] and [str] of Python values that end up in messages *)
  repr_obs : ObsRef Arg → string;
  str_tuple : string → list Arg → string;
  str_set : list string → string;
  (** [flavio.classes.ParameterConstraints]: the keys of [_parameters],
      [get_central_all()], the [k]-th draw of [get_random_all()] and
      [get_logprobability_all(par_dict, exclude_parameters)] *)
  ParameterConstraints : Type;
  parameters_keys : ParameterConstraints → list string;
  get_central_all : ParameterConstraints → gmap string float;
  get_random_all : ParameterConstraints → nat → gmap string float;
  get_logprobability_all :
    ParameterConstraints → gmap string float → list string → Result (list float);
  (** [flavio.statistics.probability] *)
  Distribution : Type;
  central_value : Distribution → ndarray;
  support : Distribution → ndarray;
  NormalDistribution : ndarray → float → Distribution;
  MultivariateNormalDistribution : ndarray → list (list float) → Distribution;
  DeltaDistribution : ndarray → Distribution;
  convolve_distributions : list Distribution → Distribution;
  (** [flavio.classes.Measurement] and [PseudoMeasurement]: the attributes
      [all_parameters] and [_constraints], a new empty instance,
      [add_constraint], the [k]-th draw of [get_random_all()] and
      [get_logprobability_all(predictions, exclude_parameters)] *)
  Measurement : Type;
  all_parameters : Measurement → list (ObsRef Arg);
  _constraints : Measurement → list (Distribution * list (ObsRef Arg));
  empty_measurement : Measurement;
  add_constraint : Measurement → list (ObsRef Arg) → Distribution → Measurement;
  measurement_get_random_all : Measurement → nat → list (ObsRef Arg * float);
  measurement_get_logprobability_all :
    Measurement → list (ObsRef Arg * float) → list (ObsRef Arg) → Result (list float);
  (** [Observable.prediction_par(par_dict, wc_obj, *args)] of the observable
      of a given name *)
  prediction_par :
    string → gmap string float → WilsonCoefficients → list Arg → Result float;
  (** numpy kernels *)
  np_cov : list (list float) → ndarray;
  np_mean_axis1 : list (list float) → ndarray;
  np_linalg_inv : ndarray → Result ndarray;
  np_sum_axis0 : list ndarray → ndarray;
  np_sum : list ndarray → ndarray;
  np_dot : ndarray → ndarray → ndarray;
  np_reciprocal : ndarray → ndarray;
  np_multiply : ndarray → ndarray → ndarray
}.

Section Model.
Context {Arg : Type} `{EqDecision Arg} `{Externals Arg}.

Local Abbreviation obs := (ObsRef Arg).

(** [str(obs)] *)
Definition str_obs (o : obs) : string :=
  match o with ObsName n => n | ObsTuple n args => str_tuple n args end.

(** [', '.join(l)]: every item must be a string. *)
Fixpoint join_names (l : list obs) : Result (list string) :=
  match l with
  | [] => Ok []
  | ObsName n :: l' => cons n <$> join_names l'
  | ObsTuple _ _ :: _ =>
      Raise (TypeError "sequence item: expected str instance, tuple found")
  end.

Fixpoint join (sep : string) (l : list string) : string :=
  match l with
  | [] => ""
  | [s] => s
  | s :: l' => s +:+ sep +:+ join sep l'
  end.

(** ** The fit object *)

Inductive FitClass := FitC | BayesianFitC | FastFitC.

Definition loc := nat.

(** The arguments of [Fit.__init__]. *)
Record FitArgs := {
  a_name : string;
  a_par_obj : loc;
  a_fit_parameters : list string;
  a_nuisance_parameters : list string;
  a_observables : list obs;
  a_fit_wc_names : list string;
  a_fit_wc_function :
    option (gmap string float → Result (gmap string (float * float)));
  a_fit_wc_priors : option loc;
  a_input_scale : float;
  a_exclude_measurements : option (list string);
  a_include_measurements : option (list string)
}.

(** The attributes of a fit object.  [dimension] is set by
    [BayesianFit.__init__], [measurements] by [FastFit.__init__]. *)
Record FitObject := {
  cls : FitClass;
  name : string;
  par_obj : loc;
  parameters_central : loc;
  fit_parameters : list string;
  nuisance_parameters : list string;
  exclude_measurements : option (list string);
  include_measurements : option (list string);
  fit_wc_names : list string;
  fit_wc_function :
    option (gmap string float → Result (gmap string (float * float)));
  fit_wc_priors : option loc;
  observables : list obs;
  input_scale : float;
  dimension : option nat;
  measurements : option (option unit)
}.

(** ** The heap and the process-wide state *)

Inductive Obj :=
| DictObj (d : gmap string float)
| ParamsObj (p : ParameterConstraints)
| FitObj (f : FitObject)
(** an instance whose [Fit.__init__] has not made its assignments yet: it
    has its name, and [par_obj] once that is assigned *)
| NewObj (c : FitClass) (name : string) (par_obj : option loc).

Record World := {
  (** objects, addressed by their position *)
  w_heap : list Obj;
  (** the names of [Observable.instances] *)
  w_observables : list string;
  (** [Measurement.instances], in iteration order *)
  w_measurements : list (string * Measurement);
  (** [PseudoMeasurement.instances] *)
  w_pseudo_measurements : gmap string Measurement;
  (** the instances registered by [NamedInstanceClass.__init__] for fits *)
  w_fit_instances : gmap string loc;
  (** how many draws were taken from the random generator *)
  w_rng : nat;
  (** the methods of the fit classes entered so far, latest first *)
  w_calls : list string
}.

Definition set_heap (h : list Obj) (w : World) : World :=
  {| w_heap := h; w_observables := w_observables w;
     w_measurements := w_measurements w;
     w_pseudo_measurements := w_pseudo_measurements w;
     w_fit_instances := w_fit_instances w; w_rng := w_rng w;
     w_calls := w_calls w |}.
Definition set_pseudo_measurements (p : gmap string Measurement) (w : World) : World :=
  {| w_heap := w_heap w; w_observables := w_observables w;
     w_measurements := w_measurements w;
     w_pseudo_measurements := p;
     w_fit_instances := w_fit_instances w; w_rng := w_rng w;
     w_calls := w_calls w |}.
Definition set_fit_instances (f : gmap string loc) (w : World) : World :=
  {| w_heap := w_heap w; w_observables := w_observables w;
     w_measurements := w_measurements w;
     w_pseudo_measurements := w_pseudo_measurements w;
     w_fit_instances := f; w_rng := w_rng w;
     w_calls := w_calls w |}.
Definition set_rng (n : nat) (w : World) : World :=
  {| w_heap := w_heap w; w_observables := w_observables w;
     w_measurements := w_measurements w;
     w_pseudo_measurements := w_pseudo_measurements w;
     w_fit_instances := w_fit_instances w; w_rng := n;
     w_calls := w_calls w |}.
Definition set_calls (c : list string) (w : World) : World :=
  {| w_heap := w_heap w; w_observables := w_observables w;
     w_measurements := w_measurements w;
     w_pseudo_measurements := w_pseudo_measurements w;
     w_fit_instances := w_fit_instances w; w_rng := w_rng w;
     w_calls := c |}.

(** A computation that reads and writes the world and may raise; what it
    wrote before raising stays written. *)
Definition M (A : Type) : Type := World → Result A * World.

Global Instance M_ret : MRet M := λ A a w, (Ok a, w).
Global Instance M_bind : MBind M := λ A B f m w,
  match m w with
  | (Ok a, w') => f a w'
  | (Raise e, w') => (Raise e, w')
  end.

Definition lift {A} (r : Result A) : M A := λ w, (r, w).
Definition gets {A} (f : World → A) : M A := λ w, (Ok (f w), w).
Definition modify (f : World → World) : M unit := λ w, (Ok tt, f w).

(** [for x in l: body] *)
Fixpoint for_ {A} (l : list A) (body : A → M unit) : M unit :=
  match l with
  | [] => mret tt
  | x :: l' => body x ;; for_ l' body
  end.

(** Entering a method of the fit classes. *)
Definition enter (method : string) : M unit :=
  modify (λ w, set_calls (method :: w_calls w) w).

(** A new object. *)
Definition alloc (o : Obj) : M loc :=
  λ w, (Ok (length (w_heap w)), set_heap (w_heap w ++ [o]) w).

Definition load (l : loc) : M Obj :=
  λ w, match w_heap w !! l with
       | Some o => (Ok o, w)
       | None => (Raise (AttributeError "dangling reference"), w)
       end.

Definition store (l : loc) (o : Obj) : M unit :=
  modify (λ w, set_heap (<[l := o]> (w_heap w)) w).

Definition load_fit (l : loc) : M FitObject :=
  o ← load l;
  match o with
  | FitObj f => mret f
  | _ => lift (Raise (AttributeError "not a fit"))
  end.

Definition load_dict (l : loc) : M (gmap string float) :=
  o ← load l;
  match o with
  | DictObj d => mret d
  | _ => lift (Raise (AttributeError "not a dict"))
  end.

Definition load_params (l : loc) : M ParameterConstraints :=
  o ← load l;
  match o with
  | ParamsObj p => mret p
  | _ => lift (Raise (AttributeError "not a ParameterConstraints"))
  end.

(** [d.copy()] and [d.update(other)] on dictionary objects. *)
Definition dict_copy (l : loc) : M loc :=
  d ← load_dict l; alloc (DictObj d).

Definition dict_update (l : loc) (other : gmap string float) : M unit :=
  d ← load_dict l; store l (DictObj (other ∪ d)).

(** One draw from the process-wide random generator. *)
Definition next_draw : M nat :=
  λ w, (Ok (w_rng w), set_rng (S (w_rng w)) w).

(** [Observable.get_instance(name)], [Measurement.get_instance(name)] and
    [PseudoMeasurement.get_instance(name)] *)
Definition Observable_get_instance (n : string) : M string :=
  obs_names ← gets w_observables;
  if decide (n ∈ obs_names) then mret n else lift (Raise (KeyError n)).

Definition Measurement_get_instance (n : string) : M Measurement :=
  ms ← gets w_measurements;
  match assoc_lookup n ms with
  | Some m => mret m
  | None => lift (Raise (KeyError n))
  end.

Definition PseudoMeasurement_get_instance (n : string) : M Measurement :=
  ms ← gets w_pseudo_measurements;
  match ms !! n with
  | Some m => mret m
  | None => lift (Raise (KeyError n))
  end.

(** [try: m except: raise e] *)
Definition try_except {A} (m : M A) (e : Exception) : M A := λ w,
  match m w with
  | (Ok a, w') => (Ok a, w')
  | (Raise _, w') => (Raise e, w')
  end.

(** A loop that carries a value. *)
Fixpoint for_fold {F : Type → Type} `{MBind F, MRet F} {A S}
    (l : list A) (s : S) (body : S → A → F S) : F S :=
  match l with
  | [] => mret s
  | x :: l' => s' ← body s x; for_fold l' s' body
  end.

(** [sum(l)] of a list of floats: the builtin starts from zero and adds
    from the left. *)
Definition py_sum (l : list float) : float :=
  fold_left PrimFloat.add l 0%float.

(** [{p: x[i + offset] for i, p in enumerate(names)}]: the entries are
    inserted in order, a repeated name keeps the last value. *)
Fixpoint dict_comprehension (names : list string) (x : list float) (k : nat)
    (acc : gmap string float) : Result (gmap string float) :=
  match names with
  | [] => Ok acc
  | p :: names' =>
      v ← getitem x k;
      dict_comprehension names' x (S k) (<[p := v]> acc)
  end.

(** The literal [1e-6]. *)
Definition probe_value : float := 0x1.0c6f7a0b5ed8dp-20%float.

(** * class Fit *)

(** The checks of [Fit.__init__], in the order of the source. *)

(* check that fit and nuisance parameters exist *)
Definition check_parameters (a : FitArgs) : M unit :=
  for_ (a_fit_parameters a ++ a_nuisance_parameters a) (λ p,
    par ← load_params (a_par_obj a);
    lift (py_assert (bool_decide (p ∈ parameters_keys par))
            (Ok ("Parameter " +:+ p +:+ " not found in Constraints")))).

(* check that observables exist *)
Definition check_observables_exist (a : FitArgs) : M unit :=
  for_ (a_observables a) (λ o,
    try_except (Observable_get_instance (obs_name o);; mret tt)
               (ValueError ("Observable " +:+ str_obs o +:+ " not found!"))).

(** [set(observables) - set(_obs_measured).intersection(set(observables))],
    where [_obs_measured] collects [all_parameters] of every measurement. *)
Definition missing_obs (observables : list obs)
    (instances : list (string * Measurement)) : list obs :=
  let _obs_measured := set_of (concat ((λ m, all_parameters m.2) <$> instances)) in
  set_diff (set_of observables)
           (set_inter (set_of _obs_measured) (set_of observables)).

(* check that observables are constrained *)
Definition check_observables_constrained (a : FitArgs) : M unit :=
  instances ← gets w_measurements;
  let missing := missing_obs (a_observables a) instances in
  lift (py_assert (bool_decide (missing = []))
          (names ← join_names missing;
           Ok ("No measurement found for the observables: " +:+ join ", " names))).

Definition check_filters (a : FitArgs) : M unit :=
  if bool_decide (is_Some (a_exclude_measurements a)
                  ∧ is_Some (a_include_measurements a))
  then lift (Raise (ValueError
    "The options exclude_measurements and include_measurements must not be specified simultaneously"))
  else mret tt.

(* check that no parameter appears as fit *and* nuisance parameter *)
Definition check_disjoint (a : FitArgs) : M unit :=
  let intersect := set_inter (set_of (a_fit_parameters a)) (a_nuisance_parameters a) in
  lift (py_assert (bool_decide (intersect = []))
          (Ok ("Parameters appearing as fit_parameters and nuisance_parameters: "
               +:+ str_set intersect))).

(* check that the Wilson coefficient function works *)
Definition check_wc_function (a : FitArgs) : M unit :=
  match a_fit_wc_names a with
  | [] => mret tt
  | _ =>
      let probe : gmap string float :=
        list_to_map ((λ n, (n, probe_value)) <$> a_fit_wc_names a) in
      match a_fit_wc_function a with
      | Some f =>
          if is_Ok (f probe) then mret tt
          else lift (Raise (ValueError "Error in calling the Wilson coefficient function"))
      | None =>
          lift (Raise (ValueError "Error in calling the Wilson coefficient function"))
      end
  end.

Definition validate (a : FitArgs) : M unit :=
  check_parameters a;;
  check_observables_exist a;;
  check_observables_constrained a;;
  check_filters a;;
  check_disjoint a;;
  check_wc_function a.

(** What [Fit.__init__] does after the checks: "now that everything seems
    fine, we can call the init of the parent class".  The instance enters
    the heap when the parent class registers it under its name (until then
    only the running constructor refers to it); the snapshot of the central
    values is taken after that, and the other attributes are assigned last. *)
Definition build (c : FitClass) (a : FitArgs) : M loc :=
  (* super().__init__(name) *)
  self ← alloc (NewObj c (a_name a) None);
  modify (λ w, set_fit_instances (<[a_name a := self]> (w_fit_instances w)) w);;
  (* self.par_obj = par_obj *)
  store self (NewObj c (a_name a) (Some (a_par_obj a)));;
  (* self.parameters_central = self.par_obj.get_central_all() *)
  par ← load_params (a_par_obj a);
  central ← alloc (DictObj (get_central_all par));
  (* self.fit_parameters = fit_parameters, ..., self.input_scale = input_scale *)
  store self (FitObj {|
    cls := c;
    name := a_name a;
    par_obj := a_par_obj a;
    parameters_central := central;
    fit_parameters := a_fit_parameters a;
    nuisance_parameters := a_nuisance_parameters a;
    exclude_measurements := a_exclude_measurements a;
    include_measurements := a_include_measurements a;
    fit_wc_names := a_fit_wc_names a;
    fit_wc_function := a_fit_wc_function a;
    fit_wc_priors := a_fit_wc_priors a;
    observables := a_observables a;
    input_scale := a_input_scale a;
    dimension := None;
    measurements := None |});;
  mret self.

(** [Fit.__init__] for an object of class [c]. *)
Definition Fit__init__ (c : FitClass) (a : FitArgs) : M loc :=
  enter "Fit.__init__";;
  validate a;;
  build c a.

(** The body of the property [get_measurements], on the attributes of the
    fit and the items of [Measurement.instances]. *)
Definition relevant_measurements (this : FitObject)
    (instances : list (string * Measurement)) : list string :=
  let all_measurements :=
    (filter (λ m, isdisjoint (set_of (all_parameters m.2)) (observables this) = false)
            instances).*1 in
  match exclude_measurements this, include_measurements this with
  | None, None => all_measurements
  | Some excl, _ => set_diff (set_of all_measurements) (set_of excl)
  | None, Some incl => set_inter (set_of all_measurements) (set_of incl)
  end.

Definition get_measurements (self : loc) : M (list string) :=
  enter "Fit.get_measurements";;
  this ← load_fit self;
  instances ← gets w_measurements;
  mret (relevant_measurements this instances).

(** The property [get_random_nuisance_parameters]. *)
Definition get_random_nuisance_parameters (self : loc) : M (list float) :=
  enter "Fit.get_random_nuisance_parameters";;
  this ← load_fit self;
  par ← load_params (par_obj this);
  k ← next_draw;
  let all_random := get_random_all par k in
  lift (mapM (getkey all_random) (nuisance_parameters this)).

(** * class BayesianFit *)

Definition BayesianFit__init__ (c : FitClass) (a : FitArgs) : M loc :=
  enter "BayesianFit.__init__";;
  self ← Fit__init__ c a;
  this ← load_fit self;
  store self (FitObj {|
    cls := cls this; name := name this; par_obj := par_obj this;
    parameters_central := parameters_central this;
    fit_parameters := fit_parameters this;
    nuisance_parameters := nuisance_parameters this;
    exclude_measurements := exclude_measurements this;
    include_measurements := include_measurements this;
    fit_wc_names := fit_wc_names this;
    fit_wc_function := fit_wc_function this;
    fit_wc_priors := fit_wc_priors this;
    observables := observables this;
    input_scale := input_scale this;
    dimension := Some (length (fit_parameters this)
                       + length (nuisance_parameters this)
                       + length (fit_wc_names this));
    measurements := measurements this |});;
  mret self.

Definition BayesianFit_array_to_dict (this : FitObject) (x : list float)
    : Result (gmap string (gmap string float)) :=
  let d : gmap string (gmap string float) := ∅ in
  let n_fit_p := length (fit_parameters this) in
  let n_nui_p := length (nuisance_parameters this) in
  let n_wc := length (fit_wc_names this) in
  fp ← dict_comprehension (fit_parameters this) x 0 ∅;
  let d := <["fit_parameters" := fp]> d in
  np ← dict_comprehension (nuisance_parameters this) x (0 + n_fit_p) ∅;
  let d := <["nuisance_parameters" := np]> d in
  wc ← dict_comprehension (fit_wc_names this) x (0 + n_fit_p + n_nui_p) ∅;
  let d := <["fit_wc" := wc]> d in
  Ok d.

(** [[d[key][p] for p in names]] *)
Definition values_of (d : gmap string (gmap string float)) (key : string)
    (names : list string) : Result (list float) :=
  mapM (λ p, sub ← getkey d key; getkey sub p) names.

Definition BayesianFit_dict_to_array (this : FitObject)
    (d : gmap string (gmap string float)) : Result (list float) :=
  let n_fit_p := length (fit_parameters this) in
  let n_nui_p := length (nuisance_parameters this) in
  let n_wc := length (fit_wc_names this) in
  let arr := np_zeros (n_fit_p + n_nui_p + n_wc) in
  vals ← values_of d "fit_parameters" (fit_parameters this);
  arr ← setslice arr 0 (Some n_fit_p) vals;
  vals ← values_of d "nuisance_parameters" (nuisance_parameters this);
  arr ← setslice arr n_fit_p (Some (n_fit_p + n_nui_p)) vals;
  vals ← values_of d "fit_wc" (fit_wc_names this);
  arr ← setslice arr (n_fit_p + n_nui_p) None vals;
  Ok arr.

(** * class FastFit: the two conversions *)

Definition FastFit_array_to_dict (this : FitObject) (x : list float)
    : Result (gmap string (gmap string float)) :=
  let d : gmap string (gmap string float) := ∅ in
  let n_fit_p := length (fit_parameters this) in
  let n_wc := length (fit_wc_names this) in
  fp ← dict_comprehension (fit_parameters this) x 0 ∅;
  let d := <["fit_parameters" := fp]> d in
  wc ← dict_comprehension (fit_wc_names this) x (0 + n_fit_p) ∅;
  let d := <["fit_wc" := wc]> d in
  Ok d.

(** The locals of [FastFit.dict_to_array] are [self], [d], [n_fit_p], [n_wc]
    and [arr]; the name [n_nui_p] in its third statement is none of them, so
    it is read from the module. *)
Definition FastFit_dict_to_array (this : FitObject)
    (d : gmap string (gmap string float)) : Result (list float) :=
  let n_fit_p := length (fit_parameters this) in
  let n_wc := length (fit_wc_names this) in
  g ← load_global "n_nui_p";
  n_nui_p ← int_of_global g;
  let arr := np_zeros (n_fit_p + n_nui_p + n_wc) in
  vals ← values_of d "fit_parameters" (fit_parameters this);
  arr ← setslice arr 0 (Some n_fit_p) vals;
  vals ← values_of d "fit_wc" (fit_wc_names this);
  arr ← setslice arr n_fit_p None vals;
  Ok arr.

(** [self.array_to_dict(x)] and [self.dict_to_array(d)]: the method of the
    class of the object. *)
Definition array_to_dict (this : FitObject) (x : list float)
    : Result (gmap string (gmap string float)) :=
  match cls this with
  | FastFitC => FastFit_array_to_dict this x
  | BayesianFitC => BayesianFit_array_to_dict this x
  | FitC => Raise (AttributeError "'Fit' object has no attribute 'array_to_dict'")
  end.

Definition dict_to_array (this : FitObject) (d : gmap string (gmap string float))
    : Result (list float) :=
  match cls this with
  | FastFitC => FastFit_dict_to_array this d
  | BayesianFitC => BayesianFit_dict_to_array this d
  | FitC => Raise (AttributeError "'Fit' object has no attribute 'dict_to_array'")
  end.

(** * class BayesianFit: evaluation *)

Definition BayesianFit_get_par_dict (self : loc) (x : list float) : M loc :=
  enter "BayesianFit.get_par_dict";;
  this ← load_fit self;
  d ← lift (array_to_dict this x);
  par_dict ← dict_copy (parameters_central this);
  sub ← lift (getkey d "fit_parameters");
  dict_update par_dict sub;;
  sub ← lift (getkey d "nuisance_parameters");
  dict_update par_dict sub;;
  mret par_dict.

Definition FastFit_get_par_dict (self : loc) (x : list float) : M loc :=
  enter "FastFit.get_par_dict";;
  this ← load_fit self;
  d ← lift (array_to_dict this x);
  par_dict ← dict_copy (parameters_central this);
  sub ← lift (getkey d "fit_parameters");
  dict_update par_dict sub;;
  mret par_dict.

(** [self.get_par_dict(x)] *)
Definition get_par_dict (self : loc) (x : list float) : M loc :=
  this ← load_fit self;
  match cls this with
  | FastFitC => FastFit_get_par_dict self x
  | BayesianFitC => BayesianFit_get_par_dict self x
  | FitC => lift (Raise (AttributeError "'Fit' object has no attribute 'get_par_dict'"))
  end.

Definition get_wc_obj (self : loc) (x : list float) : M WilsonCoefficients :=
  enter "BayesianFit.get_wc_obj";;
  this ← load_fit self;
  let wc_obj := {| wc_initial := None |} in
  (* if there are no WCs to be fitted, return the SM WCs *)
  match fit_wc_names this with
  | [] => mret wc_obj
  | _ =>
      d ← lift (array_to_dict this x);
      fit_wc ← lift (getkey d "fit_wc");
      match fit_wc_function this with
      | Some f =>
          initial ← lift (f fit_wc);
          mret {| wc_initial := Some (initial, input_scale this) |}
      | None => lift (Raise (TypeError "'NoneType' object is not callable"))
      end
  end.

Definition log_prior_parameters (self : loc) (x : list float) : M float :=
  enter "BayesianFit.log_prior_parameters";;
  par_dict ← get_par_dict self x;
  this ← load_fit self;
  pd ← load_dict par_dict;
  let exclude_parameters :=
    set_diff (set_diff (set_of (map_to_list pd).*1) (set_of (fit_parameters this)))
             (set_of (nuisance_parameters this)) in
  par ← load_params (par_obj this);
  prob_dict ← lift (get_logprobability_all par pd exclude_parameters);
  mret (py_sum prob_dict).

Definition log_prior_wilson_coeffs (self : loc) (x : list float) : M float :=
  enter "BayesianFit.log_prior_wilson_coeffs";;
  this ← load_fit self;
  match fit_wc_priors this with
  | None => mret 0%float
  | Some priors =>
      d ← lift (array_to_dict this x);
      wc_dict ← lift (getkey d "fit_wc");
      par ← load_params priors;
      prob_dict ← lift (get_logprobability_all par wc_dict []);
      mret (py_sum prob_dict)
  end.

Definition get_predictions (self : loc) (x : list float) : M (list (obs * float)) :=
  enter "BayesianFit.get_predictions";;
  par_dict ← get_par_dict self x;
  wc_obj ← get_wc_obj self x;
  this ← load_fit self;
  for_fold (observables this) [] (λ all_predictions observable,
    _inst ← Observable_get_instance (obs_name observable);
    pd ← load_dict par_dict;
    v ← lift (prediction_par _inst pd wc_obj (obs_args observable));
    mret (obs_dict_set observable v all_predictions)).

(** [set(m_obs) - set(self.observables)] *)
Definition exclude_observables (this : FitObject) (m_obj : Measurement) : list obs :=
  set_diff (set_of (all_parameters m_obj)) (set_of (observables this)).

Definition BayesianFit_log_likelihood (self : loc) (x : list float) : M float :=
  enter "BayesianFit.log_likelihood";;
  predictions ← get_predictions self x;
  ms ← get_measurements self;
  for_fold ms 0%float (λ ll measurement,
    m_obj ← Measurement_get_instance measurement;
    this ← load_fit self;
    prob_dict ← lift (measurement_get_logprobability_all m_obj predictions
                        (exclude_observables this m_obj));
    mret (PrimFloat.add ll (py_sum prob_dict))).

(** * class FastFit *)

Definition FastFit__init__ (a : FitArgs) : M loc :=
  enter "FastFit.__init__";;
  self ← BayesianFit__init__ FastFitC a;
  this ← load_fit self;
  store self (FitObj {|
    cls := cls this; name := name this; par_obj := par_obj this;
    parameters_central := parameters_central this;
    fit_parameters := fit_parameters this;
    nuisance_parameters := nuisance_parameters this;
    exclude_measurements := exclude_measurements this;
    include_measurements := include_measurements this;
    fit_wc_names := fit_wc_names this;
    fit_wc_function := fit_wc_function this;
    fit_wc_priors := fit_wc_priors this;
    observables := observables this;
    input_scale := input_scale this;
    dimension := dimension this;
    measurements := Some None |});;
  mret self.

(** [d[k]] on a dictionary keyed by observable references. *)
Definition obs_getkey (d : list (obs * float)) (k : obs) : Result float :=
  match assoc_lookup k d with
  | Some v => Ok v
  | None => Raise (KeyError (repr_obs k))
  end.

(** [a[:, i] = v], [a[i, :] = v] and [a[i, i] = v] on an array. *)
Definition set_col (a : ndarray) (i : nat) (v : float) : Result ndarray :=
  match a with
  | Arr2 rows =>
      Arr2 <$> mapM (λ row, _ ← getitem row i; Ok (<[i := v]> row)) rows
  | _ => too_many_indices
  end.
Definition set_row (a : ndarray) (i : nat) (v : float) : Result ndarray :=
  match a with
  | Arr2 rows => row ← getitem rows i; Ok (Arr2 (<[i := replicate (length row) v]> rows))
  | _ => too_many_indices
  end.
Definition set_elem (a : ndarray) (i j : nat) (v : float) : Result ndarray :=
  match a with
  | Arr2 rows => Arr2 <$> setitem2 rows i j v
  | _ => too_many_indices
  end.

Definition _get_central_covariance_experiment (self : loc) (N : nat)
    : M (ndarray * ndarray) :=
  enter "FastFit._get_central_covariance_experiment";;
  ms ← get_measurements self;
  this ← load_fit self;
  mc ← mapM (λ measurement,
      m_obj ← Measurement_get_instance measurement;
      (* obs. included in the fit and constrained by this measurement *)
      let our_obs := set_inter (set_of (all_parameters m_obj)) (observables this) in
      (* one row of random values of these observables per draw *)
      draws ← mapM (λ _ : nat,
          k ← next_draw;
          let m_random := measurement_get_random_all m_obj k in
          lift (mapM (obs_getkey m_random) our_obs)) (seq 0 N);
      let random_arr :=
        (λ o, match list_find (λ o', o' = o) our_obs with
              | Some (j, _) => (λ d, default 0%float (d !! j)) <$> draws
              | None => np_zeros N
              end) <$> observables this in
      let mean := np_mean_axis1 random_arr in
      let covariance := np_cov random_arr in
      covariance ← lift (for_fold (imap (λ i o, (i, o)) (observables this)) covariance
        (λ covariance '(i, o),
           if decide (o ∈ our_obs) then Ok covariance
           else
             covariance ← set_col covariance i 0%float;
             covariance ← set_row covariance i 0%float;
             set_elem covariance i i infinity));
      mret (mean, covariance)) ms;
  let means := mc.*1 in
  let covariances := mc.*2 in
  match mc with
  | [(mean, covariance)] => mret (mean, covariance)
  | _ =>
      if decide (length (observables this) = 1) then
        let weights := np_reciprocal <$> covariances in
        let weighted_covariance := np_reciprocal (np_sum_axis0 weights) in
        let weighted_mean :=
          np_multiply weighted_covariance (np_sum (zip_with np_dot weights means)) in
        mret (weighted_mean, weighted_covariance)
      else
        weights ← lift (mapM np_linalg_inv covariances);
        weighted_covariance ← lift (np_linalg_inv (np_sum_axis0 weights));
        let weighted_mean :=
          np_dot weighted_covariance (np_sum_axis0 (zip_with np_dot weights means)) in
        mret (weighted_mean, weighted_covariance)
  end.

(** The local function [random_nuisance_dict] of [_get_covariance_sm]. *)
Definition random_nuisance_dict (self : loc) (par_central : gmap string float)
    : M (gmap string float) :=
  arr ← get_random_nuisance_parameters self;
  this ← load_fit self;
  nuis_dict ← lift (dict_comprehension (nuisance_parameters this) arr 0 ∅);
  mret (nuis_dict ∪ par_central).

Definition _get_covariance_sm (self : loc) (N : nat) : M ndarray :=
  enter "FastFit._get_covariance_sm";;
  this ← load_fit self;
  par ← load_params (par_obj this);
  let par_central := get_central_all par in
  par_random ← mapM (λ _ : nat, random_nuisance_dict self par_central) (seq 0 N);
  let wc_sm := {| wc_initial := None |} in
  pred_arr ← mapM (λ observable,
      _inst ← Observable_get_instance (obs_name observable);
      lift (mapM (λ par, prediction_par _inst par wc_sm (obs_args observable))
                 par_random)) (observables this);
  mret (np_cov pred_arr).

(** [np.diff(constraint.support.T[1])[0]] *)
Definition support_range (constraint : Distribution) : Result float :=
  column ← ndarray_getitem (ndarray_T (support constraint)) 1;
  differences ← np_diff column;
  r ← ndarray_getitem differences 0;
  as_scalar r.

(** [(r/100000.)**2], the square being the product of the quotient with
    itself. *)
Definition small_variance (r : float) : float :=
  let q := PrimFloat.div r 100000%float in PrimFloat.mul q q.

(** The loop over [index_zero] in [make_measurement]: every index of a zero
    on the diagonal gets [(r/100000.)**2], with [r] read from the support of
    the constraint. *)
Definition fix_zero_variances (constraint : Distribution)
    (cov_sm_p : list (list float)) : Result (list (list float)) :=
  let index_zero := where_zero (np_diag cov_sm_p) in
  for_fold index_zero cov_sm_p (λ cov_sm_p_fixed i,
    r ← support_range constraint;
    setitem2 cov_sm_p_fixed i i (small_variance r)).

(** [DeltaDistribution(central_value)], the name being read from the module. *)
Definition call_DeltaDistribution (c : ndarray) : Result Distribution :=
  _ ← load_global "DeltaDistribution";
  Ok (DeltaDistribution c).

(** The theory distribution of one constraint block of a measurement. *)
Definition theory_constraint (this : FitObject) (cov_sm : ndarray)
    (constraint : Distribution) (parameters : list obs) : Result Distribution :=
  ppos ← mapM (list_index repr_obs (observables this)) parameters;
  (* construct the theory covariance *)
  cov_sm_p ← fancy_index cov_sm ppos;
  if decide (length ppos = 1) then
    (* if there is only one observable: univariate Gaussian *)
    v ← getitem2 cov_sm_p 0 0;
    let std := PrimFloat.sqrt v in
    if PrimFloat.eqb std 0%float then
      call_DeltaDistribution (central_value constraint)
    else
      Ok (NormalDistribution (central_value constraint) std)
  else
    (* if there is more than one observable: multivariate Gaussian *)
    cov_sm_p_fixed ← fix_zero_variances constraint cov_sm_p;
    Ok (MultivariateNormalDistribution (central_value constraint) cov_sm_p_fixed).

(** [pm.add_constraint(parameters, constraint)] on the pseudo-measurement
    registered under [pm]. *)
Definition pseudo_add_constraint (pm : string) (parameters : list obs)
    (constraint : Distribution) : M unit :=
  m ← PseudoMeasurement_get_instance pm;
  modify (λ w, set_pseudo_measurements
                 (<[pm := add_constraint m parameters constraint]>
                    (w_pseudo_measurements w)) w).

(** The body of the loop of [make_measurement] over the constraint blocks
    of a measurement, [pm] being the name of its pseudo-measurement. *)
Definition add_theory_uncertainty (self : loc) (cov_sm : ndarray) (pm : string)
    (block : Distribution * list obs) : M unit :=
  let '(constraint, parameters) := block in
  this ← load_fit self;
  constraint_th ← lift (theory_constraint this cov_sm constraint parameters);
  let constraint_comb := convolve_distributions [constraint; constraint_th] in
  pseudo_add_constraint pm parameters constraint_comb.

(** The body of its loop over the measurements. *)
Definition make_pseudo_measurement (self : loc) (cov_sm : ndarray)
    (measurement : string) : M unit :=
  m_obj ← Measurement_get_instance measurement;
  this ← load_fit self;
  let pm := name this +:+ measurement in
  modify (λ w, set_pseudo_measurements
                 (<[pm := empty_measurement]> (w_pseudo_measurements w)) w);;
  for_ (_constraints m_obj) (add_theory_uncertainty self cov_sm pm).

Definition make_measurement (self : loc) (N Nexp : nat) : M unit :=
  enter "FastFit.make_measurement";;
  cov_sm ← _get_covariance_sm self N;
  (* add the Pseudo-measurements *)
  ms ← get_measurements self;
  for_ ms (make_pseudo_measurement self cov_sm).

Definition FastFit_log_likelihood (self : loc) (x : list float) : M float :=
  enter "FastFit.log_likelihood";;
  predictions ← get_predictions self x;
  ms ← get_measurements self;
  for_fold ms 0%float (λ ll measurement,
    this ← load_fit self;
    m_obj ← PseudoMeasurement_get_instance (name this +:+ measurement);
    prob_dict ← lift (measurement_get_logprobability_all m_obj predictions
                        (exclude_observables this m_obj));
    mret (PrimFloat.add ll (py_sum prob_dict))).

(** Creating an object of class [k]: [Fit(...)], [BayesianFit(...)] or
    [FastFit(...)]. *)
Definition new (k : FitClass) (a : FitArgs) : M loc :=
  match k with
  | FitC => Fit__init__ FitC a
  | BayesianFitC => BayesianFit__init__ BayesianFitC a
  | FastFitC => FastFit__init__ a
  end.

(** [self.log_likelihood(x)] *)
Definition log_likelihood (self : loc) (x : list float) : M float :=
  this ← load_fit self;
  match cls this with
  | FastFitC => FastFit_log_likelihood self x
  | BayesianFitC => BayesianFit_log_likelihood self x
  | FitC => lift (Raise (AttributeError "'Fit' object has no attribute 'log_likelihood'"))
  end.

Definition log_target (self : loc) (x : list float) : M float :=
  enter "BayesianFit.log_target";;
  ll ← log_likelihood self x;
  lp ← log_prior_parameters self x;
  lw ← log_prior_wilson_coeffs self x;
  mret (PrimFloat.add (PrimFloat.add ll lp) lw).

(** * The other properties of [Fit], and [BayesianFit.get_random] *)

(** The property [get_central_fit_parameters]. *)
Definition get_central_fit_parameters (self : loc) : M (list float) :=
  enter "Fit.get_central_fit_parameters";;
  this ← load_fit self;
  central ← load_dict (parameters_central this);
  lift (mapM (getkey central) (fit_parameters this)).

(** The property [get_random_fit_parameters]. *)
Definition get_random_fit_parameters (self : loc) : M (list float) :=
  enter "Fit.get_random_fit_parameters";;
  this ← load_fit self;
  par ← load_params (par_obj this);
  k ← next_draw;
  let all_random := get_random_all par k in
  lift (mapM (getkey all_random) (fit_parameters this)).

(** The property [get_random_wilson_coeffs]: [None] without priors. *)
Definition get_random_wilson_coeffs (self : loc) : M (option (list float)) :=
  enter "Fit.get_random_wilson_coeffs";;
  this ← load_fit self;
  match fit_wc_priors this with
  | None => mret None
  | Some priors =>
      par ← load_params priors;
      k ← next_draw;
      let all_random := get_random_all par k in
      vals ← lift (mapM (getkey all_random) (fit_wc_names this));
      mret (Some vals)
  end.

(** The property [get_central_nuisance_parameters]. *)
Definition get_central_nuisance_parameters (self : loc) : M (list float) :=
  enter "Fit.get_central_nuisance_parameters";;
  this ← load_fit self;
  central ← load_dict (parameters_central this);
  lift (mapM (getkey central) (nuisance_parameters this)).

(** The value stored in a float array: an array as it is, [None] as the
    scalar NaN, which is broadcast over the slice. *)
Definition stored_values (vals : option (list float)) : list float :=
  match vals with
  | Some v => v
  | None => [nan]
  end.

(** The property [get_random] of [BayesianFit], inherited by [FastFit]. *)
Definition BayesianFit_get_random (self : loc) : M (list float) :=
  enter "BayesianFit.get_random";;
  this ← load_fit self;
  n ← lift (match dimension this with
            | Some n => Ok n
            | None => Raise (AttributeError "object has no attribute 'dimension'")
            end);
  let arr := np_zeros n in
  let n_fit_p := length (fit_parameters this) in
  let n_nui_p := length (nuisance_parameters this) in
  vals ← get_random_fit_parameters self;
  arr ← lift (setslice arr 0 (Some n_fit_p) vals);
  vals ← get_random_nuisance_parameters self;
  arr ← lift (setslice arr n_fit_p (Some (n_fit_p + n_nui_p)) vals);
  vals ← get_random_wilson_coeffs self;
  arr ← lift (setslice arr (n_fit_p + n_nui_p) None (stored_values vals));
  mret arr.

End Model.

(** * Vocabulary of the statements *)

Section Vocabulary.
Context {Arg : Type} `{EqDecision Arg} `{Externals Arg}.

Local Abbreviation obs := (ObsRef Arg).
Local Abbreviation FitObject := (@FitObject Arg).
Local Abbreviation FitArgs := (@FitArgs Arg).

(** A computation that only reads. *)
Definition reads {A} (m : M A) : Prop := ∀ w, (m w).2 = w.

(** At most one of the two filters of measurements is given. *)
Definition filters_exclusive (this : FitObject) : Prop :=
  ¬ (is_Some (exclude_measurements this) ∧ is_Some (include_measurements this)).

(** The measurement registered under [n] constrains an observable of the fit. *)
Definition constrains_fit_observable (this : FitObject) (w : World) (n : string) : Prop :=
  ∃ m o, (n, m) ∈ w_measurements w ∧ o ∈ all_parameters m ∧ o ∈ observables this.

(** A listed observable that no measurement of the registry constrains. *)
Definition unconstrained (a : FitArgs) (w : World) (o : obs) : Prop :=
  o ∈ a_observables a ∧ ∀ n m, (n, m) ∈ w_measurements w → o ∉ all_parameters m.

(** Every fit and nuisance parameter is a key of the parameter registry,
    and every listed observable is registered. *)
Definition parameters_known (a : FitArgs) (w : World) : Prop :=
  ∀ p, p ∈ a_fit_parameters a ++ a_nuisance_parameters a →
    ∃ par, w_heap w !! a_par_obj a = Some (ParamsObj par) ∧ p ∈ parameters_keys par.
Definition observables_known (a : FitArgs) (w : World) : Prop :=
  ∀ o, o ∈ a_observables a → obs_name o ∈ w_observables w.

(** Two worlds with the same objects and the same registries of
    observables and measurements. *)
Definition same_registries (w w' : World) : Prop :=
  w_heap w' = w_heap w ∧ w_observables w' = w_observables w
  ∧ w_measurements w' = w_measurements w.

(** The attributes of an object of class [c] built from the arguments [a],
    with its snapshot of the central values at [central], once the
    [__init__] of class [k] has run (and so that of its base classes). *)
Definition object_after (k c : FitClass) (a : FitArgs) (central : loc)
    : FitObject := {|
  cls := c;
  name := a_name a;
  par_obj := a_par_obj a;
  parameters_central := central;
  fit_parameters := a_fit_parameters a;
  nuisance_parameters := a_nuisance_parameters a;
  exclude_measurements := a_exclude_measurements a;
  include_measurements := a_include_measurements a;
  fit_wc_names := a_fit_wc_names a;
  fit_wc_function := a_fit_wc_function a;
  fit_wc_priors := a_fit_wc_priors a;
  observables := a_observables a;
  input_scale := a_input_scale a;
  dimension :=
    match k with
    | FitC => None
    | _ => Some (length (a_fit_parameters a) + length (a_nuisance_parameters a)
                 + length (a_fit_wc_names a))
    end;
  measurements := match k with FastFitC => Some None | _ => None end
|}.

Definition constructed_object (k : FitClass) (a : FitArgs) (central : loc)
    : FitObject := object_after k k a central.

(** The world after a successful construction in [w]: the object and the
    snapshot are the two new objects, the object is registered under its
    name, and the registries are as they were. *)
Definition constructed (k : FitClass) (a : FitArgs) (w w' : World) (self : loc) : Prop :=
  ∃ par,
    w_heap w !! a_par_obj a = Some (ParamsObj par)
    ∧ self = length (w_heap w)
    ∧ w_heap w' = w_heap w ++ [FitObj (constructed_object k a (S (length (w_heap w))));
                               DictObj (get_central_all par)]
    ∧ w_fit_instances w' = <[a_name a := self]> (w_fit_instances w)
    ∧ w_observables w' = w_observables w
    ∧ w_measurements w' = w_measurements w
    ∧ w_pseudo_measurements w' = w_pseudo_measurements w
    ∧ w_rng w' = w_rng w
    ∧ ∃ w1, same_registries w w1 ∧ validate a w1 = (Ok tt, w1).

(** The dictionary [sub] maps every name of [names] to the entry of [x] at
    the position of an occurrence of the name, shifted by [k], and has no
    other key. *)
Definition slice_dict (names : list string) (x : list float) (k : nat)
    (sub : gmap string float) : Prop :=
  (∀ p, p ∉ names → sub !! p = None)
  ∧ (∀ p, p ∈ names →
       ∃ i, names !! i = Some p ∧ is_Some (x !! (k + i)) ∧ sub !! p = x !! (k + i)).

(** A dictionary of [BayesianFit]: the three sub-dictionaries, each with
    exactly the names of its list as keys. *)
Definition keys_are (names : list string) (sub : gmap string float) : Prop :=
  ∀ p, is_Some (sub !! p) ↔ p ∈ names.

Definition valid_dict (this : FitObject) (d : gmap string (gmap string float)) : Prop :=
  ∃ fp np wc,
    d = <["fit_wc" := wc]> (<["nuisance_parameters" := np]> (<["fit_parameters" := fp]> ∅))
    ∧ keys_are (fit_parameters this) fp
    ∧ keys_are (nuisance_parameters this) np
    ∧ keys_are (fit_wc_names this) wc.

(** A matrix with [n] rows of [n] entries. *)
Definition square (n : nat) (a : list (list float)) : Prop :=
  length a = n ∧ Forall (λ row, length row = n) a.

(** The entry [a[i, j]] of a matrix, when there is one. *)
Definition entry (a : list (list float)) (i j : nat) : option float :=
  a !! i ≫= (.!! j).

(** Every step of a computation relates the world before to the world
    after, whatever the world it starts from and whether it raises or not. *)
Definition keeps (R : World → World → Prop) {A} (m : M A) : Prop :=
  ∀ w, R w (m w).2.

(** The methods entered between [w] and [w'] all satisfy [S]. *)
Definition logs_only (S : string → Prop) (w w' : World) : Prop :=
  ∃ new, w_calls w' = new ++ w_calls w ∧ Forall S new.

Definition not_the_experiment_covariance (method : string) : Prop :=
  method ≠ "FastFit._get_central_covariance_experiment".

(** The objects of [w] are still there in [w'], unchanged, and so are the
    registries of observables and measurements. *)
Definition frame (w w' : World) : Prop :=
  w_heap w `prefix_of` w_heap w'
  ∧ w_observables w' = w_observables w
  ∧ w_measurements w' = w_measurements w.

(** Moreover no pseudo-measurement or fit was registered and no random
    draw was taken. *)
Definition frame_eval (w w' : World) : Prop :=
  frame w w'
  ∧ w_pseudo_measurements w' = w_pseudo_measurements w
  ∧ w_fit_instances w' = w_fit_instances w
  ∧ w_rng w' = w_rng w.

(** The measurement [m], registered under [n], is relevant to the fit and
    has a constraint block [(c, ps)]. *)
Definition relevant_block (this : FitObject) (w : World) (n : string)
    (m : Measurement) (c : Distribution) (ps : list obs) : Prop :=
  n ∈ relevant_measurements this (w_measurements w)
  ∧ assoc_lookup n (w_measurements w) = Some m
  ∧ (c, ps) ∈ _constraints m.

(** The theory distribution of every block of the list can be built. *)
Definition blocks_complete (this : FitObject) (cov_sm : ndarray)
    (blocks : list (Distribution * list obs)) : Prop :=
  Forall (λ b, is_Ok (theory_constraint this cov_sm b.1 b.2) = true) blocks.

(** Every measurement of the list is registered, and the theory
    distribution of each of its blocks can be built. *)
Definition measurements_complete (this : FitObject) (cov_sm : ndarray)
    (w : World) (names : list string) : Prop :=
  Forall (λ n, ∃ m, assoc_lookup n (w_measurements w) = Some m
                    ∧ blocks_complete this cov_sm (_constraints m)) names.

(** The fit object and the measurements that [make_measurement] works with. *)
Definition fit_at (self : loc) (this : FitObject)
    (ms : list (string * Measurement)) (w : World) : Prop :=
  w_heap w !! self = Some (FitObj this) ∧ w_measurements w = ms.

(** The content of the dictionary that [get_par_dict(x)] returns, for a
    fit whose snapshot of the central values is [snap]. *)
Definition par_dict_of (this : FitObject) (snap : gmap string float)
    (x : list float) : Result (gmap string float) :=
  match cls this with
  | FitC => Raise (AttributeError "'Fit' object has no attribute 'get_par_dict'")
  | BayesianFitC =>
      d ← array_to_dict this x;
      fp ← getkey d "fit_parameters";
      np ← getkey d "nuisance_parameters";
      Ok (np ∪ (fp ∪ snap))
  | FastFitC =>
      d ← array_to_dict this x;
      fp ← getkey d "fit_parameters";
      Ok (fp ∪ snap)
  end.

(** What [get_wc_obj(x)] returns. *)
Definition wc_obj_of (this : FitObject) (x : list float) : Result WilsonCoefficients :=
  match fit_wc_names this with
  | [] => Ok {| wc_initial := None |}
  | _ =>
      d ← array_to_dict this x;
      fit_wc ← getkey d "fit_wc";
      match fit_wc_function this with
      | Some f =>
          initial ← f fit_wc;
          Ok {| wc_initial := Some (initial, input_scale this) |}
      | None => Raise (TypeError "'NoneType' object is not callable")
      end
  end.

(** What [get_predictions(x)] returns, given the names of the registered
    observables. *)
Definition predictions_of (this : FitObject) (snap : gmap string float)
    (x : list float) (registered : list string) : Result (list (obs * float)) :=
  pd ← par_dict_of this snap x;
  wc_obj ← wc_obj_of this x;
  for_fold (observables this) [] (λ all_predictions observable,
    _inst ← (if decide (obs_name observable ∈ registered)
             then Ok (obs_name observable)
             else Raise (KeyError (obs_name observable)));
    v ← prediction_par _inst pd wc_obj (obs_args observable);
    Ok (obs_dict_set observable v all_predictions)).

(** What [log_likelihood(x)] returns, given the registries of measurements
    and pseudo-measurements. *)
Definition log_likelihood_of (this : FitObject) (snap : gmap string float)
    (x : list float) (registered : list string)
    (ms : list (string * Measurement)) (pseudo : gmap string Measurement)
    : Result float :=
  match cls this with
  | FitC => Raise (AttributeError "'Fit' object has no attribute 'log_likelihood'")
  | BayesianFitC =>
      predictions ← predictions_of this snap x registered;
      for_fold (relevant_measurements this ms) 0%float (λ ll measurement,
        m_obj ← (match assoc_lookup measurement ms with
                 | Some m => Ok m
                 | None => Raise (KeyError measurement)
                 end);
        prob_dict ← measurement_get_logprobability_all m_obj predictions
                      (exclude_observables this m_obj);
        Ok (PrimFloat.add ll (py_sum prob_dict)))
  | FastFitC =>
      predictions ← predictions_of this snap x registered;
      for_fold (relevant_measurements this ms) 0%float (λ ll measurement,
        m_obj ← (match pseudo !! (name this +:+ measurement) with
                 | Some m => Ok m
                 | None => Raise (KeyError (name this +:+ measurement))
                 end);
        prob_dict ← measurement_get_logprobability_all m_obj predictions
                      (exclude_observables this m_obj);
        Ok (PrimFloat.add ll (py_sum prob_dict)))
  end.

(** What [log_prior_parameters(x)] returns when the parameter registry is
    [par] at the time of the call. *)
Definition log_prior_of (this : FitObject) (snap : gmap string float)
    (x : list float) (par : ParameterConstraints) : Result float :=
  pd ← par_dict_of this snap x;
  prob_dict ← get_logprobability_all par pd
    (set_diff (set_diff (set_of (map_to_list pd).*1) (set_of (fit_parameters this)))
              (set_of (nuisance_parameters this)));
  Ok (py_sum prob_dict).

(** The world [w] after the state of the parameter registry at [l] has
    become [par]. *)
Definition with_registry (l : loc) (par : ParameterConstraints) (w : World) : World :=
  set_heap (<[l := ParamsObj par]> (w_heap w)) w.

(** The fit object at [self], its snapshot and its parameter registry. *)
Definition fit_in (w : World) (self : loc) (this : FitObject)
    (snap : gmap string float) (par : ParameterConstraints) : Prop :=
  w_heap w !! self = Some (FitObj this)
  ∧ w_heap w !! parameters_central this = Some (DictObj snap)
  ∧ w_heap w !! par_obj this = Some (ParamsObj par).

(** The dictionary object at a location returned by a computation. *)
Definition dict_at (w : World) (r : Result loc) : Result (gmap string float) :=
  l ← r;
  match w_heap w !! l with
  | Some (DictObj d) => Ok d
  | _ => Raise (AttributeError "not a dict")
  end.

(** Nothing was allocated and no fit was registered. *)
Definition no_object_produced (w w' : World) : Prop :=
  w_heap w' = w_heap w ∧ w_fit_instances w' = w_fit_instances w.

(** ** The arguments that the constructor accepts *)

(** Every listed observable is constrained by some measurement. *)
Definition observables_constrained (a : FitArgs) (w : World) : Prop :=
  ∀ o, ¬ unconstrained a w o.

Definition one_filter_at_most (a : FitArgs) : Prop :=
  ¬ (is_Some (a_exclude_measurements a) ∧ is_Some (a_include_measurements a)).

(** No parameter is both a fit parameter and a nuisance parameter. *)
Definition parameters_disjoint (a : FitArgs) : Prop :=
  ∀ p, p ∈ a_fit_parameters a → p ∉ a_nuisance_parameters a.

(** The keyword arguments of the probing call of the function of the
    couplings: every name with the value [1e-6]. *)
Definition wc_probe (a : FitArgs) : gmap string float :=
  list_to_map ((λ n, (n, probe_value)) <$> a_fit_wc_names a).

(** There is no coupling to fit, or the function returns on the probe. *)
Definition wc_function_works (a : FitArgs) : Prop :=
  a_fit_wc_names a = []
  ∨ ∃ f, a_fit_wc_function a = Some f ∧ is_Ok (f (wc_probe a)) = true.

(** The six checks of [Fit.__init__] pass. *)
Definition valid_arguments (a : FitArgs) (w : World) : Prop :=
  parameters_known a w ∧ observables_known a w ∧ observables_constrained a w
  ∧ one_filter_at_most a ∧ parameters_disjoint a ∧ wc_function_works a.

(** The location holds a parameter registry. *)
Definition registry_at (w : World) (l : loc) : Prop :=
  ∃ par, w_heap w !! l = Some (ParamsObj par).

(** Two worlds that differ at most in the log of the methods entered. *)
Definition same_but_log (w w' : World) : Prop :=
  w_heap w' = w_heap w ∧ w_observables w' = w_observables w
  ∧ w_measurements w' = w_measurements w
  ∧ w_pseudo_measurements w' = w_pseudo_measurements w
  ∧ w_fit_instances w' = w_fit_instances w ∧ w_rng w' = w_rng w.

(** The world after a construction that raised once the parent class had
    registered the instance: the instance, with its name and [par_obj] as
    its only attributes, is the one new object and is registered under its
    name; the registries and the random generator are as they were. *)
Definition registered_only (k : FitClass) (a : FitArgs) (w w' : World) : Prop :=
  w_heap w' = w_heap w ++ [NewObj k (a_name a) (Some (a_par_obj a))]
  ∧ w_fit_instances w' = <[a_name a := length (w_heap w)]> (w_fit_instances w)
  ∧ w_observables w' = w_observables w
  ∧ w_measurements w' = w_measurements w
  ∧ w_pseudo_measurements w' = w_pseudo_measurements w
  ∧ w_rng w' = w_rng w.

(** The dictionary [d] has, under [key], a value for every name of the list
    (nothing is asked of [d] when the list is empty). *)
Definition has_values (d : gmap string (gmap string float)) (key : string)
    (names : list string) : Prop :=
  ∀ p, p ∈ names → ∃ sub, d !! key = Some sub ∧ is_Some (sub !! p).

(** ** The evaluations of the likelihood *)

(** The priors of the couplings of a fit: none, or the state of the registry
    at the location that the fit holds. *)
Definition wc_priors_in (w : World) (this : FitObject)
    (priors : option ParameterConstraints) : Prop :=
  match fit_wc_priors this with
  | None => priors = None
  | Some l => ∃ par, w_heap w !! l = Some (ParamsObj par) ∧ priors = Some par
  end.

(** What [log_prior_wilson_coeffs(x)] returns. *)
Definition log_prior_wc_of (this : FitObject) (x : list float)
    (priors : option ParameterConstraints) : Result float :=
  match priors with
  | None => Ok 0%float
  | Some par =>
      d ← array_to_dict this x;
      wc_dict ← getkey d "fit_wc";
      prob_dict ← get_logprobability_all par wc_dict [];
      Ok (py_sum prob_dict)
  end.

(** ** The pseudo-measurements *)

(** The constraints that [make_measurement] adds to a pseudo-measurement,
    block after block: each experimental constraint convolved with its
    theory distribution. *)
Definition combine_blocks (this : FitObject) (cov_sm : ndarray)
    (blocks : list (Distribution * list obs)) (pm : Measurement) : Result Measurement :=
  for_fold blocks pm (λ pm block,
    constraint_th ← theory_constraint this cov_sm block.1 block.2;
    Ok (add_constraint pm block.2 (convolve_distributions [block.1; constraint_th]))).

Definition pseudo_measurement_of (this : FitObject) (cov_sm : ndarray)
    (m : Measurement) : Result Measurement :=
  combine_blocks this cov_sm (_constraints m) empty_measurement.

(** The parameter dictionary of the draw [k]: the central values of the
    registry, with the nuisance parameters at their values of the draw. *)
Definition sampled_parameters (this : FitObject) (par : ParameterConstraints)
    (k : nat) : Result (gmap string float) :=
  arr ← mapM (getkey (get_random_all par k)) (nuisance_parameters this);
  nuis_dict ← dict_comprehension (nuisance_parameters this) arr 0 ∅;
  Ok (nuis_dict ∪ get_central_all par).

(** What [_get_covariance_sm(N)] returns when the registry is [par] and the
    next draw is [k0]: the covariance of the predictions of the observables,
    in the Standard Model, on the dictionaries of [N] consecutive draws. *)
Definition covariance_sm_of (this : FitObject) (par : ParameterConstraints)
    (registered : list string) (N k0 : nat) : Result ndarray :=
  par_random ← mapM (sampled_parameters this par) (seq k0 N);
  pred_arr ← mapM (λ observable : obs,
      _inst ← (if decide (obs_name observable ∈ registered)
               then Ok (obs_name observable)
               else Raise (KeyError (obs_name observable)));
      mapM (λ p, prediction_par _inst p {| wc_initial := None |} (obs_args observable))
           par_random) (observables this);
  Ok (np_cov pred_arr).

(** The objects and the registries of observables, measurements and fits
    are the same in the two worlds. *)
Definition same_objects (w w' : World) : Prop :=
  w_heap w' = w_heap w ∧ w_observables w' = w_observables w
  ∧ w_measurements w' = w_measurements w
  ∧ w_fit_instances w' = w_fit_instances w.

(** The world [w] after the dictionary at [l] has become [snap]. *)
Definition with_snapshot (l : loc) (snap : gmap string float) (w : World) : World :=
  set_heap (<[l := DictObj snap]> (w_heap w)) w.

(** The likelihood of a [FastFit] in terms of the measurements and the
    theory covariance: for every relevant measurement, the log-probability
    of its constraints combined with the theory distributions. *)
Definition combined_log_likelihood (this : FitObject) (cov_sm : ndarray)
    (ms : list (string * Measurement)) (predictions : list (obs * float))
    : Result float :=
  for_fold (relevant_measurements this ms) 0%float (λ ll measurement,
    m ← (match assoc_lookup measurement ms with
         | Some m => Ok m
         | None => Raise (KeyError measurement)
         end);
    m_obj ← pseudo_measurement_of this cov_sm m;
    prob_dict ← measurement_get_logprobability_all m_obj predictions
                  (exclude_observables this m_obj);
    Ok (PrimFloat.add ll (py_sum prob_dict))).

(** ** Repeated names *)

(** The position [j] is that of the last occurrence of [p] in the list. *)
Definition last_occurrence (names : list string) (p : string) (j : nat) : Prop :=
  names !! j = Some p ∧ ∀ j', j < j' → names !! j' ≠ Some p.

(** In the slice that starts at [k], the array [x'] has, at the position of
    every name of the list, the entry that [x] has at the last occurrence of
    that name. *)
Definition collapsed (names : list string) (k : nat) (x x' : list float) : Prop :=
  ∀ i p j, names !! i = Some p → last_occurrence names p j →
    x' !! (k + i) = x !! (k + j).

End Vocabulary.

(** * A small instance of the collaborators

    Closed examples need concrete registries and distributions.  Extra
    arguments of observables are integers; a distribution is the record of how
    it was built; the prior of a registry parameter is centred at its central
    value; a prediction is the value of the parameter that has the name of the
    observable.  The covariance is the sample covariance, summed from the
    left. *)

Module Demo.

Inductive Dist :=
| Given (central : ndarray) (supp : ndarray)
| Normal (central : ndarray) (std : float)
| MultivariateNormal (central : ndarray) (cov : list (list float))
| Delta (central : ndarray)
| Convolution (parts : list Dist).

Definition dist_central (d : Dist) : ndarray :=
  match d with
  | Given c _ | Normal c _ | MultivariateNormal c _ | Delta c => c
  | Convolution _ => Arr1 []
  end.

Definition dist_support (d : Dist) : ndarray :=
  match d with
  | Given _ s => s
  | _ => Arr1 []
  end.

Record Meas := {
  m_all_parameters : list (ObsRef Z);
  m_constraints : list (Dist * list (ObsRef Z))
}.

Definition quote (s : string) : string := "'" +:+ s +:+ "'".

Definition repr (o : ObsRef Z) : string :=
  match o with
  | ObsName n => quote n
  | ObsTuple n _ => "(" +:+ quote n +:+ ", ...)"
  end.

Definition values (c : ndarray) : list float :=
  match c with Arr0 v => [v] | Arr1 l => l | Arr2 rows => concat rows end.

Definition sq_dev (v c : float) : float :=
  PrimFloat.opp (PrimFloat.mul (PrimFloat.sub v c) (PrimFloat.sub v c)).

(** The log-density of the parameters that are not excluded. *)
Definition logprob (p : list (string * float)) (d : gmap string float)
    (exclude : list string) : Result (list float) :=
  mapM (λ '(n, c), v ← getkey d n; Ok (sq_dev v c))
       (filter (λ nc, nc.1 ∉ exclude) p).

Definition meas_logprob (m : Meas) (predictions : list (ObsRef Z * float))
    (exclude : list (ObsRef Z)) : Result (list float) :=
  mapM (λ '(c, ps),
          Ok (py_sum ((λ '(o, cv), sq_dev (default 0%float (assoc_lookup o predictions)) cv)
                        <$> filter (λ oc, oc.1 ∉ exclude) (zip ps (values (dist_central c))))))
       (m_constraints m).

Fixpoint float_of_nat (n : nat) : float :=
  match n with 0 => 0%float | S n' => PrimFloat.add (float_of_nat n') 1%float end.

Definition mean (v : list float) : float :=
  PrimFloat.div (py_sum v) (float_of_nat (length v)).

Definition cov (a b : list float) : float :=
  let ma := mean a in
  let mb := mean b in
  PrimFloat.div
    (py_sum (zip_with (λ x y, PrimFloat.mul (PrimFloat.sub x ma) (PrimFloat.sub y mb)) a b))
    (float_of_nat (length a - 1)).

(** The result of [np.cov] is squeezed: one variable gives a 0-d array. *)
Definition cov_matrix (rows : list (list float)) : ndarray :=
  match rows with
  | [r] => Arr0 (cov r r)
  | _ => Arr2 ((λ a, (λ b, cov a b) <$> rows) <$> rows)
  end.

Definition elementwise (f : float → float) (a : ndarray) : ndarray :=
  match a with
  | Arr0 v => Arr0 (f v)
  | Arr1 l => Arr1 (f <$> l)
  | Arr2 rows => Arr2 ((λ row : list float, f <$> row) <$> rows)
  end.

Definition total (a : ndarray) : float := py_sum (values a).

Definition externals : Externals Z := {|
  repr_obs := repr;
  str_tuple n _ := "(" +:+ quote n +:+ ", ...)";
  str_set l := "{" +:+ String.concat ", " (quote <$> l) +:+ "}";
  ParameterConstraints := list (string * float);
  parameters_keys p := p.*1;
  get_central_all p := list_to_map p;
  get_random_all p _ := list_to_map p;
  get_logprobability_all := logprob;
  Distribution := Dist;
  central_value := dist_central;
  support := dist_support;
  NormalDistribution := Normal;
  MultivariateNormalDistribution := MultivariateNormal;
  DeltaDistribution := Delta;
  convolve_distributions := Convolution;
  Measurement := Meas;
  all_parameters := m_all_parameters;
  _constraints := m_constraints;
  empty_measurement := {| m_all_parameters := []; m_constraints := [] |};
  add_constraint m ps c :=
    {| m_all_parameters := m_all_parameters m ++ ps;
       m_constraints := m_constraints m ++ [(c, ps)] |};
  measurement_get_random_all m _ :=
    concat ((λ '(c, ps), zip ps (values (dist_central c))) <$> m_constraints m);
  measurement_get_logprobability_all := meas_logprob;
  prediction_par n pd _ _ := Ok (default 1%float (pd !! n));
  np_cov := cov_matrix;
  np_mean_axis1 rows := Arr1 (mean <$> rows);
  np_linalg_inv a := Raise (LinAlgError "Singular matrix");
  np_sum_axis0 l := Arr0 (py_sum (total <$> l));
  np_sum l := Arr0 (py_sum (total <$> l));
  np_dot a b := Arr0 (PrimFloat.mul (total a) (total b));
  np_reciprocal := elementwise (PrimFloat.div 1%float);
  np_multiply a b := Arr0 (PrimFloat.mul (total a) (total b))
|}.

#[local] Existing Instance externals.

(** An experimental constraint on one observable and one on two. *)
Definition gaussian_1 : Dist :=
  Given (Arr0 1%float) (Arr1 [0.5%float; 1.5%float]).
Definition gaussian_2 : Dist :=
  Given (Arr1 [1%float; 20%float])
        (Arr2 [[0%float; 10%float]; [2%float; 40%float]]).

(** A world with a parameter registry at location 0, observables [A], [B]
    and [C], and two measurements. *)
Definition registry : list (string * float) :=
  [("a", 1%float); ("b", 2%float); ("c", 3%float)].

Definition measurement_AB : Meas := {|
  m_all_parameters := [ObsName "A"; ObsName "B"];
  m_constraints := [(gaussian_1, [ObsName "A"]); (gaussian_1, [ObsName "B"])]
|}.
Definition measurement_pair : Meas := {|
  m_all_parameters := [ObsName "A"; ObsName "C"];
  m_constraints := [(gaussian_2, [ObsName "A"; ObsName "C"])]
|}.

Definition world (ms : list (string * Meas)) : World := {|
  w_heap := [ParamsObj registry];
  w_observables := ["A"; "B"; "C"; "D"];
  w_measurements := ms;
  w_pseudo_measurements := ∅;
  w_fit_instances := ∅;
  w_rng := 0;
  w_calls := []
|}.

Definition args (fit nuisance : list string) (observables : list (ObsRef Z))
    (wc : list string) (excl incl : option (list string)) : FitArgs := {|
  a_name := "fit";
  a_par_obj := 0;
  a_fit_parameters := fit;
  a_nuisance_parameters := nuisance;
  a_observables := observables;
  a_fit_wc_names := wc;
  a_fit_wc_function :=
    Some (λ d, Ok (kmap (λ n, n) ((λ v, (v, 0%float)) <$> d)));
  a_fit_wc_priors := None;
  a_input_scale := 160%float;
  a_exclude_measurements := excl;
  a_include_measurements := incl
|}.

(** The fit object at a location. *)
Definition object_at (w : World) (l : loc) : option FitObject :=
  match w_heap w !! l with Some (FitObj f) => Some f | _ => None end.

(** A measurement whose first block constrains [B]. *)
Definition measurement_BA : Meas := {|
  m_all_parameters := [ObsName "B"; ObsName "A"];
  m_constraints := [(gaussian_1, [ObsName "B"]); (gaussian_1, [ObsName "A"])]
|}.

Definition world_M : World := world [("M", measurement_AB)].
Definition world_MP : World := world [("M", measurement_AB); ("P", measurement_pair)].
Definition world_NP : World := world [("N", measurement_BA); ("P", measurement_pair)].

(** A fast fit with one fit parameter, one nuisance parameter and one
    coupling. *)
Definition args_abc : FitArgs := args ["a"] ["b"] [ObsName "A"] ["C9"] None None.
Definition world_abc : World := (new FastFitC args_abc world_M).2.

(** A fit that leaves out the measurement [P]. *)
Definition args_without_P : FitArgs :=
  args ["a"] [] [ObsName "A"; ObsName "C"] [] (Some ["P"]) None.
Definition world_without_P : World := (new BayesianFitC args_without_P world_MP).2.

(** Arguments with an unknown parameter and an unconstrained observable,
    with two unconstrained observables, and with both filters. *)
Definition args_unknown : FitArgs := args ["zz"] [] [ObsName "D"] [] None None.
Definition args_unconstrained : FitArgs :=
  args ["a"] [] [ObsName "D"; ObsName "A"; ObsName "C"] [] None None.
Definition args_both : FitArgs :=
  args ["a"] [] [ObsName "A"] [] (Some ["M"]) (Some ["M"]).

(** A fast fit on [A] and [C], without nuisance parameters: every sampled
    prediction is the same, the covariance of the predictions is zero. *)
Definition args_AC : FitArgs := args ["a"] [] [ObsName "A"; ObsName "C"] [] None None.
Definition this_AC : FitObject := constructed_object FastFitC args_AC 2.
Definition world_AC_MP : World := (new FastFitC args_AC world_MP).2.
Definition world_AC_NP : World := (new FastFitC args_AC world_NP).2.
Definition zero_covariance : list (list float) :=
  [[0%float; 0%float]; [0%float; 0%float]].

(** A covariance with a zero variance for the observable of index 0. *)
Definition covariance_zero_first : list (list float) :=
  [[0%float; 0%float]; [0%float; 4%float]].

(** A Bayesian fit with one name in each list, and a dictionary for it. *)
Definition this_abc : FitObject := constructed_object BayesianFitC args_abc 2.
Definition dict_abc : gmap string (gmap string float) :=
  <["fit_wc" := {["C9" := 9%float]}]>
    (<["nuisance_parameters" := {["b" := 7%float]}]>
       (<["fit_parameters" := {["a" := 5%float]}]> ∅)).

Definition this_without_P : FitObject :=
  constructed_object BayesianFitC args_without_P 2.

(** A Bayesian fit of the parameter [a], and the registry after the central
    value of [a] has moved from 1 to 2. *)
Definition args_a : FitArgs := args ["a"] [] [ObsName "A"] [] None None.
Definition this_a : FitObject := constructed_object BayesianFitC args_a 2.
Definition world_a : World := (new BayesianFitC args_a world_M).2.
Definition registry_moved : list (string * float) :=
  [("a", 2%float); ("b", 2%float); ("c", 3%float)].

(** Arguments with an observable that is not registered, with a parameter
    in both lists, and with a coupling but no function of the couplings. *)
Definition args_unregistered : FitArgs :=
  args ["a"] [] [ObsName "A"; ObsName "Z"] [] None None.
Definition args_shared : FitArgs :=
  args ["a"; "b"] ["b"] [ObsName "A"] [] None None.
Definition args_no_function : @FitArgs Z := {|
  a_name := "fit";
  a_par_obj := 0;
  a_fit_parameters := ["a"];
  a_nuisance_parameters := [];
  a_observables := [ObsName "A"];
  a_fit_wc_names := ["C9"];
  a_fit_wc_function := None;
  a_fit_wc_priors := None;
  a_input_scale := 160%float;
  a_exclude_measurements := None;
  a_include_measurements := None
|}.

(** Arguments that pass every check, with a [par_obj] that is no parameter
    registry. *)
Definition args_no_registry : @FitArgs Z := {|
  a_name := "fit";
  a_par_obj := 7;
  a_fit_parameters := [];
  a_nuisance_parameters := [];
  a_observables := [ObsName "A"];
  a_fit_wc_names := [];
  a_fit_wc_function := None;
  a_fit_wc_priors := None;
  a_input_scale := 160%float;
  a_exclude_measurements := None;
  a_include_measurements := None
|}.

(** A fast fit on [A] and [C] with the measurement [P] only, on which
    [make_measurement] returns, and that world afterwards. *)
Definition world_P : World := world [("P", measurement_pair)].
Definition world_AC_P : World := (new FastFitC args_AC world_P).2.
Definition world_AC_P_made : World := (make_measurement 1 3 5000 world_AC_P).2.

(** A fast fit on the single observable [A]. *)
Definition this_a_fast : FitObject := constructed_object FastFitC args_a 2.
Definition world_a_fast : World := (new FastFitC args_a world_M).2.

(** A Bayesian fit with a fit parameter, a nuisance parameter and a
    coupling, and one whose list of fit parameters repeats a name. *)
Definition world_abc_bayes : World := (new BayesianFitC args_abc world_M).2.
Definition this_aa : FitObject :=
  constructed_object BayesianFitC (args ["a"; "a"] [] [ObsName "A"] [] None None) 2.

End Demo.

(** * Properties *)

Section Properties.
Context {Arg : Type} `{EqDecision Arg} `{Externals Arg}.

Local Abbreviation obs := (ObsRef Arg).
Local Abbreviation FitObject := (@FitObject Arg).
Local Abbreviation FitArgs := (@FitArgs Arg).

(** ** The monad *)

Lemma bind_Ok {A B} (m : M A) (f : A → M B) w a w1 :
  m w = (Ok a, w1) → (m ≫= f) w = f a w1.
Proof. intros E. unfold mbind, M_bind. by rewrite E. Qed.

Lemma bind_Raise {A B} (m : M A) (f : A → M B) w e w1 :
  m w = (Raise e, w1) → (m ≫= f) w = (Raise e, w1).
Proof. intros E. unfold mbind, M_bind. by rewrite E. Qed.

Lemma bind_inv_Ok {A B} (m : M A) (f : A → M B) w b w' :
  (m ≫= f) w = (Ok b, w') → ∃ a w1, m w = (Ok a, w1) ∧ f a w1 = (Ok b, w').
Proof.
  unfold mbind, M_bind. destruct (m w) as [[a|e] w1]; [eauto|discriminate].
Qed.

Lemma reads_ret {A} (a : A) : reads (mret a).
Proof. done. Qed.
Lemma reads_lift {A} (r : Result A) : reads (lift r).
Proof. done. Qed.
Lemma reads_gets {A} (f : World → A) : reads (gets f).
Proof. done. Qed.
Lemma reads_bind {A B} (m : M A) (f : A → M B) :
  reads m → (∀ a, reads (f a)) → reads (m ≫= f).
Proof.
  intros Hm Hf w. unfold mbind, M_bind. specialize (Hm w).
  destruct (m w) as [[a|e] w1]; simpl in *; subst; [apply Hf|done].
Qed.
Lemma reads_for {A} (l : list A) (body : A → M unit) :
  (∀ x, reads (body x)) → reads (for_ l body).
Proof.
  intros Hb. induction l as [|x l IH]; [done|].
  apply reads_bind; [apply Hb|intros _; apply IH].
Qed.
Lemma reads_try_except {A} (m : M A) e : reads m → reads (try_except m e).
Proof.
  intros Hm w. unfold try_except. specialize (Hm w).
  by destruct (m w) as [[a|e'] w1].
Qed.
Lemma reads_load l : reads (load l).
Proof. intros w. unfold load. by destruct (w_heap w !! l). Qed.

Create HintDb reads discriminated.
Hint Resolve reads_ret reads_lift reads_gets reads_load : reads.

Ltac reads_step :=
  lazymatch goal with
  | |- reads (mbind _ _) => apply reads_bind; [|intros ?]
  | |- reads (for_ _ _) => apply reads_for; intros ?
  | |- reads (try_except _ _) => apply reads_try_except
  | |- reads (match ?x with _ => _ end) => destruct x
  | |- reads _ => solve [eauto with reads]
  end.
Ltac solve_reads := repeat reads_step.

Lemma reads_load_params l : reads (load_params l).
Proof. unfold load_params. solve_reads. Qed.
Lemma reads_load_fit l : reads (load_fit l).
Proof. unfold load_fit. solve_reads. Qed.
Lemma reads_load_dict l : reads (load_dict l).
Proof. unfold load_dict. solve_reads. Qed.
Lemma reads_Observable_get_instance n : reads (Observable_get_instance n).
Proof. unfold Observable_get_instance. solve_reads. Qed.
Hint Resolve reads_load_params reads_load_fit reads_load_dict
  reads_Observable_get_instance : reads.

Lemma reads_validate a : reads (validate a).
Proof.
  unfold validate, check_parameters, check_observables_exist,
    check_observables_constrained, check_filters, check_disjoint,
    check_wc_function.
  solve_reads.
Qed.

(** ** Sets built from lists *)

Lemma elem_of_set_of {A} `{EqDecision A} (l : list A) x : x ∈ set_of l ↔ x ∈ l.
Proof. apply elem_of_remove_dups. Qed.
Lemma elem_of_set_diff {A} `{EqDecision A} (a b : list A) x :
  x ∈ set_diff a b ↔ x ∈ a ∧ x ∉ b.
Proof. unfold set_diff. rewrite list_elem_of_filter. tauto. Qed.
Lemma elem_of_set_inter {A} `{EqDecision A} (a b : list A) x :
  x ∈ set_inter a b ↔ x ∈ a ∧ x ∈ b.
Proof. unfold set_inter. rewrite list_elem_of_filter. tauto. Qed.
Lemma isdisjoint_false {A} `{EqDecision A} (a b : list A) :
  isdisjoint a b = false ↔ ∃ x, x ∈ a ∧ x ∈ b.
Proof.
  unfold isdisjoint. induction a as [|y a IH]; simpl.
  - split; [done|]. intros (x & Hx & _). by apply elem_of_nil in Hx.
  - rewrite andb_false_iff, IH, bool_decide_eq_false. split.
    + intros [Hy|(x & Hx & Hb)].
      * exists y. split; [left|]. by destruct (decide (y ∈ b)).
      * exists x. split; [by right|done].
    + intros (x & Hx & Hb). apply elem_of_cons in Hx as [->|Hx].
      * left. tauto.
      * right. eauto.
Qed.

(** ** The constructor *)

Lemma validate_world a w : ∃ r, validate a w = (r, w).
Proof.
  exists (validate a w).1. rewrite <- (reads_validate a w) at 3.
  by destruct (validate a w).
Qed.

Lemma step_reads {A} (m : M A) w : reads m → ∃ r, m w = (r, w).
Proof. intros Hm. exists (m w).1. rewrite <- (Hm w) at 3. by destruct (m w). Qed.

Lemma Fit__init___Raise c a w e :
  validate a (set_calls ("Fit.__init__" :: w_calls w) w)
    = (Raise e, set_calls ("Fit.__init__" :: w_calls w) w) →
  Fit__init__ c a w = (Raise e, set_calls ("Fit.__init__" :: w_calls w) w).
Proof.
  intros E. unfold Fit__init__.
  rewrite (bind_Ok _ _ w tt (set_calls ("Fit.__init__" :: w_calls w) w)) by done.
  by rewrite (bind_Raise _ _ _ _ _ E).
Qed.

Lemma BayesianFit__init___Raise c a w e w' :
  Fit__init__ c a (set_calls ("BayesianFit.__init__" :: w_calls w) w) = (Raise e, w') →
  BayesianFit__init__ c a w = (Raise e, w').
Proof.
  intros E. unfold BayesianFit__init__.
  rewrite (bind_Ok _ _ w tt (set_calls ("BayesianFit.__init__" :: w_calls w) w)) by done.
  by rewrite (bind_Raise _ _ _ _ _ E).
Qed.

Lemma FastFit__init___Raise a w e w' :
  BayesianFit__init__ FastFitC a (set_calls ("FastFit.__init__" :: w_calls w) w)
    = (Raise e, w') →
  FastFit__init__ a w = (Raise e, w').
Proof.
  intros E. unfold FastFit__init__.
  rewrite (bind_Ok _ _ w tt (set_calls ("FastFit.__init__" :: w_calls w) w)) by done.
  by rewrite (bind_Raise _ _ _ _ _ E).
Qed.

(** A failing check makes the constructor of every class fail, and leaves
    the heap and the instances as they were. *)
Lemma new_fails_with k a w e :
  (∀ w1, same_registries w w1 → validate a w1 = (Raise e, w1)) →
  ∃ w', new k a w = (Raise e, w') ∧ no_object_produced w w'.
Proof.
  intros Hv. destruct k; simpl; eexists; (split; [|shelve]).
  - apply Fit__init___Raise, Hv. done.
  - apply BayesianFit__init___Raise, Fit__init___Raise, Hv. done.
  - apply FastFit__init___Raise, BayesianFit__init___Raise, Fit__init___Raise, Hv. done.
  Unshelve. all: done.
Qed.

Lemma new_fails k a w :
  (∀ w1, same_registries w w1 → ∃ e, validate a w1 = (Raise e, w1)) →
  ∃ e w', new k a w = (Raise e, w') ∧ no_object_produced w w'.
Proof.
  intros Hv. destruct k; simpl.
  - destruct (Hv (set_calls ("Fit.__init__" :: w_calls w) w)) as [e He]; [done|].
    exists e. eexists. split; [by apply Fit__init___Raise|done].
  - destruct (Hv (set_calls ("Fit.__init__" :: "BayesianFit.__init__" :: w_calls w) w))
      as [e He]; [done|].
    exists e. eexists. split;
      [apply BayesianFit__init___Raise, Fit__init___Raise, He|done].
  - destruct (Hv (set_calls
      ("Fit.__init__" :: "BayesianFit.__init__" :: "FastFit.__init__" :: w_calls w) w))
      as [e He]; [done|].
    exists e. eexists. split;
      [apply FastFit__init___Raise, BayesianFit__init___Raise, Fit__init___Raise, He|done].
Qed.

(** Running the checks one after the other. *)
Ltac run_check E :=
  lazymatch goal with
  | |- context [mbind ?f ?m ?w] =>
      let r := fresh "r" in
      let Hr := fresh "Hr" in
      destruct (step_reads m w ltac:(first [apply reads_validate | unfold check_parameters,
        check_observables_exist, check_observables_constrained, check_filters,
        check_disjoint, check_wc_function; solve_reads])) as [r Hr];
      destruct r as [[]|?];
      [rewrite (bind_Ok _ _ _ _ _ Hr)|rewrite (bind_Raise _ _ _ _ _ Hr); eauto]
  end.

Lemma validate_both_filters a w :
  is_Some (a_exclude_measurements a) → is_Some (a_include_measurements a) →
  ∃ e, validate a w = (Raise e, w).
Proof.
  intros He Hi. unfold validate.
  run_check E1. run_check E2. run_check E3.
  unfold check_filters. rewrite bool_decide_eq_true_2 by done.
  rewrite (bind_Raise _ _ w
    (ValueError "The options exclude_measurements and include_measurements must not be specified simultaneously") w)
    by done.
  eauto.
Qed.

(** Claim C7.  When [exclude_measurements] and [include_measurements] are
    both given, constructing a fit of any of the three classes raises an
    exception, and no object is produced. *)
Theorem both_filters_rejected k a w excl incl :
  a_exclude_measurements a = Some excl →
  a_include_measurements a = Some incl →
  ∃ e w', new k a w = (Raise e, w') ∧ no_object_produced w w'.
Proof.
  intros He Hi. apply new_fails. intros w1 _.
  apply validate_both_filters; [by rewrite He|by rewrite Hi].
Qed.

(** ** The checks, in terms of the registries *)

Lemma load_params_Ok l w par :
  w_heap w !! l = Some (ParamsObj par) → load_params l w = (Ok par, w).
Proof. intros E. unfold load_params, load, mbind, M_bind. by rewrite E. Qed.

Lemma load_fit_Ok l w this :
  w_heap w !! l = Some (FitObj this) → load_fit l w = (Ok this, w).
Proof. intros E. unfold load_fit, load, mbind, M_bind. by rewrite E. Qed.

Lemma load_dict_Ok l w d :
  w_heap w !! l = Some (DictObj d) → load_dict l w = (Ok d, w).
Proof. intros E. unfold load_dict, load, mbind, M_bind. by rewrite E. Qed.

Lemma for_Ok {A} (l : list A) (body : A → M unit) w :
  (∀ x, x ∈ l → body x w = (Ok tt, w)) → for_ l body w = (Ok tt, w).
Proof.
  induction l as [|x l IH]; intros Hb; [done|]. simpl.
  rewrite (bind_Ok _ _ w tt w) by (apply Hb; left).
  apply IH. intros y Hy. apply Hb. by right.
Qed.

Lemma check_parameters_Ok a w :
  parameters_known a w → check_parameters a w = (Ok tt, w).
Proof.
  intros Hk. unfold check_parameters. apply for_Ok. intros p Hp.
  destruct (Hk p Hp) as (par & Hpar & Hin).
  rewrite (bind_Ok _ _ w par w) by by apply load_params_Ok.
  unfold lift, py_assert. by rewrite bool_decide_eq_true_2.
Qed.

Lemma check_observables_exist_Ok a w :
  observables_known a w → check_observables_exist a w = (Ok tt, w).
Proof.
  intros Hk. unfold check_observables_exist. apply for_Ok. intros o Ho.
  unfold try_except, Observable_get_instance, gets, mbind, M_bind.
  by rewrite decide_True by by apply Hk.
Qed.

Lemma elem_of_concat {A} (ls : list (list A)) x :
  x ∈ concat ls ↔ ∃ l, x ∈ l ∧ l ∈ ls.
Proof.
  rewrite list_elem_of_In, in_concat. split.
  - intros (l & Hl & Hx). exists l. by rewrite !list_elem_of_In.
  - intros (l & Hx & Hl). exists l. by rewrite <- !list_elem_of_In.
Qed.

Lemma elem_of_missing_obs (observables : list obs) instances o :
  o ∈ missing_obs observables instances ↔
  o ∈ observables ∧ ∀ n m, (n, m) ∈ instances → o ∉ all_parameters m.
Proof.
  unfold missing_obs.
  rewrite elem_of_set_diff, elem_of_set_inter, !elem_of_set_of.
  split.
  - intros [Ho Hn]. split; [done|]. intros n m Hm Hin. apply Hn. split; [|done].
    apply elem_of_concat. exists (all_parameters m). split; [done|].
    apply list_elem_of_fmap. by exists (n, m).
  - intros [Ho Hn]. split; [done|]. intros [Hin _].
    apply elem_of_concat in Hin as (ps & Hin & Hps).
    apply list_elem_of_fmap in Hps as ([n m] & -> & Hm). by apply (Hn n m).
Qed.

Lemma NoDup_missing_obs (observables : list obs) instances :
  NoDup (missing_obs observables instances).
Proof. unfold missing_obs, set_diff. apply NoDup_filter, NoDup_remove_dups. Qed.

Lemma join_names_bare (l : list obs) :
  (∀ o, o ∈ l → ∃ n, o = ObsName n) →
  ∃ names, join_names l = Ok names ∧ l = ObsName <$> names.
Proof.
  induction l as [|o l IH]; intros Hb.
  - by exists [].
  - destruct (Hb o) as [n ->]; [left|].
    destruct IH as (names & E & ->); [intros; apply Hb; by right|].
    exists (n :: names). simpl. by rewrite E.
Qed.

Lemma new_Raise_validate k a w :
  ∃ w1, same_registries w w1 ∧
    ∀ e, validate a w1 = (Raise e, w1) →
         ∃ w', new k a w = (Raise e, w') ∧ no_object_produced w w'.
Proof.
  destruct k; simpl.
  - exists (set_calls ("Fit.__init__" :: w_calls w) w). split; [done|].
    intros e He. eexists. split; [by apply Fit__init___Raise|done].
  - exists (set_calls ("Fit.__init__" :: "BayesianFit.__init__" :: w_calls w) w).
    split; [done|]. intros e He. eexists. split;
      [apply BayesianFit__init___Raise, Fit__init___Raise, He|done].
  - exists (set_calls
      ("Fit.__init__" :: "BayesianFit.__init__" :: "FastFit.__init__" :: w_calls w) w).
    split; [done|]. intros e He. eexists. split;
      [apply FastFit__init___Raise, BayesianFit__init___Raise, Fit__init___Raise, He|done].
Qed.

Lemma unconstrained_same a w w1 o :
  same_registries w w1 → unconstrained a w o ↔ unconstrained a w1 o.
Proof. intros (_ & _ & Hm). unfold unconstrained. by rewrite Hm. Qed.

Lemma check_observables_constrained_Raise a w o :
  unconstrained a w o →
  check_observables_constrained a w =
    (Raise match join_names (missing_obs (a_observables a) (w_measurements w)) with
           | Ok names => AssertionError
               ("No measurement found for the observables: " +:+ join ", " names)
           | Raise e => e
           end, w).
Proof.
  intros Ho. unfold check_observables_constrained, gets, lift, mbind, M_bind.
  rewrite bool_decide_eq_false_2.
  - unfold py_assert, mbind, Result_bind. by destruct (join_names _).
  - intros E. apply elem_of_missing_obs in Ho. rewrite E in Ho.
    by apply elem_of_nil in Ho.
Qed.

Lemma validate_unconstrained a w o :
  unconstrained a w o → ∃ e, validate a w = (Raise e, w).
Proof.
  intros Ho. unfold validate. run_check E1. run_check E2.
  rewrite (bind_Raise _ _ _ _ _ (check_observables_constrained_Raise a w o Ho)).
  eauto.
Qed.

Lemma validate_unconstrained_message a w o :
  unconstrained a w o → parameters_known a w → observables_known a w →
  (∀ o', unconstrained a w o' → ∃ n, o' = ObsName n) →
  ∃ names,
    validate a w = (Raise (AssertionError
      ("No measurement found for the observables: " +:+ join ", " names)), w)
    ∧ NoDup names ∧ ∀ n, n ∈ names ↔ unconstrained a w (ObsName n).
Proof.
  intros Ho Hp Hk Hbare.
  destruct (join_names_bare (missing_obs (a_observables a) (w_measurements w)))
    as (names & Hj & Hnames).
  { intros o' Ho'. apply Hbare. by apply elem_of_missing_obs. }
  exists names. split; [|split].
  - unfold validate.
    rewrite (bind_Ok _ _ _ _ _ (check_parameters_Ok a w Hp)).
    rewrite (bind_Ok _ _ _ _ _ (check_observables_exist_Ok a w Hk)).
    rewrite (bind_Raise _ _ _ _ _ (check_observables_constrained_Raise a w o Ho)).
    by rewrite Hj.
  - apply (NoDup_fmap_1 (ObsName (Arg:=Arg))). rewrite <- Hnames.
    apply NoDup_missing_obs.
  - intros n. unfold unconstrained. rewrite <- elem_of_missing_obs, Hnames.
    split; [apply list_elem_of_fmap_2|].
    intros Hin. apply list_elem_of_fmap in Hin as (n' & [= ->] & Hin). done.
Qed.

(** Claim C6, as amended.  When a listed observable is constrained by no
    measurement, constructing a fit of any class raises and no object is
    produced.  When moreover the checks that come first pass (every fit and
    nuisance parameter is known to the parameter registry, every listed
    observable is registered) and the unconstrained observables are bare
    names, the exception is the assertion error whose message lists exactly
    the unconstrained observables, each once. *)
Theorem unconstrained_observable_rejected k a w o :
  unconstrained a w o →
  ∃ e w', new k a w = (Raise e, w') ∧ no_object_produced w w' ∧
    (parameters_known a w → observables_known a w →
     (∀ o', unconstrained a w o' → ∃ n, o' = ObsName n) →
     ∃ names,
       e = AssertionError
             ("No measurement found for the observables: " +:+ join ", " names)
       ∧ NoDup names ∧ ∀ n, n ∈ names ↔ unconstrained a w (ObsName n)).
Proof.
  intros Ho. destruct (new_Raise_validate k a w) as (w1 & Hsame & Hnew).
  pose proof (proj1 (unconstrained_same a w w1 o Hsame) Ho) as Ho1.
  destruct (validate_unconstrained a w1 o Ho1) as [e He].
  destruct (Hnew e He) as (w' & Hw' & Hno).
  exists e, w'. split; [done|]. split; [done|].
  intros Hp Hk Hbare.
  destruct (validate_unconstrained_message a w1 o Ho1) as (names & Hv & Hnd & Hin).
  - intros p Hpin. destruct (Hp p Hpin) as (par & Hpar & Hkey).
    exists par. destruct Hsame as (-> & _). done.
  - intros o' Ho'. destruct Hsame as (_ & -> & _). by apply Hk.
  - intros o' Ho'. apply Hbare. by apply (unconstrained_same a w w1 o' Hsame).
  - exists names. split; [congruence|]. split; [done|].
    intros n. rewrite Hin. symmetry. by apply unconstrained_same.
Qed.

(** ** The relevant measurements *)

Lemma get_measurements_eq self this w :
  w_heap w !! self = Some (FitObj this) →
  get_measurements self w =
    (Ok (relevant_measurements this (w_measurements w)),
     set_calls ("Fit.get_measurements" :: w_calls w) w).
Proof.
  intros E. unfold get_measurements.
  rewrite (bind_Ok _ _ w tt (set_calls ("Fit.get_measurements" :: w_calls w) w)) by done.
  cbv beta.
  rewrite (bind_Ok _ _ _ this _
    (load_fit_Ok self (set_calls ("Fit.get_measurements" :: w_calls w) w) this E)).
  done.
Qed.

Lemma elem_of_all_measurements (this : FitObject)
    (instances : list (string * Measurement)) n :
  n ∈ (filter (λ m, isdisjoint (set_of (all_parameters m.2)) (observables this) = false)
              instances).*1
  ↔ ∃ m o, (n, m) ∈ instances ∧ o ∈ all_parameters m ∧ o ∈ observables this.
Proof.
  rewrite list_elem_of_fmap. split.
  - intros ([n' m] & Hn & Hin). simpl in Hn. subst n'.
    apply list_elem_of_filter in Hin as [Hd Hin]. simpl in Hd.
    apply isdisjoint_false in Hd as (o & Ho & Ho'). rewrite elem_of_set_of in Ho.
    by exists m, o.
  - intros (m & o & Hin & Ho & Ho'). exists (n, m). split; [done|].
    apply list_elem_of_filter. split; [|done].
    apply isdisjoint_false. exists o. by rewrite elem_of_set_of.
Qed.

(** Claim C5.  For a fit with at most one filter (every constructed fit is
    one), [get_measurements] returns a list whose members are exactly the
    names of the registered measurements that constrain an observable of the
    fit, without those of [exclude_measurements] when it is given, and only
    those of [include_measurements] when it is given. *)
Theorem get_measurements_relevant_filtered self this w :
  w_heap w !! self = Some (FitObj this) →
  filters_exclusive this →
  ∃ names, (get_measurements self w).1 = Ok names ∧
    ∀ n, n ∈ names ↔
      constrains_fit_observable this w n
      ∧ (∀ excl, exclude_measurements this = Some excl → n ∉ excl)
      ∧ (∀ incl, include_measurements this = Some incl → n ∈ incl).
Proof.
  intros Hself Hex. rewrite (get_measurements_eq self this w Hself). simpl.
  eexists. split; [done|]. intros n.
  unfold relevant_measurements, constrains_fit_observable, filters_exclusive in *.
  destruct (exclude_measurements this) as [excl|], (include_measurements this) as [incl|].
  - destruct Hex. split; by eexists.
  - rewrite elem_of_set_diff, !elem_of_set_of, elem_of_all_measurements.
    split; [intros [Hr Hn]|intros (Hr & Hn & _)].
    + split; [done|]. split; [by intros ? [= <-]|done].
    + split; [done|]. by apply Hn.
  - rewrite elem_of_set_inter, !elem_of_set_of, elem_of_all_measurements.
    split; [intros [Hr Hn]|intros (Hr & _ & Hn)].
    + split; [done|]. split; [done|by intros ? [= <-]].
    + split; [done|]. by apply Hn.
  - rewrite elem_of_all_measurements. split; [intros Hr|by intros (Hr & _)].
    split; [done|]. split; done.
Qed.

(** ** Successful construction *)

Lemma load_params_cases l w :
  (∃ par, w_heap w !! l = Some (ParamsObj par))
  ∨ (∃ msg, load_params l w = (Raise (AttributeError msg), w)).
Proof.
  unfold load_params, load, mbind, M_bind.
  destruct (w_heap w !! l) as [[d|p|f|c n po]|]; simpl; eauto.
Qed.

Lemma insert_new {A} (h : list A) (o o' : A) :
  <[length h := o']> (h ++ [o]) = h ++ [o'].
Proof. rewrite insert_app_r_alt by lia. by rewrite Nat.sub_diag. Qed.

Lemma insert_first_new {A} (h : list A) (o o' d : A) :
  <[length h := o']> (h ++ [o; d]) = h ++ [o'; d].
Proof. rewrite insert_app_r_alt by lia. by rewrite Nat.sub_diag. Qed.

Lemma lookup_second_new {A} (h : list A) (d o : A) :
  (h ++ [d; o]) !! S (length h) = Some o.
Proof.
  rewrite lookup_app_r by lia.
  replace (S (length h) - length h) with 1 by lia. done.
Qed.

Lemma lookup_first_new {A} (h : list A) (d o : A) :
  (h ++ [d; o]) !! length h = Some d.
Proof. rewrite lookup_app_r by lia. by rewrite Nat.sub_diag. Qed.

(** The first steps of [build]: the instance is registered and has its
    [par_obj]; reading the central values comes next, in that world. *)
Lemma build_registers c a w :
  ∃ w1, w_heap w1 = w_heap w ++ [NewObj c (a_name a) (Some (a_par_obj a))]
    ∧ w_fit_instances w1 = <[a_name a := length (w_heap w)]> (w_fit_instances w)
    ∧ w_observables w1 = w_observables w
    ∧ w_measurements w1 = w_measurements w
    ∧ w_pseudo_measurements w1 = w_pseudo_measurements w
    ∧ w_rng w1 = w_rng w ∧ w_calls w1 = w_calls w
    ∧ (∀ e, load_params (a_par_obj a) w1 = (Raise e, w1) →
            build c a w = (Raise e, w1))
    ∧ (∀ par, load_params (a_par_obj a) w1 = (Ok par, w1) →
         build c a w
         = (Ok (length (w_heap w)),
            set_heap (w_heap w ++ [FitObj (object_after FitC c a (S (length (w_heap w))));
                                   DictObj (get_central_all par)]) w1)).
Proof.
  eexists (set_heap (w_heap w ++ [NewObj c (a_name a) (Some (a_par_obj a))])
             (set_fit_instances (<[a_name a := length (w_heap w)]> (w_fit_instances w)) w)).
  repeat (split; [done|]).
  assert (∀ rest : loc → M loc,
    (self ← alloc (NewObj c (a_name a) None);
     modify (λ w, set_fit_instances (<[a_name a := self]> (w_fit_instances w)) w);;
     store self (NewObj c (a_name a) (Some (a_par_obj a)));;
     rest self) w
    = rest (length (w_heap w))
        (set_heap (w_heap w ++ [NewObj c (a_name a) (Some (a_par_obj a))])
           (set_fit_instances (<[a_name a := length (w_heap w)]> (w_fit_instances w)) w)))
    as Hstart.
  { intros rest. unfold alloc, store, modify, mbind, M_bind. simpl.
    by rewrite insert_new. }
  split.
  - intros e He. unfold build. rewrite Hstart.
    by rewrite (bind_Raise _ _ _ _ _ He).
  - intros par Hp. unfold build. rewrite Hstart.
    rewrite (bind_Ok _ _ _ _ _ Hp).
    unfold alloc, store, modify, mbind, M_bind, mret, M_ret. simpl.
    rewrite length_app. simpl. rewrite Nat.add_1_r.
    rewrite <- app_assoc. simpl. by rewrite insert_first_new.
Qed.

Lemma lookup_registered (h : list Obj) o l par :
  (∀ p, o ≠ ParamsObj p) →
  (h ++ [o]) !! l = Some (ParamsObj par) ↔ h !! l = Some (ParamsObj par).
Proof.
  intros Ho. split; [|apply lookup_app_l_Some].
  intros E. apply lookup_app_Some in E as [E|[_ E]]; [done|].
  destruct (l - length h) as [|i]; [|done]. injection E as ->. by destruct (Ho par).
Qed.

Lemma build_eq c a w par :
  w_heap w !! a_par_obj a = Some (ParamsObj par) →
  ∃ w', build c a w = (Ok (length (w_heap w)), w')
    ∧ w_heap w' = w_heap w ++ [FitObj (object_after FitC c a (S (length (w_heap w))));
                               DictObj (get_central_all par)]
    ∧ w_fit_instances w' = <[a_name a := length (w_heap w)]> (w_fit_instances w)
    ∧ w_observables w' = w_observables w
    ∧ w_measurements w' = w_measurements w
    ∧ w_pseudo_measurements w' = w_pseudo_measurements w
    ∧ w_rng w' = w_rng w ∧ w_calls w' = w_calls w.
Proof.
  intros E.
  destruct (build_registers c a w)
    as (w1 & Hh & Hi & Ho & Hm & Hps & Hr & Hc & _ & Hok).
  eexists. split.
  - apply (Hok par), load_params_Ok. rewrite Hh. by apply lookup_app_l_Some.
  - done.
Qed.

(** When [par_obj] is no parameter registry, reading its central values
    raises, and the instance stays registered. *)
Lemma build_Raise c a w :
  ¬ registry_at w (a_par_obj a) →
  ∃ msg w', build c a w = (Raise (AttributeError msg), w')
    ∧ w_heap w' = w_heap w ++ [NewObj c (a_name a) (Some (a_par_obj a))]
    ∧ w_fit_instances w' = <[a_name a := length (w_heap w)]> (w_fit_instances w)
    ∧ w_observables w' = w_observables w
    ∧ w_measurements w' = w_measurements w
    ∧ w_pseudo_measurements w' = w_pseudo_measurements w
    ∧ w_rng w' = w_rng w ∧ w_calls w' = w_calls w.
Proof.
  intros Hn.
  destruct (build_registers c a w)
    as (w1 & Hh & Hi & Ho & Hm & Hps & Hr & Hc & Hraise & _).
  destruct (load_params_cases (a_par_obj a) w1) as [[par Hpar]|[e He]].
  - destruct Hn. exists par. rewrite Hh in Hpar. by apply lookup_registered in Hpar.
  - exists e, w1. split; [by apply Hraise|done].
Qed.

Lemma load_params_inv l w par w' :
  load_params l w = (Ok par, w') → w_heap w !! l = Some (ParamsObj par) ∧ w' = w.
Proof.
  unfold load_params, load, mbind, M_bind.
  destruct (w_heap w !! l) as [[d|p|f|c n po]|]; simpl; intros [= <- <-] || intros [=]; done.
Qed.

Lemma load_fit_inv l w this w' :
  load_fit l w = (Ok this, w') → w_heap w !! l = Some (FitObj this) ∧ w' = w.
Proof.
  unfold load_fit, load, mbind, M_bind.
  destruct (w_heap w !! l) as [[d|p|f|c n po]|]; simpl; intros [= <- <-] || intros [=]; done.
Qed.

Lemma load_dict_inv l w d w' :
  load_dict l w = (Ok d, w') → w_heap w !! l = Some (DictObj d) ∧ w' = w.
Proof.
  unfold load_dict, load, mbind, M_bind.
  destruct (w_heap w !! l) as [[d'|p|f|c n po]|]; simpl; intros [= <- <-] || intros [=]; done.
Qed.

Lemma build_inv c a w self w' :
  build c a w = (Ok self, w') →
  ∃ par, w_heap w !! a_par_obj a = Some (ParamsObj par)
    ∧ self = length (w_heap w)
    ∧ w_heap w' = w_heap w ++ [FitObj (object_after FitC c a (S (length (w_heap w))));
                               DictObj (get_central_all par)]
    ∧ w_fit_instances w' = <[a_name a := length (w_heap w)]> (w_fit_instances w)
    ∧ w_observables w' = w_observables w
    ∧ w_measurements w' = w_measurements w
    ∧ w_pseudo_measurements w' = w_pseudo_measurements w
    ∧ w_rng w' = w_rng w ∧ w_calls w' = w_calls w.
Proof.
  intros E.
  destruct (decide (is_Some (w_heap w !! a_par_obj a ≫= λ o,
              match o with ParamsObj par => Some par | _ => None end)))
    as [[par Hpar]|Hn].
  - destruct (w_heap w !! a_par_obj a) as [[d|p|f|c' n po]|] eqn:Hl; try done.
    injection Hpar as ->.
    destruct (build_eq c a w par Hl) as (w2 & Hb & Hrest).
    rewrite Hb in E. injection E as <- <-. exists par. tauto.
  - destruct (build_Raise c a w) as (msg & w2 & Hb & _).
    + intros [par Hpar]. apply Hn. rewrite Hpar. by exists par.
    + rewrite Hb in E. discriminate E.
Qed.

Lemma Fit__init___inv c a w self w' :
  Fit__init__ c a w = (Ok self, w') →
  validate a (set_calls ("Fit.__init__" :: w_calls w) w)
    = (Ok tt, set_calls ("Fit.__init__" :: w_calls w) w)
  ∧ build c a (set_calls ("Fit.__init__" :: w_calls w) w) = (Ok self, w').
Proof.
  unfold Fit__init__. intros E.
  apply bind_inv_Ok in E as ([] & w1 & He & E). injection He as <-.
  apply bind_inv_Ok in E as ([] & w2 & Hv & E).
  pose proof (reads_validate a (set_calls ("Fit.__init__" :: w_calls w) w)) as Hr.
  rewrite Hv in Hr. simpl in Hr. subst w2. done.
Qed.

Lemma BayesianFit__init___inv c a w self w' :
  BayesianFit__init__ c a w = (Ok self, w') →
  ∃ w2, Fit__init__ c a (set_calls ("BayesianFit.__init__" :: w_calls w) w) = (Ok self, w2)
    ∧ ∀ h d, w_heap w2 = h ++ [FitObj (object_after FitC c a (S (length h))); d] →
             self = length h →
             w' = set_heap (h ++ [FitObj (object_after BayesianFitC c a (S (length h))); d]) w2.
Proof.
  unfold BayesianFit__init__. intros E.
  apply bind_inv_Ok in E as ([] & w1 & He & E). injection He as <-.
  apply bind_inv_Ok in E as (self' & w2 & Hf & E).
  exists w2. apply bind_inv_Ok in E as (this & w3 & Hl & E).
  apply load_fit_inv in Hl as [Hl ->].
  apply bind_inv_Ok in E as ([] & w4 & Hs & E). injection E as <- <-.
  split; [done|]. intros h d Hh ->. rewrite Hh, lookup_first_new in Hl.
  injection Hl as <-. unfold store, modify in Hs. injection Hs as <-.
  rewrite Hh, insert_first_new. done.
Qed.

Lemma FastFit__init___inv a w self w' :
  FastFit__init__ a w = (Ok self, w') →
  ∃ w2, BayesianFit__init__ FastFitC a (set_calls ("FastFit.__init__" :: w_calls w) w)
          = (Ok self, w2)
    ∧ ∀ h d, w_heap w2 = h ++ [FitObj (object_after BayesianFitC FastFitC a (S (length h))); d] →
             self = length h →
             w' = set_heap (h ++ [FitObj (object_after FastFitC FastFitC a (S (length h))); d]) w2.
Proof.
  unfold FastFit__init__. intros E.
  apply bind_inv_Ok in E as ([] & w1 & He & E). injection He as <-.
  apply bind_inv_Ok in E as (self' & w2 & Hf & E).
  exists w2. apply bind_inv_Ok in E as (this & w3 & Hl & E).
  apply load_fit_inv in Hl as [Hl ->].
  apply bind_inv_Ok in E as ([] & w4 & Hs & E). injection E as <- <-.
  split; [done|]. intros h d Hh ->. rewrite Hh, lookup_first_new in Hl.
  injection Hl as <-. unfold store, modify in Hs. injection Hs as <-.
  rewrite Hh, insert_first_new. done.
Qed.

(** What a successful construction leaves behind. *)
Lemma new_inv k a w self w' :
  new k a w = (Ok self, w') → constructed k a w w' self.
Proof.
  destruct k; simpl; intros E.
  - apply Fit__init___inv in E as [Hv Hb].
    apply build_inv in Hb as (par & Hp & -> & Hh & Hi & Ho & Hm & Hps & Hr & _).
    exists par. repeat (split; [done|]). eexists. split; [|exact Hv]. done.
  - apply BayesianFit__init___inv in E as (w2 & E & Hw').
    apply Fit__init___inv in E as [Hv Hb].
    apply build_inv in Hb as (par & Hp & -> & Hh & Hi & Ho & Hm & Hps & Hr & _).
    simpl in *. rewrite (Hw' _ _ Hh eq_refl). simpl.
    exists par. repeat (split; [done|]). eexists. split; [|exact Hv]. done.
  - apply FastFit__init___inv in E as (w3 & E & Hw'').
    apply BayesianFit__init___inv in E as (w2 & E & Hw').
    apply Fit__init___inv in E as [Hv Hb].
    apply build_inv in Hb as (par & Hp & -> & Hh & Hi & Ho & Hm & Hps & Hr & _).
    simpl in *. specialize (Hw' _ _ Hh eq_refl). subst w3.
    rewrite (Hw'' _ _ eq_refl eq_refl). simpl.
    exists par. repeat (split; [done|]). eexists. split; [|exact Hv]. done.
Qed.

Lemma constructed_lookup k a w w' self :
  constructed k a w w' self →
  w_heap w' !! self = Some (FitObj (constructed_object k a (S (length (w_heap w))))).
Proof.
  intros (par & _ & -> & -> & _). apply lookup_first_new.
Qed.

Lemma constructed_filters_exclusive k a w w' self :
  constructed k a w w' self →
  filters_exclusive (constructed_object k a (S (length (w_heap w)))).
Proof.
  intros (par & _ & _ & _ & _ & _ & _ & _ & _ & w1 & _ & Hv) [He Hi].
  destruct (validate_both_filters a w1 He Hi) as [e Hr]. congruence.
Qed.

(** ** The conversions between arrays and dictionaries *)

Lemma dict_comprehension_Ok names x k acc :
  k + length names ≤ length x →
  ∃ sub, dict_comprehension names x k acc = Ok sub
    ∧ (∀ p, p ∉ names → sub !! p = acc !! p)
    ∧ (∀ p, p ∈ names →
         ∃ i, names !! i = Some p ∧ is_Some (x !! (k + i)) ∧ sub !! p = x !! (k + i)).
Proof.
  revert k acc. induction names as [|q names IH]; intros k acc Hlen; simpl in *.
  - exists acc. split; [done|]. split; [done|]. intros p Hp. by apply elem_of_nil in Hp.
  - destruct (lookup_lt_is_Some_2 x k) as [v Hv]; [lia|].
    unfold getitem. rewrite Hv. simpl.
    destruct (IH (S k) (<[q:=v]> acc)) as (sub & E & Hout & Hin); [lia|].
    exists sub. split; [done|]. split.
    + intros p Hp. apply not_elem_of_cons in Hp as [Hpq Hp].
      rewrite Hout by done. by rewrite lookup_insert_ne.
    + intros p Hp. destruct (decide (p ∈ names)) as [Hn|Hn].
      * destruct (Hin p Hn) as (i & Hi & Hs & Hl). exists (S i).
        rewrite Nat.add_succ_r. done.
      * apply elem_of_cons in Hp as [->|Hp]; [|done]. exists 0.
        rewrite Nat.add_0_r, Hout, lookup_insert_eq by done. by rewrite Hv.
Qed.

Lemma dict_comprehension_Raise names x k acc :
  k ≤ length x → length x < k + length names →
  dict_comprehension names x k acc = Raise (IndexError "index out of bounds").
Proof.
  revert k acc. induction names as [|q names IH]; intros k acc Hk Hlen; simpl in *; [lia|].
  unfold getitem. destruct (x !! k) as [v|] eqn:Hv; simpl; [|done].
  apply lookup_lt_Some in Hv. apply IH; lia.
Qed.

Lemma FastFit_array_to_dict_Ok (this : FitObject) x :
  length (fit_parameters this) + length (fit_wc_names this) ≤ length x →
  ∃ fp wc,
    FastFit_array_to_dict this x
      = Ok (<["fit_wc" := wc]> (<["fit_parameters" := fp]> ∅))
    ∧ slice_dict (fit_parameters this) x 0 fp
    ∧ slice_dict (fit_wc_names this) x (length (fit_parameters this)) wc.
Proof.
  intros Hlen. unfold FastFit_array_to_dict.
  destruct (dict_comprehension_Ok (fit_parameters this) x 0 ∅) as (fp & E1 & Ho1 & Hi1);
    [lia|].
  destruct (dict_comprehension_Ok (fit_wc_names this) x
              (length (fit_parameters this)) ∅) as (wc & E2 & Ho2 & Hi2); [lia|].
  exists fp, wc. rewrite E1. simpl. rewrite E2. simpl. split; [done|].
  split; (split; [intros p Hp; by rewrite ?Ho1, ?Ho2|done]).
Qed.

Lemma FastFit_array_to_dict_Raise (this : FitObject) x :
  length x < length (fit_parameters this) + length (fit_wc_names this) →
  FastFit_array_to_dict this x = Raise (IndexError "index out of bounds").
Proof.
  intros Hlen. unfold FastFit_array_to_dict.
  destruct (decide (length (fit_parameters this) ≤ length x)) as [Hle|Hgt].
  - destruct (dict_comprehension_Ok (fit_parameters this) x 0 ∅) as (fp & E1 & _);
      [lia|].
    rewrite E1. simpl. by rewrite dict_comprehension_Raise by lia.
  - by rewrite (dict_comprehension_Raise (fit_parameters this)) by lia.
Qed.

(** Claim C1, on the code.  [FastFit.dict_to_array] raises [NameError]
    whatever the fit and the dictionary are: its third statement reads the
    name [n_nui_p], which is bound nowhere.  So no vector comes back from
    [dict_to_array(array_to_dict(x))] on a FastFit, and no dictionary goes
    through [array_to_dict(dict_to_array(d))]. *)
Theorem FastFit_dict_to_array_raises :
  (∀ (this : FitObject) d, FastFit_dict_to_array this d = Raise (NameError "n_nui_p"))
  ∧ (∀ (this : FitObject) x,
       is_Ok (FastFit_array_to_dict this x ≫= FastFit_dict_to_array this) = false)
  ∧ (∀ (this : FitObject) d,
       is_Ok (FastFit_dict_to_array this d ≫= FastFit_array_to_dict this) = false).
Proof.
  assert (Hd : ∀ (this : FitObject) d,
    FastFit_dict_to_array this d = Raise (NameError "n_nui_p")).
  { intros this d. unfold FastFit_dict_to_array.
    replace (load_global "n_nui_p") with (Raise (A:=GlobalObject) (NameError "n_nui_p"))
      by by vm_compute.
    done. }
  split; [exact Hd|]. split.
  - intros this x. unfold mbind, Result_bind.
    destruct (FastFit_array_to_dict this x) as [d|e]; [|done]. by rewrite Hd.
  - intros this d. by rewrite Hd.
Qed.

(** Claim C4, as amended.  An object built by [BayesianFit(...)] or by
    [FastFit(...)] has [dimension] equal to the number of fit parameters plus
    that of nuisance parameters plus that of coupling names.
    [FastFit.array_to_dict] reads its vector as the fit parameters followed
    by the couplings: it succeeds exactly when the vector has at least that
    many entries, whatever the number of nuisance parameters, and its result
    has the two keys [fit_parameters] and [fit_wc] only. *)
Theorem dimension_and_partition :
  (∀ k a w self w',
     new k a w = (Ok self, w') → k = BayesianFitC ∨ k = FastFitC →
     ∃ this, w_heap w' !! self = Some (FitObj this) ∧ cls this = k
       ∧ fit_parameters this = a_fit_parameters a
       ∧ nuisance_parameters this = a_nuisance_parameters a
       ∧ fit_wc_names this = a_fit_wc_names a
       ∧ dimension this = Some (length (fit_parameters this)
                                + length (nuisance_parameters this)
                                + length (fit_wc_names this)))
  ∧ (∀ (this : FitObject) x,
       length (fit_parameters this) + length (fit_wc_names this) ≤ length x →
       ∃ fp wc,
         FastFit_array_to_dict this x
           = Ok (<["fit_wc" := wc]> (<["fit_parameters" := fp]> ∅))
         ∧ slice_dict (fit_parameters this) x 0 fp
         ∧ slice_dict (fit_wc_names this) x (length (fit_parameters this)) wc)
  ∧ (∀ (this : FitObject) x,
       length x < length (fit_parameters this) + length (fit_wc_names this) →
       FastFit_array_to_dict this x = Raise (IndexError "index out of bounds")).
Proof.
  split; [|split].
  - intros k a w self w' Hnew Hk. apply new_inv in Hnew.
    rewrite (constructed_lookup _ _ _ _ _ Hnew). eexists. split; [done|].
    by destruct Hk as [-> | ->].
  - apply FastFit_array_to_dict_Ok.
  - apply FastFit_array_to_dict_Raise.
Qed.

(** ** The theory covariance of a constraint block *)

Lemma elem_of_imap_pair {A} (l : list A) i x :
  (i, x) ∈ imap (λ i x, (i, x)) l ↔ l !! i = Some x.
Proof.
  rewrite list_elem_of_lookup. setoid_rewrite list_lookup_imap. split.
  - intros (j & Hj). destruct (l !! j) as [y|] eqn:E; simpl in Hj; [|done].
    by injection Hj as <- <-.
  - intros E. exists i. by rewrite E.
Qed.

Lemma elem_of_where_zero v i :
  i ∈ where_zero v ↔ ∃ x, v !! i = Some x ∧ PrimFloat.eqb x 0%float = true.
Proof.
  unfold where_zero. rewrite list_elem_of_omap. split.
  - intros ([j x] & Hin & Hf). apply elem_of_imap_pair in Hin.
    destruct (PrimFloat.eqb x 0%float) eqn:E; [|done]. injection Hf as <-. eauto.
  - intros (x & Hx & E). exists (i, x). split; [by apply elem_of_imap_pair|].
    by rewrite E.
Qed.

Lemma omap_total {A B} (f : A → option B) (g : A → B) (l : list A) :
  (∀ x, x ∈ l → f x = Some (g x)) → omap f l = g <$> l.
Proof.
  induction l as [|x l IH]; intros Hf; [done|]. simpl.
  rewrite Hf by left. simpl. f_equal. apply IH. intros y Hy. apply Hf. by right.
Qed.

Lemma np_diag_lookup n a i : square n a → np_diag a !! i = entry a i i.
Proof.
  intros [Hn Hrows]. unfold np_diag, entry.
  rewrite (omap_total _ (λ ir, default 0%float (ir.2 !! ir.1))).
  - rewrite list_lookup_fmap, list_lookup_imap.
    destruct (a !! i) as [row|] eqn:E; simpl; [|done].
    destruct (lookup_lt_is_Some_2 row i) as [v Hv]; [|by rewrite Hv].
    rewrite Forall_forall in Hrows.
    rewrite (Hrows row) by by eapply list_elem_of_lookup_2.
    apply lookup_lt_Some in E. lia.
  - intros [j row] Hin. apply elem_of_imap_pair in Hin. simpl.
    destruct (lookup_lt_is_Some_2 row j) as [v Hv]; [|by rewrite Hv].
    rewrite Forall_forall in Hrows.
    rewrite (Hrows row) by by eapply list_elem_of_lookup_2.
    apply lookup_lt_Some in Hin. lia.
Qed.

Lemma setitem2_diag a i row s :
  a !! i = Some row → i < length row →
  setitem2 a i i s = Ok (alter (<[i := s]>) i a).
Proof.
  intros Ha Hi. unfold setitem2, getitem. rewrite Ha. simpl.
  destruct (lookup_lt_is_Some_2 row i Hi) as [v Hv]. rewrite Hv. simpl.
  f_equal. apply list_eq. intros j. destruct (decide (i = j)) as [<-|Hne].
  - rewrite list_lookup_insert_eq, list_lookup_alter_eq, Ha; [done|].
    by eapply lookup_lt_Some.
  - by rewrite list_lookup_insert_ne, list_lookup_alter_ne.
Qed.

Lemma for_fold_ext {A S} (l : list A) (s : S) (f g : S → A → Result S) :
  (∀ s x, f s x = g s x) → for_fold l s f = for_fold l s g.
Proof.
  intros Hfg. revert s. induction l as [|x l IH]; intros s; [done|]. simpl.
  rewrite Hfg. destruct (g s x); simpl; [apply IH|done].
Qed.

Lemma set_diag_loop v idx (m : list (list float)) :
  (∀ i, i ∈ idx → ∃ row, m !! i = Some row ∧ i < length row) →
  for_fold idx m (λ c i, setitem2 c i i v)
  = Ok (foldl (λ c i, alter (<[i := v]>) i c) m idx).
Proof.
  revert m. induction idx as [|i idx IH]; intros m Hm; [done|]. simpl.
  destruct (Hm i) as (row & Hrow & Hi); [left|].
  rewrite (setitem2_diag m i row _ Hrow Hi). simpl. apply IH.
  intros j Hj. destruct (Hm j) as (rowj & Hrowj & Hjlt); [by right|].
  destruct (decide (i = j)) as [<-|Hne].
  - exists (<[i := v]> row).
    rewrite list_lookup_alter_eq, Hrow, length_insert. done.
  - exists rowj. by rewrite list_lookup_alter_ne.
Qed.

Lemma fix_loop constraint r idx (m : list (list float)) :
  support_range constraint = Ok r →
  (∀ i, i ∈ idx → ∃ row, m !! i = Some row ∧ i < length row) →
  for_fold idx m (λ cov_sm_p_fixed i,
      r ← support_range constraint;
      setitem2 cov_sm_p_fixed i i (small_variance r))
  = Ok (foldl (λ c i, alter (<[i := small_variance r]>) i c) m idx).
Proof.
  intros Hr Hm. rewrite <- (set_diag_loop _ idx m Hm).
  apply for_fold_ext. intros c i. by rewrite Hr.
Qed.

Lemma lookup_fix_loop s idx (m : list (list float)) i :
  foldl (λ c i, alter (<[i := s]>) i c) m idx !! i
  = if decide (i ∈ idx) then <[i := s]> <$> m !! i else m !! i.
Proof.
  revert m. induction idx as [|j idx IH]; intros m.
  - destruct (decide (i ∈ [])) as [Hin|_]; [by apply elem_of_nil in Hin|done].
  - simpl foldl. rewrite IH. destruct (decide (i = j)) as [<-|Hne].
    + rewrite list_lookup_alter_eq.
      destruct (decide (i ∈ i :: idx)) as [_|Hn]; [|destruct Hn; left].
      destruct (decide (i ∈ idx)); [|done].
      destruct (m !! i) as [row|]; simpl; [|done]. f_equal.
      apply list_insert_insert_eq.
    + rewrite list_lookup_alter_ne by done.
      destruct (decide (i ∈ idx)) as [Hin|Hin], (decide (i ∈ j :: idx)) as [Hin'|Hin'];
        try done.
      * destruct Hin'. by right.
      * apply elem_of_cons in Hin' as [?|?]; done.
Qed.

(** The loop of [make_measurement] over the zero variances, in closed form. *)
Lemma fix_zero_variances_eq constraint r n cov :
  support_range constraint = Ok r → square n cov →
  ∃ fixed, fix_zero_variances constraint cov = Ok fixed ∧
    ∀ i j, entry fixed i j =
      match entry cov i i with
      | Some v =>
          if PrimFloat.eqb v 0%float && bool_decide (i = j)
          then Some (small_variance r) else entry cov i j
      | None => entry cov i j
      end.
Proof.
  intros Hr Hsq. unfold fix_zero_variances.
  assert (Hidx : ∀ i, i ∈ where_zero (np_diag cov) ↔
            ∃ v, entry cov i i = Some v ∧ PrimFloat.eqb v 0%float = true).
  { intros i. rewrite elem_of_where_zero. by setoid_rewrite (np_diag_lookup n cov i Hsq). }
  rewrite (fix_loop constraint r) by first
    [ done
    | intros i (v & Hv & _)%Hidx; unfold entry in Hv;
      destruct (cov !! i) as [row|]; simpl in Hv; [|done];
      exists row; split; [done|]; by eapply lookup_lt_Some ].
  eexists. split; [done|]. intros i j. unfold entry at 1.
  rewrite lookup_fix_loop.
  destruct (decide (i ∈ where_zero (np_diag cov))) as [Hin|Hin].
  - apply Hidx in Hin as (v & Hv & Hz). rewrite Hv, Hz. simpl.
    unfold entry in *. destruct (cov !! i) as [row|]; simpl in *; [|done].
    destruct (decide (i = j)) as [<-|Hne].
    + rewrite bool_decide_eq_true_2 by done.
      apply list_lookup_insert_eq. by eapply lookup_lt_Some.
    + rewrite bool_decide_eq_false_2 by done. by apply list_lookup_insert_ne.
  - destruct (entry cov i i) as [v|] eqn:Hv; [|done].
    destruct (PrimFloat.eqb v 0%float) eqn:Hz; [|done].
    destruct Hin. apply Hidx. eauto.
Qed.

(** Claim C3, on the code.  With the support of the constraint given as
    the row of lower ends and the row of upper ends, the loop of
    [make_measurement] replaces every zero on the diagonal of a square
    covariance by [((h - l)/100000.)**2], where [l] and [h] are the ends of
    the support along the axis of index 1, whatever the index of the zero;
    every other entry is left as it was. *)
Theorem zero_variance_uses_axis_one constraint lows highs l h n cov :
  support constraint = Arr2 [lows; highs] →
  lows !! 1 = Some l → highs !! 1 = Some h →
  square n cov →
  ∃ fixed, fix_zero_variances constraint cov = Ok fixed ∧
    ∀ i j, entry fixed i j =
      match entry cov i i with
      | Some v =>
          if PrimFloat.eqb v 0%float && bool_decide (i = j)
          then Some (small_variance (PrimFloat.sub h l)) else entry cov i j
      | None => entry cov i j
      end.
Proof.
  intros Hs Hl Hh Hsq. apply (fix_zero_variances_eq _ _ n); [|done].
  unfold support_range. rewrite Hs. simpl. unfold getitem.
  rewrite lookup_zip_with, Hl, list_lookup_fmap, Hh. done.
Qed.

(** Claim C2, on the code.  For a constraint block over one observable whose
    theory variance is such that its square root equals zero,
    [make_measurement] does not get a theory distribution: reading the name
    [DeltaDistribution], which the module does not import, raises
    [NameError]. *)
Theorem zero_variance_single_observable (this : FitObject) rows constraint p i row v :
  list_index repr_obs (observables this) p = Ok i →
  rows !! i = Some row → row !! i = Some v →
  PrimFloat.eqb (PrimFloat.sqrt v) 0%float = true →
  theory_constraint this (Arr2 rows) constraint [p]
    = Raise (NameError "DeltaDistribution").
Proof.
  intros Hi Hrow Hv Hz. unfold theory_constraint. simpl. rewrite Hi. simpl.
  unfold getitem. rewrite Hrow. simpl. rewrite Hv. simpl. by rewrite Hz.
Qed.

(** When the square root of the variance is not zero, the block gets the
    univariate Gaussian. *)
Lemma nonzero_variance_single_observable (this : FitObject) rows constraint p i row v :
  list_index repr_obs (observables this) p = Ok i →
  rows !! i = Some row → row !! i = Some v →
  PrimFloat.eqb (PrimFloat.sqrt v) 0%float = false →
  theory_constraint this (Arr2 rows) constraint [p]
    = Ok (NormalDistribution (central_value constraint) (PrimFloat.sqrt v)).
Proof.
  intros Hi Hrow Hv Hz. unfold theory_constraint. simpl. rewrite Hi. simpl.
  unfold getitem. rewrite Hrow. simpl. rewrite Hv. simpl. by rewrite Hz.
Qed.

(** ** Relations kept by every step *)

Section keeps.
Context (R : World → World → Prop) `{!PreOrder R}.

Lemma keeps_ret {A} (a : A) : keeps R (mret a).
Proof. intros w. simpl. reflexivity. Qed.
Lemma keeps_lift {A} (r : Result A) : keeps R (lift r).
Proof. intros w. simpl. reflexivity. Qed.
Lemma keeps_gets {A} (f : World → A) : keeps R (gets f).
Proof. intros w. simpl. reflexivity. Qed.
Lemma keeps_reads {A} (m : M A) : reads m → keeps R m.
Proof. intros Hm w. rewrite Hm. reflexivity. Qed.
Lemma keeps_modify f : (∀ w, R w (f w)) → keeps R (modify f).
Proof. intros Hf w. apply Hf. Qed.
Lemma keeps_bind {A B} (m : M A) (f : A → M B) :
  keeps R m → (∀ a, keeps R (f a)) → keeps R (m ≫= f).
Proof.
  intros Hm Hf w. unfold mbind, M_bind. specialize (Hm w).
  destruct (m w) as [[a|e] w1]; simpl in *; [|done].
  etrans; [exact Hm|apply Hf].
Qed.
Lemma keeps_for {A} (l : list A) (body : A → M unit) :
  (∀ x, keeps R (body x)) → keeps R (for_ l body).
Proof.
  intros Hb. induction l as [|x l IH]; [apply keeps_ret|].
  apply keeps_bind; [apply Hb|intros _; apply IH].
Qed.
Lemma keeps_for_fold {A S} (l : list A) (s : S) (body : S → A → M S) :
  (∀ s x, keeps R (body s x)) → keeps R (for_fold l s body).
Proof.
  intros Hb. revert s. induction l as [|x l IH]; intros s; [apply keeps_ret|].
  apply keeps_bind; [apply Hb|intros s'; apply IH].
Qed.
Lemma keeps_mapM {A B} (f : A → M B) (l : list A) :
  (∀ x, keeps R (f x)) → keeps R (mapM f l).
Proof.
  intros Hf. induction l as [|x l IH]; [apply keeps_ret|]. simpl.
  apply keeps_bind; [apply Hf|intros y].
  apply keeps_bind; [apply IH|intros k; apply keeps_ret].
Qed.
Lemma keeps_try_except {A} (m : M A) e : keeps R m → keeps R (try_except m e).
Proof.
  intros Hm w. unfold try_except. specialize (Hm w).
  by destruct (m w) as [[a|e'] w1].
Qed.

End keeps.

Create HintDb keeps discriminated.
Hint Resolve keeps_ret keeps_lift keeps_gets : keeps.
Hint Extern 1 (keeps _ (load _)) =>
  apply keeps_reads; [typeclasses eauto|apply reads_load] : keeps.
Hint Extern 1 (keeps _ (load_fit _)) =>
  apply keeps_reads; [typeclasses eauto|apply reads_load_fit] : keeps.
Hint Extern 1 (keeps _ (load_dict _)) =>
  apply keeps_reads; [typeclasses eauto|apply reads_load_dict] : keeps.
Hint Extern 1 (keeps _ (load_params _)) =>
  apply keeps_reads; [typeclasses eauto|apply reads_load_params] : keeps.
Hint Extern 1 (keeps _ (Observable_get_instance _)) =>
  apply keeps_reads; [typeclasses eauto|apply reads_Observable_get_instance] : keeps.

Ltac keeps_step :=
  lazymatch goal with
  | |- keeps _ (mret _) => apply keeps_ret; typeclasses eauto
  | |- keeps _ (lift _) => apply keeps_lift; typeclasses eauto
  | |- keeps _ (gets _) => apply keeps_gets; typeclasses eauto
  | |- keeps _ (mbind _ _) => apply keeps_bind; [typeclasses eauto| |intros ?]
  | |- keeps _ (for_ _ _) => apply keeps_for; [typeclasses eauto|intros ?]
  | |- keeps _ (for_fold _ _ _) => apply keeps_for_fold; [typeclasses eauto|intros ? ?]
  | |- keeps _ (mapM _ _) => apply keeps_mapM; [typeclasses eauto|intros ?]
  | |- keeps _ (try_except _ _) => apply keeps_try_except
  | |- keeps _ (match ?x with _ => _ end) => destruct x
  | |- keeps _ _ => solve [eauto with keeps]
  end.
Ltac solve_keeps := repeat keeps_step.

(** ** The methods entered by a computation *)

Global Instance logs_only_preorder S : PreOrder (logs_only S).
Proof.
  split.
  - intros w. by exists [].
  - intros w1 w2 w3 (n1 & E1 & H1) (n2 & E2 & H2). exists (n2 ++ n1).
    rewrite E2, E1, app_assoc. split; [done|]. by apply Forall_app.
Qed.

Lemma logs_only_same_calls S w w' : w_calls w' = w_calls w → logs_only S w w'.
Proof. intros E. by exists []. Qed.

Lemma keeps_logs_enter (S : string → Prop) method :
  S method → keeps (logs_only S) (enter method).
Proof. intros Hs w. exists [method]. split; [done|]. by apply Forall_singleton. Qed.

Lemma keeps_logs_alloc S o : keeps (logs_only S) (alloc o).
Proof. intros w. by apply logs_only_same_calls. Qed.
Lemma keeps_logs_store S l o : keeps (logs_only S) (store l o).
Proof. intros w. by apply logs_only_same_calls. Qed.
Lemma keeps_logs_next_draw S : keeps (logs_only S) next_draw.
Proof. intros w. by apply logs_only_same_calls. Qed.
Lemma keeps_logs_set_pseudo S (f : World → gmap string Measurement) :
  keeps (logs_only S) (modify (λ w, set_pseudo_measurements (f w) w)).
Proof. intros w. by apply logs_only_same_calls. Qed.

Hint Resolve keeps_logs_alloc keeps_logs_store keeps_logs_next_draw
  keeps_logs_set_pseudo : keeps.
Hint Extern 1 (keeps (logs_only _) (enter _)) =>
  apply keeps_logs_enter; unfold not_the_experiment_covariance; discriminate : keeps.

Local Abbreviation quiet := (logs_only not_the_experiment_covariance).

Lemma quiet_get_measurements self : keeps quiet (get_measurements self).
Proof. unfold get_measurements. solve_keeps. Qed.
Hint Resolve quiet_get_measurements : keeps.

Lemma quiet_get_random_nuisance_parameters self :
  keeps quiet (get_random_nuisance_parameters self).
Proof. unfold get_random_nuisance_parameters. solve_keeps. Qed.
Hint Resolve quiet_get_random_nuisance_parameters : keeps.

Lemma quiet__get_covariance_sm self N : keeps quiet (_get_covariance_sm self N).
Proof. unfold _get_covariance_sm, random_nuisance_dict. solve_keeps. Qed.
Hint Resolve quiet__get_covariance_sm : keeps.

Lemma quiet_make_measurement self N Nexp : keeps quiet (make_measurement self N Nexp).
Proof.
  unfold make_measurement, make_pseudo_measurement, add_theory_uncertainty,
    pseudo_add_constraint, PseudoMeasurement_get_instance, Measurement_get_instance.
  solve_keeps.
Qed.

Lemma quiet_get_par_dict self x : keeps quiet (get_par_dict self x).
Proof.
  unfold get_par_dict, BayesianFit_get_par_dict, FastFit_get_par_dict,
    dict_copy, dict_update.
  solve_keeps.
Qed.
Hint Resolve quiet_get_par_dict : keeps.

Lemma quiet_get_wc_obj self x : keeps quiet (get_wc_obj self x).
Proof. unfold get_wc_obj. solve_keeps. Qed.
Hint Resolve quiet_get_wc_obj : keeps.

Lemma quiet_get_predictions self x : keeps quiet (get_predictions self x).
Proof. unfold get_predictions. solve_keeps. Qed.
Hint Resolve quiet_get_predictions : keeps.

Lemma quiet_log_likelihood self x : keeps quiet (log_likelihood self x).
Proof.
  unfold log_likelihood, BayesianFit_log_likelihood, FastFit_log_likelihood,
    PseudoMeasurement_get_instance, Measurement_get_instance.
  solve_keeps.
Qed.

Lemma keeps_logs_weaken (S S' : string → Prop) {A} (m : M A) :
  (∀ n, S n → S' n) → keeps (logs_only S) m → keeps (logs_only S') m.
Proof.
  intros HS Hm w. destruct (Hm w) as (new & E & Hn). exists new. split; [done|].
  eapply Forall_impl; [exact Hn|exact HS].
Qed.

Lemma logged__get_central_covariance_experiment self N w :
  "FastFit._get_central_covariance_experiment"
    ∈ w_calls (_get_central_covariance_experiment self N w).2.
Proof.
  unfold _get_central_covariance_experiment.
  rewrite (bind_Ok _ _ w tt
    (set_calls ("FastFit._get_central_covariance_experiment" :: w_calls w) w)) by done.
  cbv beta.
  match goal with |- _ ∈ w_calls (?m ?w1).2 =>
    assert (Hk : keeps (logs_only (λ _, True)) m); [|destruct (Hk w1) as (new & E & _)]
  end.
  - assert (keeps (logs_only (λ _, True)) (get_measurements self)).
    { eapply keeps_logs_weaken; [|apply quiet_get_measurements]. done. }
    unfold Measurement_get_instance. solve_keeps.
  - rewrite E. apply elem_of_app. right. left.
Qed.

(** Claim C8.  [make_measurement(N, Nexp)] is the same computation for all
    values of [Nexp]: the same result and the same world afterwards.  Neither
    [make_measurement] nor [log_likelihood] enters
    [_get_central_covariance_experiment], a method whose every call is
    logged. *)
Theorem Nexp_is_never_read :
  (∀ self N Nexp Nexp' w,
     make_measurement self N Nexp w = make_measurement self N Nexp' w)
  ∧ (∀ self N Nexp w,
       logs_only not_the_experiment_covariance w (make_measurement self N Nexp w).2)
  ∧ (∀ self x w,
       logs_only not_the_experiment_covariance w (log_likelihood self x w).2)
  ∧ (∀ self N w,
       "FastFit._get_central_covariance_experiment"
         ∈ w_calls (_get_central_covariance_experiment self N w).2).
Proof.
  split; [done|]. split; [|split].
  - intros self N Nexp. apply quiet_make_measurement.
  - intros self x. apply quiet_log_likelihood.
  - apply logged__get_central_covariance_experiment.
Qed.

(** ** The frame of [make_measurement] *)

Global Instance frame_preorder : PreOrder frame.
Proof.
  split.
  - intros w. done.
  - intros w1 w2 w3 (Hh1 & Ho1 & Hm1) (Hh2 & Ho2 & Hm2).
    split; [by etrans|]. split; congruence.
Qed.

Lemma frame_same_heap w w' :
  w_heap w' = w_heap w → w_observables w' = w_observables w →
  w_measurements w' = w_measurements w → frame w w'.
Proof. intros Hh Ho Hm. split; [by rewrite Hh|done]. Qed.

Lemma frame_lookup w w' l o :
  frame w w' → w_heap w !! l = Some o → w_heap w' !! l = Some o.
Proof. intros (Hp & _) Hl. by eapply prefix_lookup_Some. Qed.

Lemma keeps_frame_enter method : keeps frame (enter method).
Proof. intros w. by apply frame_same_heap. Qed.
Lemma keeps_frame_alloc o : keeps frame (alloc o).
Proof. intros w. split; [by apply prefix_app_r|done]. Qed.
Lemma keeps_frame_next_draw : keeps frame next_draw.
Proof. intros w. by apply frame_same_heap. Qed.
Lemma keeps_frame_set_pseudo (f : World → gmap string Measurement) :
  keeps frame (modify (λ w, set_pseudo_measurements (f w) w)).
Proof. intros w. by apply frame_same_heap. Qed.
Hint Resolve keeps_frame_enter keeps_frame_alloc keeps_frame_next_draw
  keeps_frame_set_pseudo : keeps.

Lemma frame_get_measurements self : keeps frame (get_measurements self).
Proof. unfold get_measurements. solve_keeps. Qed.
Hint Resolve frame_get_measurements : keeps.

Lemma frame__get_covariance_sm self N : keeps frame (_get_covariance_sm self N).
Proof.
  unfold _get_covariance_sm, random_nuisance_dict, get_random_nuisance_parameters.
  solve_keeps.
Qed.

Lemma frame_pseudo_add_constraint pm ps c : keeps frame (pseudo_add_constraint pm ps c).
Proof. unfold pseudo_add_constraint, PseudoMeasurement_get_instance. solve_keeps. Qed.
Hint Resolve frame_pseudo_add_constraint : keeps.

Lemma frame_add_theory_uncertainty self cov pm b :
  keeps frame (add_theory_uncertainty self cov pm b).
Proof. unfold add_theory_uncertainty. solve_keeps. Qed.
Hint Resolve frame_add_theory_uncertainty : keeps.

Lemma frame_make_pseudo_measurement self cov n :
  keeps frame (make_pseudo_measurement self cov n).
Proof. unfold make_pseudo_measurement, Measurement_get_instance. solve_keeps. Qed.

(** ** Loops that stop at the first exception *)

Lemma for_all_Ok {A} (I : World → Prop) (l : list A) (body : A → M unit) w :
  I w →
  (∀ y w, y ∈ l → I w → ∃ w', body y w = (Ok tt, w') ∧ I w') →
  ∃ w', for_ l body w = (Ok tt, w') ∧ I w'.
Proof.
  revert w. induction l as [|y l IH]; intros w Hw Hb; [by exists w|]. simpl.
  destruct (Hb y w) as (w1 & E & Hw1); [left|done|].
  rewrite (bind_Ok _ _ _ _ _ E). apply IH; [done|].
  intros z w2 Hz. apply Hb. by right.
Qed.

Lemma for_first_failure {A} (I : World → Prop) (pre post : list A) x
    (body : A → M unit) e w :
  I w →
  (∀ y w, y ∈ pre → I w → ∃ w', body y w = (Ok tt, w') ∧ I w') →
  (∀ w, I w → ∃ w', body x w = (Raise e, w')) →
  ∃ w', for_ (pre ++ x :: post) body w = (Raise e, w').
Proof.
  revert w. induction pre as [|y pre IH]; intros w Hw Hpre Hx; simpl.
  - destruct (Hx w Hw) as (w' & E). rewrite (bind_Raise _ _ _ _ _ E). eauto.
  - destruct (Hpre y w) as (w1 & E & Hw1); [left|done|].
    rewrite (bind_Ok _ _ _ _ _ E). apply IH; [done| |done].
    intros z w2 Hz. apply Hpre. by right.
Qed.

Lemma for_never_Ok {A} (I : World → Prop) (l : list A) x (body : A → M unit) w :
  x ∈ l → I w →
  (∀ y w, I w → I (body y w).2) →
  (∀ w, I w → is_Ok (body x w).1 = false) →
  is_Ok (for_ l body w).1 = false.
Proof.
  intros Hx. revert w. induction l as [|y l IH]; intros w Hw Hi Hb.
  - by apply elem_of_nil in Hx.
  - simpl. unfold mbind, M_bind.
    destruct (body y w) as [[[]|e] w1] eqn:E; [|done].
    apply elem_of_cons in Hx as [<-|Hx].
    + specialize (Hb w Hw). by rewrite E in Hb.
    + apply IH; [done| |done|done]. specialize (Hi y w Hw). by rewrite E in Hi.
Qed.

(** ** Observables outside the list of the fit *)

Lemma list_index_Raise {A} `{EqDecision A} (repr : A → string) (l : list A) x :
  x ∉ l → list_index repr l x = Raise (ValueError (repr x +:+ " is not in list")).
Proof.
  induction l as [|y l IH]; intros Hx; [done|]. simpl.
  apply not_elem_of_cons in Hx as [Hne Hx].
  rewrite decide_False by done. by rewrite IH.
Qed.

Lemma list_index_Ok {A} `{EqDecision A} (repr : A → string) (l : list A) x :
  x ∈ l → ∃ i, list_index repr l x = Ok i ∧ l !! i = Some x.
Proof.
  induction l as [|y l IH]; intros Hx; [by apply elem_of_nil in Hx|]. simpl.
  destruct (decide (x = y)) as [->|Hne]; [by exists 0|].
  apply elem_of_cons in Hx as [?|Hx]; [done|].
  destruct (IH Hx) as (i & E & Hi). exists (S i). by rewrite E.
Qed.

Lemma ppos_Raise (this : FitObject) ps p :
  p ∈ ps → p ∉ observables this →
  ∃ q, q ∈ ps ∧ (q ∉ observables this) ∧
    (mapM (list_index repr_obs (observables this)) ps
      = Raise (ValueError (repr_obs q +:+ " is not in list"))).
Proof.
  intros Hp Hout. induction ps as [|h ps IH]; [by apply elem_of_nil in Hp|].
  destruct (decide (h ∈ observables this)) as [Hh|Hh].
  - apply elem_of_cons in Hp as [->|Hp]; [done|].
    destruct (IH Hp) as (q & Hq & Hqo & E). exists q.
    split; [by right|]. split; [done|].
    destruct (list_index_Ok repr_obs _ _ Hh) as (i & Ei & _).
    simpl. rewrite Ei. simpl. by rewrite E.
  - exists h. split; [left|]. split; [done|].
    simpl. by rewrite list_index_Raise.
Qed.

Lemma theory_constraint_outside (this : FitObject) cov c ps p :
  p ∈ ps → p ∉ observables this →
  ∃ q, q ∈ ps ∧ (q ∉ observables this) ∧
    (theory_constraint this cov c ps
      = Raise (ValueError (repr_obs q +:+ " is not in list"))).
Proof.
  intros Hp Hout. destruct (ppos_Raise this ps p Hp Hout) as (q & Hq & Hqo & E).
  exists q. split; [done|]. split; [done|]. unfold theory_constraint. by rewrite E.
Qed.

Lemma elem_of_exclude_observables (this : FitObject) (m : Measurement) o :
  o ∈ exclude_observables this m ↔ o ∈ all_parameters m ∧ o ∉ observables this.
Proof.
  unfold exclude_observables. by rewrite elem_of_set_diff, !elem_of_set_of.
Qed.

Lemma fit_at_frame self this ms w w' :
  frame w w' → fit_at self this ms w → fit_at self this ms w'.
Proof.
  intros Hf [Hh Hm]. split; [by eapply frame_lookup|].
  destruct Hf as (_ & _ & ->). done.
Qed.

Lemma Measurement_get_instance_Ok n m w :
  assoc_lookup n (w_measurements w) = Some m →
  Measurement_get_instance n w = (Ok m, w).
Proof. intros E. unfold Measurement_get_instance, gets, mbind, M_bind. by rewrite E. Qed.

Lemma add_theory_uncertainty_Raise self this ms cov pm c ps e w :
  fit_at self this ms w → theory_constraint this cov c ps = Raise e →
  add_theory_uncertainty self cov pm (c, ps) w = (Raise e, w).
Proof.
  intros [Hh _] E. unfold add_theory_uncertainty.
  rewrite (bind_Ok _ _ _ _ _ (load_fit_Ok self w this Hh)). cbv beta.
  by rewrite E.
Qed.

Lemma add_theory_uncertainty_Ok self this ms cov pm c ps w :
  fit_at self this ms w → is_Ok (theory_constraint this cov c ps) = true →
  is_Some (w_pseudo_measurements w !! pm) →
  ∃ w', add_theory_uncertainty self cov pm (c, ps) w = (Ok tt, w')
    ∧ fit_at self this ms w' ∧ is_Some (w_pseudo_measurements w' !! pm).
Proof.
  intros [Hh Hm] E [pmo Hpm]. unfold add_theory_uncertainty.
  rewrite (bind_Ok _ _ _ _ _ (load_fit_Ok self w this Hh)). cbv beta.
  destruct (theory_constraint this cov c ps) as [th|e]; [|done].
  unfold lift, pseudo_add_constraint, PseudoMeasurement_get_instance, gets, modify,
    mbind, M_bind. rewrite Hpm. simpl.
  eexists. split; [done|]. split; [done|]. simpl. by rewrite lookup_insert_eq.
Qed.

Lemma make_pseudo_measurement_Ok self this ms cov n m w :
  fit_at self this ms w → assoc_lookup n ms = Some m →
  blocks_complete this cov (_constraints m) →
  ∃ w', make_pseudo_measurement self cov n w = (Ok tt, w') ∧ fit_at self this ms w'.
Proof.
  intros Hw Hn Hb. unfold make_pseudo_measurement. pose proof Hw as [Hh Hm].
  rewrite (bind_Ok _ _ _ _ _ (Measurement_get_instance_Ok n m w ltac:(by rewrite Hm))).
  cbv beta. rewrite (bind_Ok _ _ _ _ _ (load_fit_Ok self w this Hh)). cbv beta.
  match goal with |- context [mbind ?f (modify ?g) w] =>
    rewrite (bind_Ok (modify g) f w tt (g w)) by done end.
  cbv beta.
  destruct (for_all_Ok
    (λ w, fit_at self this ms w
          ∧ is_Some (w_pseudo_measurements w !! (name this +:+ n)))
    (_constraints m) (add_theory_uncertainty self cov (name this +:+ n))
    (set_pseudo_measurements
       (<[name this +:+ n := empty_measurement]> (w_pseudo_measurements w)) w))
    as (w' & E & Hw' & _).
  - split; [done|]. simpl. by rewrite lookup_insert_eq.
  - intros [c ps] w1 Hin [Hw1 Hs].
    destruct (add_theory_uncertainty_Ok self this ms cov (name this +:+ n) c ps w1)
      as (w2 & E2 & ? & ?); [done| |done|eauto].
    unfold blocks_complete in Hb. rewrite Forall_forall in Hb. by apply (Hb (c, ps)).
  - eauto.
Qed.

Lemma make_pseudo_measurement_Raise self this ms cov n m bpre c ps bpost e w :
  fit_at self this ms w → assoc_lookup n ms = Some m →
  _constraints m = bpre ++ (c, ps) :: bpost →
  blocks_complete this cov bpre →
  theory_constraint this cov c ps = Raise e →
  ∃ w', make_pseudo_measurement self cov n w = (Raise e, w').
Proof.
  intros Hw Hn Hblocks Hb He. unfold make_pseudo_measurement. pose proof Hw as [Hh Hm].
  rewrite (bind_Ok _ _ _ _ _ (Measurement_get_instance_Ok n m w ltac:(by rewrite Hm))).
  cbv beta. rewrite (bind_Ok _ _ _ _ _ (load_fit_Ok self w this Hh)). cbv beta.
  match goal with |- context [mbind ?f (modify ?g) w] =>
    rewrite (bind_Ok (modify g) f w tt (g w)) by done end.
  cbv beta. rewrite Hblocks.
  apply (for_first_failure
    (λ w, fit_at self this ms w
          ∧ is_Some (w_pseudo_measurements w !! (name this +:+ n)))).
  - split; [done|]. simpl. by rewrite lookup_insert_eq.
  - intros [c' ps'] w1 Hin [Hw1 Hs].
    destruct (add_theory_uncertainty_Ok self this ms cov (name this +:+ n) c' ps' w1)
      as (w2 & E2 & ? & ?); [done| |done|eauto].
    unfold blocks_complete in Hb. rewrite Forall_forall in Hb. by apply (Hb (c', ps')).
  - intros w1 [Hw1 _]. exists w1. by eapply add_theory_uncertainty_Raise.
Qed.

Lemma make_pseudo_measurement_never_Ok self this ms cov n m c ps e w :
  fit_at self this ms w → assoc_lookup n ms = Some m →
  (c, ps) ∈ _constraints m →
  theory_constraint this cov c ps = Raise e →
  is_Ok (make_pseudo_measurement self cov n w).1 = false.
Proof.
  intros Hw Hn Hin He. unfold make_pseudo_measurement. pose proof Hw as [Hh Hm].
  rewrite (bind_Ok _ _ _ _ _ (Measurement_get_instance_Ok n m w ltac:(by rewrite Hm))).
  cbv beta. rewrite (bind_Ok _ _ _ _ _ (load_fit_Ok self w this Hh)). cbv beta.
  match goal with |- context [mbind ?f (modify ?g) w] =>
    rewrite (bind_Ok (modify g) f w tt (g w)) by done end.
  cbv beta.
  apply (for_never_Ok (fit_at self this ms) _ (c, ps)); [done|done| |].
  - intros b w1 Hw1. eapply fit_at_frame; [|done].
    apply frame_add_theory_uncertainty.
  - intros w1 Hw1. by rewrite (add_theory_uncertainty_Raise self this ms cov _ c ps e w1).
Qed.

(** The steps of [make_measurement] before its loop. *)
Lemma make_measurement_eq self this N Nexp w cov w2 :
  w_heap w !! self = Some (FitObj this) →
  _get_covariance_sm self N (set_calls ("FastFit.make_measurement" :: w_calls w) w)
    = (Ok cov, w2) →
  fit_at self this (w_measurements w) w2 ∧
  make_measurement self N Nexp w
    = for_ (relevant_measurements this (w_measurements w))
           (make_pseudo_measurement self cov)
           (set_calls ("Fit.get_measurements" :: w_calls w2) w2).
Proof.
  intros Hh Hs.
  assert (Hw2 : fit_at self this (w_measurements w) w2).
  { eapply fit_at_frame; [|split; [exact Hh|done]].
    pose proof (frame__get_covariance_sm self N
      (set_calls ("FastFit.make_measurement" :: w_calls w) w)) as Hf.
    rewrite Hs in Hf. exact Hf. }
  split; [done|]. unfold make_measurement.
  rewrite (bind_Ok _ _ w tt (set_calls ("FastFit.make_measurement" :: w_calls w) w))
    by done.
  cbv beta. rewrite (bind_Ok _ _ _ _ _ Hs). cbv beta.
  destruct Hw2 as [Hh2 Hm2].
  rewrite (bind_Ok _ _ _ _ _ (get_measurements_eq self this w2 Hh2)). by rewrite Hm2.
Qed.

Lemma make_measurement_never_Ok self this w N Nexp n m c ps p :
  w_heap w !! self = Some (FitObj this) →
  relevant_block this w n m c ps →
  p ∈ ps → p ∉ observables this →
  is_Ok (make_measurement self N Nexp w).1 = false.
Proof.
  intros Hh (Hn & Hm & Hc) Hp Hout.
  destruct (_get_covariance_sm self N
              (set_calls ("FastFit.make_measurement" :: w_calls w) w))
    as [[cov|e] w2] eqn:Es.
  - destruct (make_measurement_eq self this N Nexp w cov w2 Hh Es) as [Hw2 ->].
    destruct (theory_constraint_outside this cov c ps p Hp Hout) as (q & _ & _ & E).
    apply (for_never_Ok (fit_at self this (w_measurements w)) _ n); [done| | |].
    + destruct Hw2. by split.
    + intros y w1 Hw1. eapply fit_at_frame; [|done].
      apply frame_make_pseudo_measurement.
    + intros w1 Hw1. by eapply make_pseudo_measurement_never_Ok.
  - unfold make_measurement.
    rewrite (bind_Ok _ _ w tt (set_calls ("FastFit.make_measurement" :: w_calls w) w))
      by done.
    cbv beta. by rewrite (bind_Raise _ _ _ _ _ Es).
Qed.

Lemma make_measurement_first_failure self this w N Nexp cov w2 pre n post m
    bpre c ps bpost p :
  w_heap w !! self = Some (FitObj this) →
  _get_covariance_sm self N (set_calls ("FastFit.make_measurement" :: w_calls w) w)
    = (Ok cov, w2) →
  relevant_measurements this (w_measurements w) = pre ++ n :: post →
  measurements_complete this cov w pre →
  assoc_lookup n (w_measurements w) = Some m →
  _constraints m = bpre ++ (c, ps) :: bpost →
  blocks_complete this cov bpre →
  p ∈ ps → p ∉ observables this →
  ∃ q w', q ∈ ps ∧ (q ∉ observables this) ∧
    (make_measurement self N Nexp w
      = (Raise (ValueError (repr_obs q +:+ " is not in list")), w')).
Proof.
  intros Hh Hs Hrel Hpre Hm Hblocks Hbpre Hp Hout.
  destruct (make_measurement_eq self this N Nexp w cov w2 Hh Hs) as [Hw2 ->].
  destruct (theory_constraint_outside this cov c ps p Hp Hout) as (q & Hq & Hqo & E).
  exists q. rewrite Hrel.
  destruct (for_first_failure (fit_at self this (w_measurements w)) pre post n
              (make_pseudo_measurement self cov)
              (ValueError (repr_obs q +:+ " is not in list"))
              (set_calls ("Fit.get_measurements" :: w_calls w2) w2)) as (w' & Ew').
  - destruct Hw2. by split.
  - intros y w1 Hy Hw1. unfold measurements_complete in Hpre.
    rewrite Forall_forall in Hpre. destruct (Hpre y Hy) as (my & Hmy & Hby).
    by eapply make_pseudo_measurement_Ok.
  - intros w1 Hw1. by eapply make_pseudo_measurement_Raise.
  - exists w'. done.
Qed.


(** ** The frame of the evaluations *)

Global Instance frame_eval_preorder : PreOrder frame_eval.
Proof.
  split.
  - intros w. by split.
  - intros w1 w2 w3 (Hf1 & Hp1 & Hi1 & Hr1) (Hf2 & Hp2 & Hi2 & Hr2).
    split; [by etrans|]. split; [congruence|]. split; congruence.
Qed.

Lemma frame_eval_grow w w' ext :
  w_heap w' = w_heap w ++ ext →
  w_observables w' = w_observables w → w_measurements w' = w_measurements w →
  w_pseudo_measurements w' = w_pseudo_measurements w →
  w_fit_instances w' = w_fit_instances w → w_rng w' = w_rng w →
  frame_eval w w'.
Proof.
  intros Hh Ho Hm Hp Hi Hr. split; [|done]. split; [|done].
  rewrite Hh. by apply prefix_app_r.
Qed.

Lemma frame_eval_same w w' :
  w_heap w' = w_heap w →
  w_observables w' = w_observables w → w_measurements w' = w_measurements w →
  w_pseudo_measurements w' = w_pseudo_measurements w →
  w_fit_instances w' = w_fit_instances w → w_rng w' = w_rng w →
  frame_eval w w'.
Proof. intros Hh. apply (frame_eval_grow w w' []). by rewrite app_nil_r. Qed.

Lemma frame_eval_lookup w w' l o :
  frame_eval w w' → w_heap w !! l = Some o → w_heap w' !! l = Some o.
Proof. intros [Hf _]. by apply frame_lookup. Qed.

Lemma keeps_frame_eval_enter method : keeps frame_eval (enter method).
Proof. intros w. by apply frame_eval_same. Qed.
Lemma keeps_frame_eval_alloc o : keeps frame_eval (alloc o).
Proof. intros w. by apply (frame_eval_grow _ _ [o]). Qed.
Hint Resolve keeps_frame_eval_enter keeps_frame_eval_alloc : keeps.

Lemma lift_bind_Ok {A B} (a : A) (f : A → M B) w : (lift (Ok a) ≫= f) w = f a w.
Proof. done. Qed.
Lemma lift_bind_Raise {A B} e (f : A → M B) w :
  (lift (Raise e) ≫= f) w = (Raise e, w).
Proof. done. Qed.
Lemma enter_bind {B} method (f : unit → M B) w :
  (enter method ≫= f) w = f tt (set_calls (method :: w_calls w) w).
Proof. done. Qed.

Lemma load_fit_cases l w :
  (∃ this, w_heap w !! l = Some (FitObj this) ∧ load_fit l w = (Ok this, w))
  ∨ (∃ e, load_fit l w = (Raise e, w)).
Proof.
  unfold load_fit, load, mbind, M_bind.
  destruct (w_heap w !! l) as [[d|p|f|c n po]|]; simpl; eauto.
Qed.

Lemma dict_copy_Ok l w d :
  w_heap w !! l = Some (DictObj d) →
  dict_copy l w = (Ok (length (w_heap w)), set_heap (w_heap w ++ [DictObj d]) w).
Proof.
  intros E. unfold dict_copy. by rewrite (bind_Ok _ _ _ _ _ (load_dict_Ok l w d E)).
Qed.

Lemma dict_copy_cases l w :
  (∃ d, w_heap w !! l = Some (DictObj d))
  ∨ (∃ e, dict_copy l w = (Raise e, w)).
Proof.
  unfold dict_copy, load_dict, load, mbind, M_bind.
  destruct (w_heap w !! l) as [[d|p|f|c n po]|]; simpl; eauto.
Qed.

Lemma dict_update_last h d sub w :
  w_heap w = h ++ [DictObj d] →
  dict_update (length h) sub w = (Ok tt, set_heap (h ++ [DictObj (sub ∪ d)]) w).
Proof.
  intros E. unfold dict_update.
  rewrite (bind_Ok _ _ _ _ _ (load_dict_Ok (length h) w d
    ltac:(by rewrite E, list_lookup_middle))).
  unfold store, modify. rewrite E.
  replace (<[length h := DictObj (sub ∪ d)]> (h ++ [DictObj d]))
    with (h ++ [DictObj (sub ∪ d)]); [done|].
  by rewrite insert_app_r_alt, Nat.sub_diag by done.
Qed.

Lemma BayesianFit_get_par_dict_run self x w this snap :
  w_heap w !! self = Some (FitObj this) → cls this = BayesianFitC →
  w_heap w !! parameters_central this = Some (DictObj snap) →
  ∃ w', BayesianFit_get_par_dict self x w
          = ((λ _, length (w_heap w)) <$> par_dict_of this snap x, w')
    ∧ frame_eval w w'
    ∧ ∀ pd, par_dict_of this snap x = Ok pd → w_heap w' = w_heap w ++ [DictObj pd].
Proof.
  intros Hself Hc Hsnap. unfold BayesianFit_get_par_dict, par_dict_of.
  rewrite Hc, enter_bind.
  set (w1 := set_calls ("BayesianFit.get_par_dict" :: w_calls w) w).
  rewrite (bind_Ok _ _ _ _ _ (load_fit_Ok self w1 this Hself)). cbv beta.
  destruct (array_to_dict this x) as [d|e].
  2:{ rewrite lift_bind_Raise. exists w1. split; [done|]. split; [|done].
      by apply frame_eval_same. }
  rewrite lift_bind_Ok, (bind_Ok _ _ _ _ _ (dict_copy_Ok _ w1 snap Hsnap)). cbv beta.
  simpl. destruct (getkey d "fit_parameters") as [fp|e].
  2:{ rewrite lift_bind_Raise. eexists. split; [done|]. split; [|done].
      by apply (frame_eval_grow _ _ [DictObj snap]). }
  rewrite lift_bind_Ok.
  rewrite (bind_Ok _ _ _ _ _ (dict_update_last (w_heap w) snap fp
    (set_heap (w_heap w ++ [DictObj snap]) w1) eq_refl)). cbv beta.
  simpl. destruct (getkey d "nuisance_parameters") as [np|e].
  2:{ rewrite lift_bind_Raise. eexists. split; [done|]. split; [|done].
      by apply (frame_eval_grow _ _ [DictObj (fp ∪ snap)]). }
  rewrite lift_bind_Ok.
  rewrite (bind_Ok _ _ _ _ _ (dict_update_last (w_heap w) (fp ∪ snap) np
    (set_heap (w_heap w ++ [DictObj (fp ∪ snap)])
       (set_heap (w_heap w ++ [DictObj snap]) w1)) eq_refl)).
  cbv beta. eexists. split; [done|]. split.
  - by apply (frame_eval_grow _ _ [DictObj (np ∪ (fp ∪ snap))]).
  - by intros pd [= <-].
Qed.

Lemma FastFit_get_par_dict_run self x w this snap :
  w_heap w !! self = Some (FitObj this) → cls this = FastFitC →
  w_heap w !! parameters_central this = Some (DictObj snap) →
  ∃ w', FastFit_get_par_dict self x w
          = ((λ _, length (w_heap w)) <$> par_dict_of this snap x, w')
    ∧ frame_eval w w'
    ∧ ∀ pd, par_dict_of this snap x = Ok pd → w_heap w' = w_heap w ++ [DictObj pd].
Proof.
  intros Hself Hc Hsnap. unfold FastFit_get_par_dict, par_dict_of.
  rewrite Hc, enter_bind.
  set (w1 := set_calls ("FastFit.get_par_dict" :: w_calls w) w).
  rewrite (bind_Ok _ _ _ _ _ (load_fit_Ok self w1 this Hself)). cbv beta.
  destruct (array_to_dict this x) as [d|e].
  2:{ rewrite lift_bind_Raise. exists w1. split; [done|]. split; [|done].
      by apply frame_eval_same. }
  rewrite lift_bind_Ok, (bind_Ok _ _ _ _ _ (dict_copy_Ok _ w1 snap Hsnap)). cbv beta.
  simpl. destruct (getkey d "fit_parameters") as [fp|e].
  2:{ rewrite lift_bind_Raise. eexists. split; [done|]. split; [|done].
      by apply (frame_eval_grow _ _ [DictObj snap]). }
  rewrite lift_bind_Ok.
  rewrite (bind_Ok _ _ _ _ _ (dict_update_last (w_heap w) snap fp
    (set_heap (w_heap w ++ [DictObj snap]) w1) eq_refl)). cbv beta.
  eexists. split; [done|]. split.
  - by apply (frame_eval_grow _ _ [DictObj (fp ∪ snap)]).
  - by intros pd [= <-].
Qed.

Lemma get_par_dict_run self x w this snap :
  w_heap w !! self = Some (FitObj this) →
  w_heap w !! parameters_central this = Some (DictObj snap) →
  ∃ w', get_par_dict self x w
          = ((λ _, length (w_heap w)) <$> par_dict_of this snap x, w')
    ∧ frame_eval w w'
    ∧ ∀ pd, par_dict_of this snap x = Ok pd → w_heap w' = w_heap w ++ [DictObj pd].
Proof.
  intros Hself Hsnap. unfold get_par_dict.
  rewrite (bind_Ok _ _ _ _ _ (load_fit_Ok self w this Hself)). cbv beta.
  destruct (cls this) eqn:Hc.
  - exists w. unfold par_dict_of. rewrite Hc. split; [done|]. split; [reflexivity|done].
  - by apply BayesianFit_get_par_dict_run.
  - by apply FastFit_get_par_dict_run.
Qed.

(** Without a snapshot to copy, [get_par_dict] raises and allocates nothing. *)
Lemma get_par_dict_no_snapshot self x w this :
  w_heap w !! self = Some (FitObj this) →
  (∀ snap, w_heap w !! parameters_central this ≠ Some (DictObj snap)) →
  frame_eval w (get_par_dict self x w).2.
Proof.
  intros Hself Hno. unfold get_par_dict.
  rewrite (bind_Ok _ _ _ _ _ (load_fit_Ok self w this Hself)). cbv beta.
  destruct (cls this) eqn:Hc; [reflexivity| |].
  - unfold BayesianFit_get_par_dict. rewrite enter_bind.
    set (w1 := set_calls ("BayesianFit.get_par_dict" :: w_calls w) w).
    rewrite (bind_Ok _ _ _ _ _ (load_fit_Ok self w1 this Hself)). cbv beta.
    destruct (array_to_dict this x) as [d|e]; [|by apply frame_eval_same].
    rewrite lift_bind_Ok.
    destruct (dict_copy_cases (parameters_central this) w1) as [[snap E]|[e E]].
    + by destruct (Hno snap).
    + rewrite (bind_Raise _ _ _ _ _ E). by apply frame_eval_same.
  - unfold FastFit_get_par_dict. rewrite enter_bind.
    set (w1 := set_calls ("FastFit.get_par_dict" :: w_calls w) w).
    rewrite (bind_Ok _ _ _ _ _ (load_fit_Ok self w1 this Hself)). cbv beta.
    destruct (array_to_dict this x) as [d|e]; [|by apply frame_eval_same].
    rewrite lift_bind_Ok.
    destruct (dict_copy_cases (parameters_central this) w1) as [[snap E]|[e E]].
    + by destruct (Hno snap).
    + rewrite (bind_Raise _ _ _ _ _ E). by apply frame_eval_same.
Qed.

Lemma frame_eval_get_par_dict self x : keeps frame_eval (get_par_dict self x).
Proof.
  intros w. destruct (load_fit_cases self w) as [(this & Hself & _)|(e & E)].
  - destruct (w_heap w !! parameters_central this) as [[snap| | |]|] eqn:Hsnap.
    + destruct (get_par_dict_run self x w this snap Hself Hsnap) as (w' & -> & Hf & _).
      done.
    + apply (get_par_dict_no_snapshot self x w this Hself). by rewrite Hsnap.
    + apply (get_par_dict_no_snapshot self x w this Hself). by rewrite Hsnap.
    + apply (get_par_dict_no_snapshot self x w this Hself). by rewrite Hsnap.
    + apply (get_par_dict_no_snapshot self x w this Hself). by rewrite Hsnap.
  - unfold get_par_dict. rewrite (bind_Raise _ _ _ _ _ E). reflexivity.
Qed.
Hint Resolve frame_eval_get_par_dict : keeps.

Lemma frame_eval_get_measurements self : keeps frame_eval (get_measurements self).
Proof. unfold get_measurements. solve_keeps. Qed.
Hint Resolve frame_eval_get_measurements : keeps.

Lemma frame_eval_get_wc_obj self x : keeps frame_eval (get_wc_obj self x).
Proof. unfold get_wc_obj. solve_keeps. Qed.
Hint Resolve frame_eval_get_wc_obj : keeps.

Lemma frame_eval_get_predictions self x : keeps frame_eval (get_predictions self x).
Proof. unfold get_predictions. solve_keeps. Qed.
Hint Resolve frame_eval_get_predictions : keeps.

Lemma frame_eval_log_prior_parameters self x :
  keeps frame_eval (log_prior_parameters self x).
Proof. unfold log_prior_parameters. solve_keeps. Qed.
Hint Resolve frame_eval_log_prior_parameters : keeps.

Lemma frame_eval_log_prior_wilson_coeffs self x :
  keeps frame_eval (log_prior_wilson_coeffs self x).
Proof. unfold log_prior_wilson_coeffs. solve_keeps. Qed.
Hint Resolve frame_eval_log_prior_wilson_coeffs : keeps.

Lemma frame_eval_log_likelihood self x : keeps frame_eval (log_likelihood self x).
Proof.
  unfold log_likelihood, BayesianFit_log_likelihood, FastFit_log_likelihood,
    PseudoMeasurement_get_instance, Measurement_get_instance.
  solve_keeps.
Qed.
Hint Resolve frame_eval_log_likelihood : keeps.

Lemma frame_eval_log_target self x : keeps frame_eval (log_target self x).
Proof. unfold log_target. solve_keeps. Qed.

(** ** What the evaluations return *)

Lemma get_wc_obj_run self x w this :
  w_heap w !! self = Some (FitObj this) →
  get_wc_obj self x w
    = (wc_obj_of this x, set_calls ("BayesianFit.get_wc_obj" :: w_calls w) w).
Proof.
  intros Hself. unfold get_wc_obj, wc_obj_of. rewrite enter_bind.
  set (w1 := set_calls ("BayesianFit.get_wc_obj" :: w_calls w) w).
  rewrite (bind_Ok _ _ _ _ _ (load_fit_Ok self w1 this Hself)). cbv beta.
  destruct (fit_wc_names this) as [|c cs]; [done|].
  destruct (array_to_dict this x) as [d|e]; [|done]. rewrite lift_bind_Ok. simpl.
  destruct (getkey d "fit_wc") as [fit_wc|e]; [|done]. rewrite lift_bind_Ok.
  destruct (fit_wc_function this) as [f|]; [|done]. simpl.
  destruct (f fit_wc) as [initial|e]; done.
Qed.

Lemma for_fold_reads {A S} (l : list A) (s : S) (body : S → A → M S)
    (g : S → A → Result S) w :
  (∀ s y, body s y w = (g s y, w)) →
  for_fold l s body w = (for_fold l s g, w).
Proof.
  intros Hb. revert s. induction l as [|y l IH]; intros s; [done|]. simpl.
  unfold mbind at 1, M_bind. rewrite Hb. destruct (g s y) as [s'|e]; [apply IH|done].
Qed.

Lemma Observable_get_instance_bind {B} n (f : string → M B) w :
  (Observable_get_instance n ≫= f) w
  = (lift (if decide (n ∈ w_observables w) then Ok n else Raise (KeyError n)) ≫= f) w.
Proof.
  unfold Observable_get_instance, gets, lift, mbind, M_bind, mret, M_ret.
  by destruct (decide _).
Qed.

Lemma Measurement_get_instance_bind {B} n (f : Measurement → M B) w :
  (Measurement_get_instance n ≫= f) w
  = (lift (match assoc_lookup n (w_measurements w) with
           | Some m => Ok m
           | None => Raise (KeyError n)
           end) ≫= f) w.
Proof.
  unfold Measurement_get_instance, gets, lift, mbind, M_bind, mret, M_ret.
  by destruct (assoc_lookup _ _).
Qed.

Lemma PseudoMeasurement_get_instance_bind {B} n (f : Measurement → M B) w :
  (PseudoMeasurement_get_instance n ≫= f) w
  = (lift (match w_pseudo_measurements w !! n with
           | Some m => Ok m
           | None => Raise (KeyError n)
           end) ≫= f) w.
Proof.
  unfold PseudoMeasurement_get_instance, gets, lift, mbind, M_bind, mret, M_ret.
  by destruct (_ !! _).
Qed.

Lemma get_predictions_run self x w this snap :
  w_heap w !! self = Some (FitObj this) →
  w_heap w !! parameters_central this = Some (DictObj snap) →
  (get_predictions self x w).1 = predictions_of this snap x (w_observables w).
Proof.
  intros Hself Hsnap. unfold get_predictions, predictions_of. rewrite enter_bind.
  set (w1 := set_calls ("BayesianFit.get_predictions" :: w_calls w) w).
  destruct (get_par_dict_run self x w1 this snap Hself Hsnap) as (w2 & E & Hf & Hheap).
  destruct (par_dict_of this snap x) as [pd|e]; simpl in E.
  2:{ by rewrite (bind_Raise _ _ _ _ _ E). }
  rewrite (bind_Ok _ _ _ _ _ E). cbv beta.
  pose proof (frame_eval_lookup _ _ _ _ Hf Hself) as Hself2.
  pose proof (get_wc_obj_run self x w2 this Hself2) as Ew.
  destruct (wc_obj_of this x) as [wc_obj|e].
  2:{ by rewrite (bind_Raise _ _ _ _ _ Ew). }
  rewrite (bind_Ok _ _ _ _ _ Ew). cbv beta.
  set (w3 := set_calls ("BayesianFit.get_wc_obj" :: w_calls w2) w2).
  rewrite (bind_Ok _ _ _ _ _ (load_fit_Ok self w3 this Hself2)). cbv beta.
  erewrite for_fold_reads; [done|]. intros acc o.
  assert (Hobs : w_observables w3 = w_observables w).
  { destruct Hf as ((_ & Ho & _) & _). exact Ho. }
  assert (Hpd : w_heap w3 !! length (w_heap w1) = Some (DictObj pd)).
  { simpl. rewrite (Hheap pd eq_refl). apply list_lookup_middle. done. }
  rewrite Observable_get_instance_bind, Hobs.
  destruct (decide (obs_name o ∈ w_observables w)); [|done].
  rewrite lift_bind_Ok, (bind_Ok _ _ _ _ _ (load_dict_Ok _ w3 pd Hpd)). cbv beta. simpl.
  by destruct (prediction_par (obs_name o) pd wc_obj (obs_args o)).
Qed.

Lemma log_prior_parameters_run self x w this snap par :
  fit_in w self this snap par →
  (log_prior_parameters self x w).1 = log_prior_of this snap x par.
Proof.
  intros (Hself & Hsnap & Hpar). unfold log_prior_parameters, log_prior_of.
  rewrite enter_bind.
  set (w1 := set_calls ("BayesianFit.log_prior_parameters" :: w_calls w) w).
  destruct (get_par_dict_run self x w1 this snap Hself Hsnap) as (w2 & E & Hf & Hheap).
  destruct (par_dict_of this snap x) as [pd|e]; simpl in E.
  2:{ by rewrite (bind_Raise _ _ _ _ _ E). }
  rewrite (bind_Ok _ _ _ _ _ E). cbv beta.
  pose proof (frame_eval_lookup _ _ _ _ Hf Hself) as Hself2.
  pose proof (frame_eval_lookup w1 _ _ _ Hf Hpar) as Hpar2.
  rewrite (bind_Ok _ _ _ _ _ (load_fit_Ok self w2 this Hself2)). cbv beta.
  assert (Hpd : w_heap w2 !! length (w_heap w1) = Some (DictObj pd)).
  { rewrite (Hheap pd eq_refl). apply list_lookup_middle. done. }
  rewrite (bind_Ok _ _ _ _ _ (load_dict_Ok _ w2 pd Hpd)). cbv beta.
  rewrite (bind_Ok _ _ _ _ _ (load_params_Ok _ w2 par Hpar2)). cbv beta.
  simpl. by destruct (get_logprobability_all par pd _).
Qed.

Lemma log_likelihood_run self x w this snap :
  w_heap w !! self = Some (FitObj this) →
  w_heap w !! parameters_central this = Some (DictObj snap) →
  (log_likelihood self x w).1
    = log_likelihood_of this snap x (w_observables w) (w_measurements w)
        (w_pseudo_measurements w).
Proof.
  intros Hself Hsnap. unfold log_likelihood, log_likelihood_of.
  rewrite (bind_Ok _ _ _ _ _ (load_fit_Ok self w this Hself)). cbv beta.
  destruct (cls this) eqn:Hc; [done| |].
  - unfold BayesianFit_log_likelihood. rewrite enter_bind.
    set (w1 := set_calls ("BayesianFit.log_likelihood" :: w_calls w) w).
    pose proof (get_predictions_run self x w1 this snap Hself Hsnap) as Hp.
    pose proof (frame_eval_get_predictions self x w1) as Hf.
    destruct (get_predictions self x w1) as [[predictions|e] w2] eqn:E;
      simpl in Hp, Hf; rewrite <- Hp.
    2:{ by rewrite (bind_Raise _ _ _ _ _ E). }
    rewrite (bind_Ok _ _ _ _ _ E). cbv beta.
    pose proof (frame_eval_lookup w1 _ _ _ Hf Hself) as Hself2.
    rewrite (bind_Ok _ _ _ _ _ (get_measurements_eq self this w2 Hself2)). cbv beta.
    destruct Hf as ((_ & _ & Hm) & Hps & _). simpl in Hm. rewrite Hm.
    erewrite for_fold_reads; [done|]. intros ll n.
    rewrite Measurement_get_instance_bind. simpl. rewrite Hm.
    destruct (assoc_lookup n (w_measurements w)) as [m|]; [|done].
    rewrite lift_bind_Ok, (bind_Ok _ _ _ _ _ (load_fit_Ok self
      (set_calls ("Fit.get_measurements" :: w_calls w2) w2) this Hself2)).
    cbv beta. simpl.
    by destruct (measurement_get_logprobability_all m predictions _).
  - unfold FastFit_log_likelihood. rewrite enter_bind.
    set (w1 := set_calls ("FastFit.log_likelihood" :: w_calls w) w).
    pose proof (get_predictions_run self x w1 this snap Hself Hsnap) as Hp.
    pose proof (frame_eval_get_predictions self x w1) as Hf.
    destruct (get_predictions self x w1) as [[predictions|e] w2] eqn:E;
      simpl in Hp, Hf; rewrite <- Hp.
    2:{ by rewrite (bind_Raise _ _ _ _ _ E). }
    rewrite (bind_Ok _ _ _ _ _ E). cbv beta.
    pose proof (frame_eval_lookup w1 _ _ _ Hf Hself) as Hself2.
    rewrite (bind_Ok _ _ _ _ _ (get_measurements_eq self this w2 Hself2)). cbv beta.
    destruct Hf as ((_ & _ & Hm) & Hps & _). simpl in Hm, Hps. rewrite Hm.
    erewrite for_fold_reads; [done|]. intros ll n.
    rewrite (bind_Ok _ _ _ _ _ (load_fit_Ok self
      (set_calls ("Fit.get_measurements" :: w_calls w2) w2) this Hself2)). cbv beta.
    rewrite PseudoMeasurement_get_instance_bind. simpl. rewrite Hps.
    destruct (w_pseudo_measurements w !! (name this +:+ n)) as [m|]; [|done].
    rewrite lift_bind_Ok. simpl.
    by destruct (measurement_get_logprobability_all m predictions _).
Qed.

(** ** The snapshot of the central values *)

Lemma dict_comprehension_out names x k acc sub :
  dict_comprehension names x k acc = Ok sub → ∀ p, p ∉ names → sub !! p = acc !! p.
Proof.
  revert k acc. induction names as [|q names IH]; intros k acc E p Hp; simpl in E.
  - by injection E as <-.
  - destruct (getitem x k) as [v|e]; simpl in E; [|done].
    apply not_elem_of_cons in Hp as [Hne Hp].
    rewrite (IH _ _ E p Hp). by rewrite lookup_insert_ne.
Qed.

Lemma array_to_dict_fit_parameters (this : FitObject) x d fp :
  array_to_dict this x = Ok d → getkey d "fit_parameters" = Ok fp →
  ∀ p, p ∉ fit_parameters this → fp !! p = None.
Proof.
  unfold array_to_dict, BayesianFit_array_to_dict, FastFit_array_to_dict.
  intros E Hfp p Hp. destruct (cls this); [done| |].
  - destruct (dict_comprehension (fit_parameters this) x 0 ∅) as [fp'|] eqn:E1;
      simpl in E; [|done].
    destruct (dict_comprehension (nuisance_parameters this) x _ ∅); simpl in E; [|done].
    destruct (dict_comprehension (fit_wc_names this) x _ ∅); simpl in E; [|done].
    injection E as <-. unfold getkey in Hfp.
    rewrite lookup_insert_ne, lookup_insert_ne, lookup_insert_eq in Hfp by done.
    injection Hfp as <-. by rewrite (dict_comprehension_out _ _ _ _ _ E1 p Hp).
  - destruct (dict_comprehension (fit_parameters this) x 0 ∅) as [fp'|] eqn:E1;
      simpl in E; [|done].
    destruct (dict_comprehension (fit_wc_names this) x _ ∅); simpl in E; [|done].
    injection E as <-. unfold getkey in Hfp.
    rewrite lookup_insert_ne, lookup_insert_eq in Hfp by done.
    injection Hfp as <-. by rewrite (dict_comprehension_out _ _ _ _ _ E1 p Hp).
Qed.

Lemma array_to_dict_nuisance_parameters (this : FitObject) x d np :
  cls this = BayesianFitC →
  array_to_dict this x = Ok d → getkey d "nuisance_parameters" = Ok np →
  ∀ p, p ∉ nuisance_parameters this → np !! p = None.
Proof.
  unfold array_to_dict, BayesianFit_array_to_dict.
  intros -> E Hnp p Hp.
  destruct (dict_comprehension (fit_parameters this) x 0 ∅); simpl in E; [|done].
  destruct (dict_comprehension (nuisance_parameters this) x _ ∅) as [np'|] eqn:E2;
    simpl in E; [|done].
  destruct (dict_comprehension (fit_wc_names this) x _ ∅); simpl in E; [|done].
  injection E as <-. unfold getkey in Hnp.
  rewrite lookup_insert_ne, lookup_insert_eq in Hnp by done.
  injection Hnp as <-. by rewrite (dict_comprehension_out _ _ _ _ _ E2 p Hp).
Qed.

(** The parameters that are not varied keep the value of the snapshot. *)
Lemma par_dict_of_not_varied (this : FitObject) snap x pd p :
  par_dict_of this snap x = Ok pd →
  p ∉ fit_parameters this → p ∉ nuisance_parameters this →
  pd !! p = snap !! p.
Proof.
  unfold par_dict_of. intros E Hf Hn. destruct (cls this) eqn:Hc; [done| |].
  - destruct (array_to_dict this x) as [d|] eqn:Ed; simpl in E; [|done].
    destruct (getkey d "fit_parameters") as [fp|] eqn:Efp; simpl in E; [|done].
    destruct (getkey d "nuisance_parameters") as [np|] eqn:Enp; simpl in E; [|done].
    injection E as <-.
    rewrite lookup_union_r
      by by eapply (array_to_dict_nuisance_parameters this x d np).
    apply lookup_union_r. by eapply (array_to_dict_fit_parameters this x d fp).
  - destruct (array_to_dict this x) as [d|] eqn:Ed; simpl in E; [|done].
    destruct (getkey d "fit_parameters") as [fp|] eqn:Efp; simpl in E; [|done].
    injection E as <-.
    apply lookup_union_r. by eapply (array_to_dict_fit_parameters this x d fp).
Qed.

Lemma get_par_dict_content self x w this snap :
  w_heap w !! self = Some (FitObj this) →
  w_heap w !! parameters_central this = Some (DictObj snap) →
  dict_at (get_par_dict self x w).2 (get_par_dict self x w).1 = par_dict_of this snap x.
Proof.
  intros Hself Hsnap.
  destruct (get_par_dict_run self x w this snap Hself Hsnap) as (w' & -> & _ & Hheap).
  destruct (par_dict_of this snap x) as [pd|e]; [|done]. simpl.
  by rewrite (Hheap pd eq_refl), list_lookup_middle.
Qed.

Lemma fit_in_with_registry w self this snap par par' :
  fit_in w self this snap par →
  fit_in (with_registry (par_obj this) par' w) self this snap par'.
Proof.
  intros (Hself & Hsnap & Hpar). unfold fit_in, with_registry. simpl.
  split; [|split].
  - rewrite list_lookup_insert_ne; [done|]. intros E. rewrite E in Hpar. congruence.
  - rewrite list_lookup_insert_ne; [done|]. intros E. rewrite E in Hpar. congruence.
  - apply list_lookup_insert_eq. by eapply lookup_lt_Some.
Qed.

Lemma constructed_fit_in k a w w' self :
  constructed k a w w' self →
  ∃ par, w_heap w !! a_par_obj a = Some (ParamsObj par)
    ∧ fit_in w' self (constructed_object k a (S (length (w_heap w))))
        (get_central_all par) par.
Proof.
  intros (par & Hpar & -> & Hh & _). exists par. split; [done|].
  unfold fit_in. rewrite Hh. split; [apply lookup_first_new|].
  split; [apply lookup_second_new|]. by apply lookup_app_l_Some.
Qed.


(** ** The round trip of [BayesianFit] *)

Lemma mapM_Ok_length {A B} (f : A → Result B) l l' :
  mapM f l = Ok l' → length l' = length l.
Proof.
  revert l'. induction l as [|x l IH]; intros l' E; simpl in E.
  - by injection E as <-.
  - destruct (f x) as [y|]; simpl in E; [|done].
    destruct (mapM f l) as [k|]; simpl in E; [|done].
    injection E as <-. simpl. by rewrite (IH k).
Qed.

Lemma mapM_Result_ext {A B} (f g : A → Result B) l :
  (∀ x, f x = g x) → mapM f l = mapM g l.
Proof.
  intros Hfg. induction l as [|x l IH]; [done|]. simpl. by rewrite Hfg, IH.
Qed.

Lemma values_of_sub d key sub names :
  d !! key = Some sub → values_of d key names = mapM (getkey sub) names.
Proof.
  intros Hd. unfold values_of. apply mapM_Result_ext. intros p.
  replace (getkey d key) with (Ok sub) by (unfold getkey; by rewrite Hd). done.
Qed.

Lemma mapM_getkey_slice (sub : gmap string float) names x k :
  k + length names ≤ length x →
  (∀ i p, names !! i = Some p → sub !! p = x !! (k + i)) →
  mapM (getkey sub) names = Ok (take (length names) (drop k x)).
Proof.
  revert k. induction names as [|p names IH]; intros k Hlen Hsub; [done|]. simpl in *.
  destruct (lookup_lt_is_Some_2 x k) as [v Hv]; [lia|].
  assert (Hp : getkey sub p = Ok v).
  { unfold getkey. by rewrite (Hsub 0 p eq_refl), Nat.add_0_r, Hv. }
  rewrite Hp. simpl.
  rewrite (IH (S k)); [|lia|].
  - simpl. by rewrite (drop_S x v k Hv).
  - intros i q Hq. rewrite (Hsub (S i) q Hq). f_equal. lia.
Qed.

Lemma mapM_getkey_total (sub : gmap string float) names :
  (∀ p, p ∈ names → is_Some (sub !! p)) →
  ∃ vals, mapM (getkey sub) names = Ok vals ∧ length vals = length names
    ∧ ∀ i p, names !! i = Some p → vals !! i = sub !! p.
Proof.
  induction names as [|q names IH]; intros Hs.
  - exists []. done.
  - destruct (Hs q) as [v Hv]; [left|].
    destruct IH as (vals & E & Hl & Hi); [intros; apply Hs; by right|].
    assert (Hq : getkey sub q = Ok v) by (unfold getkey; by rewrite Hv).
    exists (v :: vals). simpl. rewrite Hq. simpl. rewrite E.
    split; [done|]. split; [simpl; by rewrite Hl|].
    intros [|i] p Hp; simpl in *; [by injection Hp as <-|by apply Hi].
Qed.

Lemma setslice_middle (pre mid post vals : list float) :
  length vals = length mid →
  setslice (pre ++ mid ++ post) (length pre) (Some (length pre + length mid)) vals
    = Ok (pre ++ vals ++ post).
Proof.
  intros Hl. unfold setslice. simpl. rewrite !length_app.
  replace (length pre `min` (length pre + (length mid + length post)))
    with (length pre) by lia.
  replace ((length pre + length mid) `min` (length pre + (length mid + length post))
           - length pre) with (length mid) by lia.
  rewrite decide_True by done.
  rewrite take_app_length.
  replace (drop (length pre + length mid) (pre ++ mid ++ post)) with post; [done|].
  rewrite (app_assoc pre mid post), drop_app_length'; [done|by rewrite length_app].
Qed.

Lemma setslice_end (pre mid vals : list float) :
  length vals = length mid →
  setslice (pre ++ mid) (length pre) None vals = Ok (pre ++ vals).
Proof.
  intros Hl. unfold setslice. simpl. rewrite !length_app.
  replace (length pre `min` (length pre + length mid)) with (length pre) by lia.
  replace (length pre + length mid - length pre) with (length mid) by lia.
  rewrite decide_True by done.
  rewrite take_app_length.
  replace (drop (length pre + length mid) (pre ++ mid)) with (@nil float);
    [by rewrite app_nil_r|].
  symmetry. apply drop_ge. rewrite length_app. lia.
Qed.

Lemma BayesianFit_dict_to_array_eq (this : FitObject) d v1 v2 v3 :
  values_of d "fit_parameters" (fit_parameters this) = Ok v1 →
  values_of d "nuisance_parameters" (nuisance_parameters this) = Ok v2 →
  values_of d "fit_wc" (fit_wc_names this) = Ok v3 →
  BayesianFit_dict_to_array this d = Ok (v1 ++ v2 ++ v3).
Proof.
  intros E1 E2 E3. unfold BayesianFit_dict_to_array.
  pose proof (mapM_Ok_length _ _ _ E1) as L1.
  pose proof (mapM_Ok_length _ _ _ E2) as L2.
  pose proof (mapM_Ok_length _ _ _ E3) as L3.
  rewrite E1. simpl. unfold np_zeros. rewrite <- Nat.add_assoc, !replicate_add.
  set (z1 := replicate (length (fit_parameters this)) 0%float).
  set (z2 := replicate (length (nuisance_parameters this)) 0%float).
  set (z3 := replicate (length (fit_wc_names this)) 0%float).
  assert (Hz1 : length z1 = length (fit_parameters this)) by apply length_replicate.
  assert (Hz2 : length z2 = length (nuisance_parameters this)) by apply length_replicate.
  assert (Hz3 : length z3 = length (fit_wc_names this)) by apply length_replicate.
  pose proof (setslice_middle [] z1 (z2 ++ z3) v1 ltac:(lia)) as S1.
  simpl in S1. rewrite Hz1 in S1. rewrite S1. simpl. rewrite E2. simpl.
  pose proof (setslice_middle v1 z2 z3 v2 ltac:(lia)) as S2.
  rewrite L1, Hz2 in S2. rewrite S2. simpl. rewrite E3. simpl.
  pose proof (setslice_end (v1 ++ v2) z3 v3 ltac:(lia)) as S3.
  rewrite length_app, L1, L2, <- app_assoc in S3. rewrite S3. simpl.
  by rewrite <- app_assoc.
Qed.

Lemma dict_comprehension_NoDup names x k acc :
  NoDup names → k + length names ≤ length x →
  ∃ sub, dict_comprehension names x k acc = Ok sub
    ∧ ∀ i p, names !! i = Some p → sub !! p = x !! (k + i).
Proof.
  intros Hnd Hlen.
  destruct (dict_comprehension_Ok names x k acc Hlen) as (sub & E & _ & Hin).
  exists sub. split; [done|]. intros i p Hi.
  destruct (Hin p) as (j & Hj & _ & Hl); [by eapply list_elem_of_lookup_2|].
  by rewrite (NoDup_lookup names i j p Hnd Hi Hj).
Qed.

(** On a [BayesianFit] whose lists of names have no repetition, a vector of
    the dimension of the fit comes back from
    [dict_to_array(array_to_dict(x))]. *)
Theorem BayesianFit_roundtrip_array (this : FitObject) x :
  NoDup (fit_parameters this) → NoDup (nuisance_parameters this) →
  NoDup (fit_wc_names this) →
  length x = length (fit_parameters this) + length (nuisance_parameters this)
             + length (fit_wc_names this) →
  BayesianFit_array_to_dict this x ≫= BayesianFit_dict_to_array this = Ok x.
Proof.
  intros N1 N2 N3 Hlen. unfold BayesianFit_array_to_dict.
  set (n1 := length (fit_parameters this)) in *.
  set (n2 := length (nuisance_parameters this)) in *.
  set (n3 := length (fit_wc_names this)) in *.
  destruct (dict_comprehension_NoDup (fit_parameters this) x 0 ∅ N1)
    as (fp & E1 & H1); [fold n1; lia|].
  destruct (dict_comprehension_NoDup (nuisance_parameters this) x n1 ∅ N2)
    as (np & E2 & H2); [fold n2; lia|].
  destruct (dict_comprehension_NoDup (fit_wc_names this) x (n1 + n2) ∅ N3)
    as (wc & E3 & H3); [fold n3; lia|].
  rewrite E1. simpl. rewrite E2. simpl. rewrite E3. simpl.
  rewrite (BayesianFit_dict_to_array_eq this _
             (take n1 (drop 0 x)) (take n2 (drop n1 x)) (take n3 (drop (n1 + n2) x))).
  - f_equal. rewrite drop_0.
    rewrite <- (take_drop n1 x) at 4. f_equal.
    rewrite <- (take_drop n2 (drop n1 x)) at 2. f_equal.
    rewrite drop_drop. apply take_ge. rewrite length_drop. lia.
  - rewrite (values_of_sub _ _ fp)
      by by rewrite lookup_insert_ne, lookup_insert_ne, lookup_insert_eq.
    apply mapM_getkey_slice; [fold n1; lia|done].
  - rewrite (values_of_sub _ _ np) by by rewrite lookup_insert_ne, lookup_insert_eq.
    apply mapM_getkey_slice; [fold n2; lia|done].
  - rewrite (values_of_sub _ _ wc) by by rewrite lookup_insert_eq.
    apply mapM_getkey_slice; [fold n3; lia|done].
Qed.

Lemma dict_comprehension_recovers names (sub : gmap string float) arr k vals :
  keys_are names sub → length vals = length names →
  (∀ i p, names !! i = Some p → vals !! i = sub !! p) →
  (∀ i, i < length vals → arr !! (k + i) = vals !! i) →
  k + length names ≤ length arr →
  dict_comprehension names arr k ∅ = Ok sub.
Proof.
  intros Hk Hl Hv Ha Hlen.
  destruct (dict_comprehension_Ok names arr k ∅ Hlen) as (sub' & E & Hout & Hin).
  rewrite E. f_equal. apply map_eq. intros p.
  destruct (decide (p ∈ names)) as [Hp|Hp].
  - destruct (Hin p Hp) as (i & Hi & _ & ->).
    rewrite Ha by (rewrite Hl; by eapply lookup_lt_Some). by apply Hv.
  - rewrite (Hout p Hp), lookup_empty. symmetry. apply eq_None_not_Some.
    by rewrite (Hk p).
Qed.

(** On a [BayesianFit], a valid dictionary comes back from
    [array_to_dict(dict_to_array(d))]. *)
Theorem BayesianFit_roundtrip_dict (this : FitObject) d :
  valid_dict this d →
  BayesianFit_dict_to_array this d ≫= BayesianFit_array_to_dict this = Ok d.
Proof.
  intros (fp & np & wc & -> & K1 & K2 & K3).
  destruct (mapM_getkey_total fp (fit_parameters this)) as (v1 & E1 & L1 & H1);
    [intros p Hp; by apply K1|].
  destruct (mapM_getkey_total np (nuisance_parameters this)) as (v2 & E2 & L2 & H2);
    [intros p Hp; by apply K2|].
  destruct (mapM_getkey_total wc (fit_wc_names this)) as (v3 & E3 & L3 & H3);
    [intros p Hp; by apply K3|].
  rewrite (BayesianFit_dict_to_array_eq this _ v1 v2 v3).
  - simpl. unfold BayesianFit_array_to_dict.
    rewrite (dict_comprehension_recovers _ fp _ 0 v1 K1 L1 H1).
    2:{ intros i Hi. by rewrite lookup_app_l. }
    2:{ rewrite !length_app. lia. }
    simpl.
    rewrite (dict_comprehension_recovers _ np _ _ v2 K2 L2 H2).
    2:{ intros i Hi. rewrite <- L1, lookup_app_r by lia.
        replace (length v1 + i - length v1) with i by lia. by rewrite lookup_app_l. }
    2:{ rewrite !length_app. lia. }
    simpl.
    rewrite (dict_comprehension_recovers _ wc _ _ v3 K3 L3 H3).
    2:{ intros i Hi. rewrite <- L1, <- L2, lookup_app_r by lia.
        rewrite lookup_app_r by lia. f_equal. lia. }
    2:{ rewrite !length_app. lia. }
    done.
  - by rewrite (values_of_sub _ _ fp)
      by by rewrite lookup_insert_ne, lookup_insert_ne, lookup_insert_eq.
  - by rewrite (values_of_sub _ _ np) by by rewrite lookup_insert_ne, lookup_insert_eq.
  - by rewrite (values_of_sub _ _ wc) by by rewrite lookup_insert_eq.
Qed.

(** ** The checks of the constructor, one by one *)

Lemma for_first_raise {A} (pre post : list A) x (body : A → M unit) e w :
  (∀ y, y ∈ pre → body y w = (Ok tt, w)) → body x w = (Raise e, w) →
  for_ (pre ++ x :: post) body w = (Raise e, w).
Proof.
  intros Hpre Hx. induction pre as [|y pre IH]; simpl.
  - by rewrite (bind_Raise _ _ _ _ _ Hx).
  - rewrite (bind_Ok _ _ w tt w) by (apply Hpre; left).
    apply IH. intros z Hz. apply Hpre. by right.
Qed.

Lemma for_Ok_inv {A} (l : list A) (body : A → M unit) w :
  (∀ x, reads (body x)) → for_ l body w = (Ok tt, w) →
  ∀ x, x ∈ l → body x w = (Ok tt, w).
Proof.
  intros Hr. induction l as [|y l IH]; intros E x Hx.
  - by apply elem_of_nil in Hx.
  - simpl in E. apply bind_inv_Ok in E as ([] & w1 & Hy & E).
    pose proof (Hr y w) as Hw. rewrite Hy in Hw. simpl in Hw. subst w1.
    apply elem_of_cons in Hx as [->|Hx]; [done|by apply IH].
Qed.

Lemma check_parameters_inv a w :
  check_parameters a w = (Ok tt, w) → parameters_known a w.
Proof.
  intros E p Hp. unfold check_parameters in E.
  eapply for_Ok_inv in E; [|intros q; solve_reads|exact Hp].
  apply bind_inv_Ok in E as (par & w1 & Hl & E).
  apply load_params_inv in Hl as [Hl ->]. exists par. split; [done|].
  unfold lift, py_assert in E.
  destruct (decide (p ∈ parameters_keys par)) as [|Hn]; [done|].
  by rewrite bool_decide_eq_false_2 in E.
Qed.

Lemma check_parameters_Raise a w par pre p post :
  w_heap w !! a_par_obj a = Some (ParamsObj par) →
  a_fit_parameters a ++ a_nuisance_parameters a = pre ++ p :: post →
  (∀ q, q ∈ pre → q ∈ parameters_keys par) → p ∉ parameters_keys par →
  check_parameters a w
    = (Raise (AssertionError ("Parameter " +:+ p +:+ " not found in Constraints")), w).
Proof.
  intros Hpar Hl Hpre Hp. unfold check_parameters. rewrite Hl.
  apply for_first_raise.
  - intros q Hq. rewrite (bind_Ok _ _ _ _ _ (load_params_Ok _ w par Hpar)).
    unfold lift, py_assert. by rewrite bool_decide_eq_true_2 by by apply Hpre.
  - rewrite (bind_Ok _ _ _ _ _ (load_params_Ok _ w par Hpar)).
    unfold lift, py_assert. by rewrite bool_decide_eq_false_2.
Qed.

Lemma check_observables_exist_inv a w :
  check_observables_exist a w = (Ok tt, w) → observables_known a w.
Proof.
  intros E o Ho. unfold check_observables_exist in E.
  eapply for_Ok_inv in E; [|intros q; solve_reads|exact Ho].
  unfold try_except, Observable_get_instance, gets, mbind, M_bind in E.
  destruct (decide (obs_name o ∈ w_observables w)); [done|discriminate E].
Qed.

Lemma check_observables_exist_Raise a w pre o post :
  a_observables a = pre ++ o :: post →
  (∀ o', o' ∈ pre → obs_name o' ∈ w_observables w) →
  obs_name o ∉ w_observables w →
  check_observables_exist a w
    = (Raise (ValueError ("Observable " +:+ str_obs o +:+ " not found!")), w).
Proof.
  intros Hl Hpre Ho. unfold check_observables_exist. rewrite Hl.
  apply for_first_raise.
  - intros o' Ho'.
    unfold try_except, Observable_get_instance, gets, mbind, M_bind.
    by rewrite decide_True by by apply Hpre.
  - unfold try_except, Observable_get_instance, gets, mbind, M_bind.
    by rewrite decide_False.
Qed.

Lemma check_observables_constrained_Ok a w :
  observables_constrained a w → check_observables_constrained a w = (Ok tt, w).
Proof.
  intros Hc. unfold check_observables_constrained, gets, lift, mbind, M_bind.
  rewrite bool_decide_eq_true_2; [done|].
  destruct (missing_obs _ _) as [|o l] eqn:E; [done|].
  destruct (Hc o). apply elem_of_missing_obs. rewrite E. left.
Qed.

Lemma check_observables_constrained_inv a w :
  check_observables_constrained a w = (Ok tt, w) → observables_constrained a w.
Proof.
  intros E o Ho. rewrite (check_observables_constrained_Raise a w o Ho) in E.
  discriminate E.
Qed.

Lemma check_filters_Ok a w : one_filter_at_most a → check_filters a w = (Ok tt, w).
Proof. intros Hf. unfold check_filters. by rewrite bool_decide_eq_false_2. Qed.

Lemma check_filters_inv a w : check_filters a w = (Ok tt, w) → one_filter_at_most a.
Proof.
  unfold check_filters. intros E Hf. by rewrite bool_decide_eq_true_2 in E.
Qed.

Lemma shared_parameters (a : FitArgs) p :
  p ∈ set_inter (set_of (a_fit_parameters a)) (a_nuisance_parameters a)
  ↔ p ∈ a_fit_parameters a ∧ p ∈ a_nuisance_parameters a.
Proof. by rewrite elem_of_set_inter, elem_of_set_of. Qed.

Lemma check_disjoint_Ok a w : parameters_disjoint a → check_disjoint a w = (Ok tt, w).
Proof.
  intros Hd. unfold check_disjoint, lift, py_assert.
  rewrite bool_decide_eq_true_2; [done|].
  destruct (set_inter _ _) as [|p l] eqn:E; [done|].
  destruct (Hd p); apply (shared_parameters a p); rewrite E; left.
Qed.

Lemma check_disjoint_Raise a w p :
  p ∈ a_fit_parameters a → p ∈ a_nuisance_parameters a →
  check_disjoint a w
    = (Raise (AssertionError
        ("Parameters appearing as fit_parameters and nuisance_parameters: "
         +:+ str_set (set_inter (set_of (a_fit_parameters a))
                                (a_nuisance_parameters a)))), w).
Proof.
  intros Hf Hn. unfold check_disjoint, lift, py_assert.
  rewrite bool_decide_eq_false_2; [done|]. intros E.
  pose proof (proj2 (shared_parameters a p) (conj Hf Hn)) as Hin.
  rewrite E in Hin. by apply elem_of_nil in Hin.
Qed.

Lemma check_disjoint_inv a w : check_disjoint a w = (Ok tt, w) → parameters_disjoint a.
Proof.
  intros E p Hf Hn. rewrite (check_disjoint_Raise a w p Hf Hn) in E. discriminate E.
Qed.

Lemma check_wc_function_Ok a w :
  wc_function_works a → check_wc_function a w = (Ok tt, w).
Proof.
  unfold check_wc_function. intros [->|(f & -> & Hf)]; [done|].
  destruct (a_fit_wc_names a) eqn:E; [done|].
  unfold wc_probe in Hf. rewrite E in Hf. by rewrite Hf.
Qed.

Lemma check_wc_function_Raise a w :
  ¬ wc_function_works a →
  check_wc_function a w
    = (Raise (ValueError "Error in calling the Wilson coefficient function"), w).
Proof.
  unfold check_wc_function, wc_function_works, wc_probe. intros Hn.
  destruct (a_fit_wc_names a) eqn:E; [by destruct Hn; left|].
  destruct (a_fit_wc_function a) as [f|]; [|done].
  destruct (is_Ok (f _)) eqn:Hf; [|done]. destruct Hn. right. by exists f.
Qed.

Lemma check_wc_function_inv a w :
  check_wc_function a w = (Ok tt, w) → wc_function_works a.
Proof.
  intros E. unfold wc_function_works.
  destruct (a_fit_wc_names a) as [|n ns] eqn:En; [by left|]. right.
  unfold check_wc_function in E. rewrite En in E.
  destruct (a_fit_wc_function a) as [f|]; [|discriminate E].
  exists f. split; [done|]. unfold wc_probe. rewrite En.
  destruct (is_Ok (f _)); [done|discriminate E].
Qed.

(** The checks pass exactly for the valid arguments. *)
Lemma validate_Ok a w : valid_arguments a w → validate a w = (Ok tt, w).
Proof.
  intros (Hp & Ho & Hc & Hf & Hd & Hw). unfold validate.
  rewrite (bind_Ok _ _ _ _ _ (check_parameters_Ok a w Hp)).
  rewrite (bind_Ok _ _ _ _ _ (check_observables_exist_Ok a w Ho)).
  rewrite (bind_Ok _ _ _ _ _ (check_observables_constrained_Ok a w Hc)).
  rewrite (bind_Ok _ _ _ _ _ (check_filters_Ok a w Hf)).
  rewrite (bind_Ok _ _ _ _ _ (check_disjoint_Ok a w Hd)).
  by apply check_wc_function_Ok.
Qed.

Lemma reads_inv {A} (m : M A) w r w' : reads m → m w = (r, w') → w' = w.
Proof. intros Hm E. specialize (Hm w). by rewrite E in Hm. Qed.

Ltac check_reads :=
  unfold check_parameters, check_observables_exist, check_observables_constrained,
    check_filters, check_disjoint, check_wc_function; solve_reads.

Lemma validate_inv a w : validate a w = (Ok tt, w) → valid_arguments a w.
Proof.
  unfold validate. intros E.
  apply bind_inv_Ok in E as ([] & w1 & E1 & E).
  apply reads_inv in E1 as Hw; [subst w1|check_reads].
  apply bind_inv_Ok in E as ([] & w1 & E2 & E).
  apply reads_inv in E2 as Hw; [subst w1|check_reads].
  apply bind_inv_Ok in E as ([] & w1 & E3 & E).
  apply reads_inv in E3 as Hw; [subst w1|check_reads].
  apply bind_inv_Ok in E as ([] & w1 & E4 & E).
  apply reads_inv in E4 as Hw; [subst w1|check_reads].
  apply bind_inv_Ok in E as ([] & w1 & E5 & E).
  apply reads_inv in E5 as Hw; [subst w1|check_reads].
  split; [by apply check_parameters_inv|].
  split; [by apply check_observables_exist_inv|].
  split; [by apply check_observables_constrained_inv|].
  split; [by eapply check_filters_inv|].
  split; [by eapply check_disjoint_inv|by eapply check_wc_function_inv].
Qed.

(** ** The constructor, case by case *)

Lemma valid_arguments_same a w w1 :
  same_registries w w1 → valid_arguments a w ↔ valid_arguments a w1.
Proof.
  intros (Hh & Ho & Hm).
  unfold valid_arguments, parameters_known, observables_known,
    observables_constrained, unconstrained.
  by rewrite Hh, Ho, Hm.
Qed.

Lemma same_but_log_set_calls calls w : same_but_log w (set_calls calls w).
Proof. by repeat split. Qed.

Lemma Fit__init___Ok c a w par :
  validate a (set_calls ("Fit.__init__" :: w_calls w) w)
    = (Ok tt, set_calls ("Fit.__init__" :: w_calls w) w) →
  w_heap w !! a_par_obj a = Some (ParamsObj par) →
  ∃ w', Fit__init__ c a w = (Ok (length (w_heap w)), w')
    ∧ w_heap w' = w_heap w ++ [FitObj (object_after FitC c a (S (length (w_heap w))));
                               DictObj (get_central_all par)].
Proof.
  intros Hv Hpar. unfold Fit__init__.
  rewrite (bind_Ok _ _ w tt (set_calls ("Fit.__init__" :: w_calls w) w)) by done.
  rewrite (bind_Ok _ _ _ _ _ Hv).
  destruct (build_eq c a (set_calls ("Fit.__init__" :: w_calls w) w) par Hpar)
    as (w' & Hb & Hh & _).
  by exists w'.
Qed.

(** When the checks pass and [par_obj] is no parameter registry,
    [Fit.__init__] raises after the instance was registered. *)
Lemma Fit__init___Raise_late c a w :
  validate a (set_calls ("Fit.__init__" :: w_calls w) w)
    = (Ok tt, set_calls ("Fit.__init__" :: w_calls w) w) →
  ¬ registry_at w (a_par_obj a) →
  ∃ msg w', Fit__init__ c a w = (Raise (AttributeError msg), w')
    ∧ registered_only c a w w'.
Proof.
  intros Hv Hn. unfold Fit__init__.
  rewrite (bind_Ok _ _ w tt (set_calls ("Fit.__init__" :: w_calls w) w)) by done.
  rewrite (bind_Ok _ _ _ _ _ Hv).
  destruct (build_Raise c a (set_calls ("Fit.__init__" :: w_calls w) w) Hn)
    as (msg & w' & Hb & Hh & Hi & Ho & Hm & Hps & Hr & _).
  exists msg, w'. split; [done|]. by repeat split.
Qed.

Lemma BayesianFit__init___Ok c a w self w2 h d :
  Fit__init__ c a (set_calls ("BayesianFit.__init__" :: w_calls w) w) = (Ok self, w2) →
  w_heap w2 = h ++ [FitObj (object_after FitC c a (S (length h))); d] →
  self = length h →
  BayesianFit__init__ c a w
    = (Ok self,
       set_heap (h ++ [FitObj (object_after BayesianFitC c a (S (length h))); d]) w2).
Proof.
  intros E Hh ->. unfold BayesianFit__init__.
  rewrite (bind_Ok _ _ w tt (set_calls ("BayesianFit.__init__" :: w_calls w) w)) by done.
  rewrite (bind_Ok _ _ _ _ _ E).
  rewrite (bind_Ok _ _ _ _ _
             (load_fit_Ok (length h) w2 (object_after FitC c a (S (length h)))
                ltac:(rewrite Hh; apply lookup_first_new))).
  unfold store, modify, mbind, M_bind, mret, M_ret. simpl.
  by rewrite Hh, insert_first_new.
Qed.

Lemma FastFit__init___Ok a w self w2 h d :
  BayesianFit__init__ FastFitC a (set_calls ("FastFit.__init__" :: w_calls w) w)
    = (Ok self, w2) →
  w_heap w2 = h ++ [FitObj (object_after BayesianFitC FastFitC a (S (length h))); d] →
  self = length h →
  FastFit__init__ a w
    = (Ok self,
       set_heap (h ++ [FitObj (object_after FastFitC FastFitC a (S (length h))); d]) w2).
Proof.
  intros E Hh ->. unfold FastFit__init__.
  rewrite (bind_Ok _ _ w tt (set_calls ("FastFit.__init__" :: w_calls w) w)) by done.
  rewrite (bind_Ok _ _ _ _ _ E).
  rewrite (bind_Ok _ _ _ _ _
             (load_fit_Ok (length h) w2
                (object_after BayesianFitC FastFitC a (S (length h)))
                ltac:(rewrite Hh; apply lookup_first_new))).
  unfold store, modify, mbind, M_bind, mret, M_ret. simpl.
  by rewrite Hh, insert_first_new.
Qed.

Lemma new_Ok k a w :
  valid_arguments a w → registry_at w (a_par_obj a) →
  ∃ self w', new k a w = (Ok self, w').
Proof.
  intros Hv [par Hpar]. destruct k; simpl.
  - destruct (Fit__init___Ok FitC a w par) as (w' & E & _); [|done|eauto].
    apply validate_Ok, (valid_arguments_same a w); done.
  - destruct (Fit__init___Ok BayesianFitC a
                (set_calls ("BayesianFit.__init__" :: w_calls w) w) par)
      as (w' & E & Hh); [|done|].
    { apply validate_Ok, (valid_arguments_same a w); done. }
    rewrite (BayesianFit__init___Ok _ _ _ _ _ _ _ E Hh eq_refl). eauto.
  - destruct (Fit__init___Ok FastFitC a
                (set_calls ("BayesianFit.__init__" :: "FastFit.__init__" :: w_calls w) w) par)
      as (w' & E & Hh); [|done|].
    { apply validate_Ok, (valid_arguments_same a w); done. }
    pose proof (BayesianFit__init___Ok FastFitC a
                  (set_calls ("FastFit.__init__" :: w_calls w) w) _ _ _ _ E Hh eq_refl) as E2.
    rewrite (FastFit__init___Ok a w _ _ (w_heap w) (DictObj (get_central_all par)) E2);
      [eauto|done|done].
Qed.

(** The constructor of every class raises after the registration when the
    arguments are valid and [par_obj] is no parameter registry. *)
Lemma new_Raise_late k a w :
  valid_arguments a w → ¬ registry_at w (a_par_obj a) →
  ∃ msg w', new k a w = (Raise (AttributeError msg), w') ∧ registered_only k a w w'.
Proof.
  intros Hv Hn. destruct k; simpl.
  - destruct (Fit__init___Raise_late FitC a w) as (msg & w' & E & Hreg); [|done|eauto].
    apply validate_Ok, (valid_arguments_same a w); done.
  - destruct (Fit__init___Raise_late BayesianFitC a
                (set_calls ("BayesianFit.__init__" :: w_calls w) w))
      as (msg & w' & E & Hreg); [|done|].
    { apply validate_Ok, (valid_arguments_same a w); done. }
    exists msg, w'. split; [by apply BayesianFit__init___Raise|done].
  - destruct (Fit__init___Raise_late FastFitC a
                (set_calls ("BayesianFit.__init__" :: "FastFit.__init__" :: w_calls w) w))
      as (msg & w' & E & Hreg); [|done|].
    { apply validate_Ok, (valid_arguments_same a w); done. }
    exists msg, w'. split; [by apply FastFit__init___Raise, BayesianFit__init___Raise|done].
Qed.

(** A failing check is raised by the constructor, which has then changed
    the log only. *)
Lemma new_Raise_early k a w :
  ∃ w1, same_registries w w1 ∧
    ∀ e, validate a w1 = (Raise e, w1) →
         ∃ w', new k a w = (Raise e, w') ∧ same_but_log w w'.
Proof.
  destruct k; simpl.
  - exists (set_calls ("Fit.__init__" :: w_calls w) w). split; [done|].
    intros e He. eexists. split; [by apply Fit__init___Raise|by repeat split].
  - exists (set_calls ("Fit.__init__" :: "BayesianFit.__init__" :: w_calls w) w).
    split; [done|]. intros e He. eexists. split;
      [apply BayesianFit__init___Raise, Fit__init___Raise, He|by repeat split].
  - exists (set_calls
      ("Fit.__init__" :: "BayesianFit.__init__" :: "FastFit.__init__" :: w_calls w) w).
    split; [done|]. intros e He. eexists. split;
      [apply FastFit__init___Raise, BayesianFit__init___Raise, Fit__init___Raise, He
      |by repeat split].
Qed.

(** The two ways in which a construction fails. *)
Lemma new_Raise_inv k a w e w' :
  new k a w = (Raise e, w') →
  (¬ valid_arguments a w ∧ same_but_log w w')
  ∨ (valid_arguments a w ∧ ¬ registry_at w (a_par_obj a)
     ∧ (∃ msg, e = AttributeError msg) ∧ registered_only k a w w').
Proof.
  intros E. destruct (new_Raise_early k a w) as (w1 & Hsame & Hnew).
  destruct (validate_world a w1) as [[[]|e1] Hv].
  - right. apply validate_inv in Hv.
    apply (valid_arguments_same a w w1 Hsame) in Hv.
    assert (¬ registry_at w (a_par_obj a)) as Hn.
    { intros Hreg. destruct (new_Ok k a w Hv Hreg) as (self & w2 & Hok). congruence. }
    destruct (new_Raise_late k a w Hv Hn) as (msg & w2 & Hr & Hreg).
    rewrite Hr in E. injection E as <- <-. eauto.
  - left. destruct (Hnew e1 Hv) as (w2 & Hr & Hlog).
    rewrite Hr in E. injection E as <- <-. split; [|done].
    intros Hvalid. apply (valid_arguments_same a w w1 Hsame) in Hvalid.
    rewrite (validate_Ok a w1 Hvalid) in Hv. discriminate Hv.
Qed.

(** A failing check is what the constructor raises. *)
Lemma new_Raise_check k a w e :
  (∀ w1, same_registries w w1 → validate a w1 = (Raise e, w1)) →
  ∃ w', new k a w = (Raise e, w') ∧ same_but_log w w'.
Proof.
  intros Hv. destruct (new_Raise_early k a w) as (w1 & Hsame & Hnew).
  apply Hnew, Hv, Hsame.
Qed.

Lemma parameters_known_same a w w1 :
  same_registries w w1 → parameters_known a w → parameters_known a w1.
Proof. intros (Hh & _) Hp p Hin. rewrite Hh. by apply Hp. Qed.

Lemma observables_known_same a w w1 :
  same_registries w w1 → observables_known a w → observables_known a w1.
Proof. intros (_ & Ho & _) Hk o Hin. rewrite Ho. by apply Hk. Qed.

Lemma observables_constrained_same a w w1 :
  same_registries w w1 → observables_constrained a w → observables_constrained a w1.
Proof. intros Hs Hc o Ho. apply (Hc o). by apply (unconstrained_same a w w1). Qed.

(** Construction succeeds exactly for valid arguments and a parameter
    registry; it then allocates the snapshot of the central values and the
    object, registers the object under its name, and changes nothing else
    but the log. *)
Theorem construction_succeeds_iff k a w :
  ((∃ self w', new k a w = (Ok self, w'))
   ↔ valid_arguments a w ∧ registry_at w (a_par_obj a))
  ∧ (∀ self w', new k a w = (Ok self, w') → constructed k a w w' self).
Proof.
  split; [split|apply new_inv].
  - intros (self & w' & E).
    apply new_inv in E as (par & Hpar & _ & _ & _ & _ & _ & _ & _ & w1 & Hsame & Hv).
    split; [|by exists par].
    apply validate_inv in Hv. by apply (valid_arguments_same a w w1).
  - intros [Hv Hpar]. by apply new_Ok.
Qed.

(** A construction fails in one of two ways.  When a check fails, it has
    changed nothing but the log: nothing is allocated or registered.
    Otherwise the arguments are valid and [par_obj] is no parameter registry
    (the lists of fit and nuisance parameters are then empty): reading the
    central values raises an [AttributeError] after the parent class has
    registered the instance, which stays registered under its name with its
    name and [par_obj] as only attributes.  Valid arguments with such a
    [par_obj] always fail in this second way. *)
Theorem failed_construction_cases k a w :
  (∀ e w', new k a w = (Raise e, w') →
     (¬ valid_arguments a w ∧ same_but_log w w')
     ∨ (valid_arguments a w ∧ ¬ registry_at w (a_par_obj a)
        ∧ a_fit_parameters a ++ a_nuisance_parameters a = []
        ∧ (∃ msg, e = AttributeError msg) ∧ registered_only k a w w'))
  ∧ (valid_arguments a w → ¬ registry_at w (a_par_obj a) →
     ∃ msg w', new k a w = (Raise (AttributeError msg), w')
       ∧ registered_only k a w w').
Proof.
  split; [|apply new_Raise_late].
  intros e w' E. apply new_Raise_inv in E as [E|(Hv & Hn & He & Hreg)]; [by left|].
  right. repeat (split; [done|]). split; [|done].
  destruct (a_fit_parameters a ++ a_nuisance_parameters a) as [|p l] eqn:El; [done|].
  destruct Hn. destruct (proj1 Hv p) as (par & Hpar & _); [rewrite El; left|].
  by exists par.
Qed.

(** The first fit or nuisance parameter that is not a key of the parameter
    registry is reported, before any other check is made. *)
Theorem unknown_parameter_rejected k a w par pre p post :
  w_heap w !! a_par_obj a = Some (ParamsObj par) →
  a_fit_parameters a ++ a_nuisance_parameters a = pre ++ p :: post →
  (∀ q, q ∈ pre → q ∈ parameters_keys par) →
  p ∉ parameters_keys par →
  ∃ w', new k a w
          = (Raise (AssertionError ("Parameter " +:+ p +:+ " not found in Constraints")), w')
        ∧ same_but_log w w'.
Proof.
  intros Hpar Hl Hpre Hp. apply new_Raise_check. intros w1 (Hh & _).
  unfold validate.
  rewrite (bind_Raise _ _ _ _ _
             (check_parameters_Raise a w1 par pre p post ltac:(by rewrite Hh) Hl Hpre Hp)).
  done.
Qed.

(** When the parameters are known, the first listed observable that is not
    registered is reported, with [str] of the entry in the message. *)
Theorem unknown_observable_rejected k a w pre o post :
  parameters_known a w →
  a_observables a = pre ++ o :: post →
  (∀ o', o' ∈ pre → obs_name o' ∈ w_observables w) →
  obs_name o ∉ w_observables w →
  ∃ w', new k a w
          = (Raise (ValueError ("Observable " +:+ str_obs o +:+ " not found!")), w')
        ∧ same_but_log w w'.
Proof.
  intros Hp Hl Hpre Ho. apply new_Raise_check. intros w1 Hs.
  pose proof (parameters_known_same a w w1 Hs Hp) as Hp1.
  destruct Hs as (_ & Hobs & _). unfold validate.
  rewrite (bind_Ok _ _ _ _ _ (check_parameters_Ok a w1 Hp1)).
  rewrite (bind_Raise _ _ _ _ _
             (check_observables_exist_Raise a w1 pre o post Hl
                ltac:(rewrite Hobs; exact Hpre) ltac:(rewrite Hobs; exact Ho))).
  done.
Qed.

(** When the first four checks pass, a parameter listed both as a fit
    parameter and as a nuisance parameter makes the constructor raise, with
    the set of the shared parameters in the message. *)
Theorem shared_parameter_rejected k a w p :
  parameters_known a w → observables_known a w → observables_constrained a w →
  one_filter_at_most a →
  p ∈ a_fit_parameters a → p ∈ a_nuisance_parameters a →
  ∃ shared w',
    new k a w
      = (Raise (AssertionError
          ("Parameters appearing as fit_parameters and nuisance_parameters: "
           +:+ str_set shared)), w')
    ∧ (∀ q, q ∈ shared ↔ q ∈ a_fit_parameters a ∧ q ∈ a_nuisance_parameters a)
    ∧ same_but_log w w'.
Proof.
  intros Hp Ho Hc Hf Hfit Hnui.
  destruct (new_Raise_check k a w (AssertionError
      ("Parameters appearing as fit_parameters and nuisance_parameters: "
       +:+ str_set (set_inter (set_of (a_fit_parameters a)) (a_nuisance_parameters a)))))
    as (w' & E & Hw').
  - intros w1 Hs. unfold validate.
    rewrite (bind_Ok _ _ _ _ _
               (check_parameters_Ok a w1 (parameters_known_same a w w1 Hs Hp))).
    rewrite (bind_Ok _ _ _ _ _
               (check_observables_exist_Ok a w1 (observables_known_same a w w1 Hs Ho))).
    rewrite (bind_Ok _ _ _ _ _
               (check_observables_constrained_Ok a w1
                  (observables_constrained_same a w w1 Hs Hc))).
    rewrite (bind_Ok _ _ _ _ _ (check_filters_Ok a w1 Hf)).
    by rewrite (bind_Raise _ _ _ _ _ (check_disjoint_Raise a w1 p Hfit Hnui)).
  - eexists. exists w'. split; [exact E|]. split; [|done].
    intros q. apply shared_parameters.
Qed.

(** When there are couplings to fit and the first five checks pass, the
    function of the couplings is called once, with every name bound to
    [1e-6]; if there is no function or the call raises, whatever it raises,
    the constructor raises [ValueError]. *)
Theorem wc_function_failure_rejected k a w :
  parameters_known a w → observables_known a w → observables_constrained a w →
  one_filter_at_most a → parameters_disjoint a →
  a_fit_wc_names a ≠ [] →
  (∀ f, a_fit_wc_function a = Some f → is_Ok (f (wc_probe a)) = false) →
  ∃ w', new k a w
          = (Raise (ValueError "Error in calling the Wilson coefficient function"), w')
        ∧ same_but_log w w'.
Proof.
  intros Hp Ho Hc Hf Hd Hn Hfun. apply new_Raise_check. intros w1 Hs.
  unfold validate.
  rewrite (bind_Ok _ _ _ _ _
             (check_parameters_Ok a w1 (parameters_known_same a w w1 Hs Hp))).
  rewrite (bind_Ok _ _ _ _ _
             (check_observables_exist_Ok a w1 (observables_known_same a w w1 Hs Ho))).
  rewrite (bind_Ok _ _ _ _ _
             (check_observables_constrained_Ok a w1
                (observables_constrained_same a w w1 Hs Hc))).
  rewrite (bind_Ok _ _ _ _ _ (check_filters_Ok a w1 Hf)).
  rewrite (bind_Ok _ _ _ _ _ (check_disjoint_Ok a w1 Hd)).
  apply check_wc_function_Raise. intros [E|(f & Ef & Hok)]; [done|].
  rewrite (Hfun f Ef) in Hok. discriminate Hok.
Qed.

(** ** The conversions of [BayesianFit], on any input *)

Lemma BayesianFit_array_to_dict_Ok (this : FitObject) x :
  length (fit_parameters this) + length (nuisance_parameters this)
    + length (fit_wc_names this) ≤ length x →
  ∃ fp np wc,
    BayesianFit_array_to_dict this x
      = Ok (<["fit_wc" := wc]>
              (<["nuisance_parameters" := np]> (<["fit_parameters" := fp]> ∅)))
    ∧ dict_comprehension (fit_parameters this) x 0 ∅ = Ok fp
    ∧ dict_comprehension (nuisance_parameters this) x (length (fit_parameters this)) ∅
      = Ok np
    ∧ dict_comprehension (fit_wc_names this) x
        (length (fit_parameters this) + length (nuisance_parameters this)) ∅ = Ok wc.
Proof.
  intros Hlen. unfold BayesianFit_array_to_dict.
  destruct (dict_comprehension_Ok (fit_parameters this) x 0 ∅) as (fp & E1 & _); [lia|].
  destruct (dict_comprehension_Ok (nuisance_parameters this) x
              (length (fit_parameters this)) ∅) as (np & E2 & _); [lia|].
  destruct (dict_comprehension_Ok (fit_wc_names this) x
              (length (fit_parameters this) + length (nuisance_parameters this)) ∅)
    as (wc & E3 & _); [lia|].
  exists fp, np, wc. rewrite E1. simpl. rewrite E2. simpl. rewrite E3. done.
Qed.

Lemma dict_comprehension_slice names x k sub :
  k + length names ≤ length x →
  dict_comprehension names x k ∅ = Ok sub → slice_dict names x k sub.
Proof.
  intros Hlen E.
  destruct (dict_comprehension_Ok names x k ∅ Hlen) as (sub' & E' & Hout & Hin).
  rewrite E in E'. injection E' as <-. split; [|done].
  intros p Hp. by rewrite Hout.
Qed.

Lemma BayesianFit_array_to_dict_Raise (this : FitObject) x :
  length x < length (fit_parameters this) + length (nuisance_parameters this)
             + length (fit_wc_names this) →
  BayesianFit_array_to_dict this x = Raise (IndexError "index out of bounds").
Proof.
  intros Hlen. unfold BayesianFit_array_to_dict.
  destruct (decide (length (fit_parameters this) ≤ length x)) as [H1|H1].
  2:{ by rewrite (dict_comprehension_Raise (fit_parameters this)) by lia. }
  destruct (dict_comprehension_Ok (fit_parameters this) x 0 ∅) as (fp & E1 & _);
    [lia|].
  rewrite E1. simpl.
  destruct (decide (length (fit_parameters this) + length (nuisance_parameters this)
                    ≤ length x)) as [H2|H2].
  2:{ by rewrite (dict_comprehension_Raise (nuisance_parameters this)) by lia. }
  destruct (dict_comprehension_Ok (nuisance_parameters this) x
              (length (fit_parameters this)) ∅) as (np & E2 & _); [lia|].
  rewrite E2. simpl.
  by rewrite (dict_comprehension_Raise (fit_wc_names this)) by lia.
Qed.

(** [array_to_dict] of a [BayesianFit] reads the entries of [x] below the
    dimension of the fit, in three consecutive slices, and nothing else: it
    succeeds when [x] has at least that many entries, and raises
    [IndexError] otherwise. *)
Theorem BayesianFit_array_to_dict_bounds (this : FitObject) x :
  (length (fit_parameters this) + length (nuisance_parameters this)
     + length (fit_wc_names this) ≤ length x →
   ∃ fp np wc,
     BayesianFit_array_to_dict this x
       = Ok (<["fit_wc" := wc]>
               (<["nuisance_parameters" := np]> (<["fit_parameters" := fp]> ∅)))
     ∧ slice_dict (fit_parameters this) x 0 fp
     ∧ slice_dict (nuisance_parameters this) x (length (fit_parameters this)) np
     ∧ slice_dict (fit_wc_names this) x
         (length (fit_parameters this) + length (nuisance_parameters this)) wc)
  ∧ (length x < length (fit_parameters this) + length (nuisance_parameters this)
                + length (fit_wc_names this) →
     BayesianFit_array_to_dict this x = Raise (IndexError "index out of bounds")).
Proof.
  split; [|apply BayesianFit_array_to_dict_Raise]. intros Hlen.
  destruct (BayesianFit_array_to_dict_Ok this x Hlen) as (fp & np & wc & E & E1 & E2 & E3).
  exists fp, np, wc. split; [done|].
  split; [|split]; (apply dict_comprehension_slice; [lia|done]).
Qed.

Lemma mapM_getkey_inv (sub : gmap string float) names vals :
  mapM (getkey sub) names = Ok vals →
  (∀ p, p ∈ names → is_Some (sub !! p)) ∧ length vals = length names
  ∧ ∀ i p, names !! i = Some p → vals !! i = sub !! p.
Proof.
  revert vals. induction names as [|q names IH]; intros vals E; simpl in E.
  - injection E as <-. split; [|done]. intros p Hp. by apply elem_of_nil in Hp.
  - destruct (sub !! q) as [v|] eqn:Hq.
    2:{ assert (getkey sub q = Raise (KeyError q)) as Hg
          by (unfold getkey; by rewrite Hq).
        by rewrite Hg in E. }
    assert (getkey sub q = Ok v) as Hg by (unfold getkey; by rewrite Hq).
    rewrite Hg in E. simpl in E.
    destruct (mapM _ names) as [vals'|] eqn:E'; [|done]. simpl in E.
    injection E as <-. destruct (IH vals' eq_refl) as (Hh & Hl & Hv).
    split; [|split].
    + intros p Hp. apply elem_of_cons in Hp as [->|Hp]; [by rewrite Hq|by apply Hh].
    + simpl. by rewrite Hl.
    + intros [|i] p Hp; simpl in *; [by injection Hp as <-|by apply Hv].
Qed.

Lemma mapM_getkey_Raise (sub : gmap string float) names e :
  mapM (getkey sub) names = Raise e → ∃ p, p ∈ names ∧ e = KeyError p.
Proof.
  induction names as [|q names IH]; intros E; simpl in E; [done|].
  destruct (sub !! q) as [v|] eqn:Hq.
  2:{ assert (getkey sub q = Raise (KeyError q)) as Hg
        by (unfold getkey; by rewrite Hq).
      rewrite Hg in E. injection E as <-. exists q. split; [left|done]. }
  assert (getkey sub q = Ok v) as Hg by (unfold getkey; by rewrite Hq).
  rewrite Hg in E. simpl in E.
  destruct (mapM _ names) as [vals'|e'] eqn:E'; simpl in E; [done|].
  injection E as <-. destruct (IH eq_refl) as (p & Hp & ->).
  exists p. split; [by right|done].
Qed.

Lemma values_of_missing d key q names :
  d !! key = None → values_of d key (q :: names) = Raise (KeyError key).
Proof.
  intros Hd. unfold values_of. simpl.
  assert (getkey d key = Raise (KeyError key)) as -> by (unfold getkey; by rewrite Hd).
  done.
Qed.

Lemma values_of_inv d key names vals :
  values_of d key names = Ok vals →
  has_values d key names ∧ length vals = length names
  ∧ ∀ i p sub, names !! i = Some p → d !! key = Some sub → vals !! i = sub !! p.
Proof.
  intros E. destruct (d !! key) as [sub|] eqn:Hd.
  - rewrite (values_of_sub d key sub names Hd) in E.
    apply mapM_getkey_inv in E as (Hs & Hl & Hv).
    split; [|split; [done|]].
    + intros p Hp. exists sub. split; [done|by apply Hs].
    + intros i p sub' Hp [= <-]. by apply Hv.
  - destruct names as [|q names]; [|by rewrite values_of_missing in E].
    injection E as <-. split; [|done]. intros p Hp. by apply elem_of_nil in Hp.
Qed.

Lemma values_of_Raise d key names e :
  values_of d key names = Raise e → ∃ k, e = KeyError k.
Proof.
  intros E. destruct (d !! key) as [sub|] eqn:Hd.
  - rewrite (values_of_sub d key sub names Hd) in E.
    apply mapM_getkey_Raise in E as (p & _ & ->). by eexists.
  - destruct names as [|q names]; [done|].
    rewrite values_of_missing in E by done. injection E as <-. by eexists.
Qed.

Lemma values_of_total d key names :
  has_values d key names → is_Ok (values_of d key names) = true.
Proof.
  intros Hh. destruct names as [|q names]; [done|].
  destruct (Hh q) as (sub & Hd & _); [left|].
  rewrite (values_of_sub d key sub _ Hd).
  destruct (mapM_getkey_total sub (q :: names)) as (vals & -> & _); [|done].
  intros p Hp. destruct (Hh p Hp) as (sub' & Hd' & Hs). congruence.
Qed.

(** [dict_to_array] of a [BayesianFit] is the three lists of values, one
    after the other: the slices it assigns always fit. *)
Lemma BayesianFit_dict_to_array_run (this : FitObject) d :
  BayesianFit_dict_to_array this d
  = (v1 ← values_of d "fit_parameters" (fit_parameters this);
     v2 ← values_of d "nuisance_parameters" (nuisance_parameters this);
     v3 ← values_of d "fit_wc" (fit_wc_names this);
     Ok (v1 ++ v2 ++ v3)).
Proof.
  destruct (values_of d "fit_parameters" _) as [v1|e1] eqn:E1.
  2:{ unfold BayesianFit_dict_to_array. by rewrite E1. }
  destruct (values_of d "nuisance_parameters" _) as [v2|e2] eqn:E2.
  2:{ unfold BayesianFit_dict_to_array. rewrite E1. simpl.
      pose proof (mapM_Ok_length _ _ _ E1) as L1.
      unfold np_zeros. rewrite <- Nat.add_assoc, replicate_add.
      pose proof (setslice_middle [] (replicate (length (fit_parameters this)) 0%float)
                    (replicate (length (nuisance_parameters this)
                                + length (fit_wc_names this)) 0%float) v1) as S1.
      rewrite length_replicate in S1. simpl in S1. rewrite S1 by done. simpl.
      by rewrite E2. }
  destruct (values_of d "fit_wc" _) as [v3|e3] eqn:E3.
  - simpl. by apply BayesianFit_dict_to_array_eq.
  - unfold BayesianFit_dict_to_array. rewrite E1. simpl.
    pose proof (mapM_Ok_length _ _ _ E1) as L1.
    pose proof (mapM_Ok_length _ _ _ E2) as L2.
    unfold np_zeros. rewrite <- Nat.add_assoc, !replicate_add.
    set (z1 := replicate (length (fit_parameters this)) 0%float).
    set (z2 := replicate (length (nuisance_parameters this)) 0%float).
    set (z3 := replicate (length (fit_wc_names this)) 0%float).
    assert (Hz1 : length z1 = length (fit_parameters this)) by apply length_replicate.
    assert (Hz2 : length z2 = length (nuisance_parameters this)) by apply length_replicate.
    pose proof (setslice_middle [] z1 (z2 ++ z3) v1 ltac:(lia)) as S1.
    simpl in S1. rewrite Hz1 in S1. rewrite S1. simpl. rewrite E2. simpl.
    pose proof (setslice_middle v1 z2 z3 v2 ltac:(lia)) as S2.
    rewrite L1, Hz2 in S2. rewrite S2. simpl. by rewrite E3.
Qed.

(** [dict_to_array] of a [BayesianFit] succeeds exactly when the dictionary
    has a value for every listed name under its key; the array then has the
    dimension of the fit and holds the values in the order of the three
    lists.  Otherwise it raises [KeyError], and nothing else. *)
Theorem BayesianFit_dict_to_array_keys (this : FitObject) d :
  (is_Ok (BayesianFit_dict_to_array this d) = true
   ↔ has_values d "fit_parameters" (fit_parameters this)
     ∧ has_values d "nuisance_parameters" (nuisance_parameters this)
     ∧ has_values d "fit_wc" (fit_wc_names this))
  ∧ (∀ arr, BayesianFit_dict_to_array this d = Ok arr →
       length arr = length (fit_parameters this) + length (nuisance_parameters this)
                    + length (fit_wc_names this)
       ∧ (∀ i p sub, fit_parameters this !! i = Some p →
            d !! "fit_parameters" = Some sub → arr !! i = sub !! p)
       ∧ (∀ i p sub, nuisance_parameters this !! i = Some p →
            d !! "nuisance_parameters" = Some sub →
            arr !! (length (fit_parameters this) + i) = sub !! p)
       ∧ (∀ i p sub, fit_wc_names this !! i = Some p →
            d !! "fit_wc" = Some sub →
            arr !! (length (fit_parameters this) + length (nuisance_parameters this) + i)
              = sub !! p))
  ∧ (∀ e, BayesianFit_dict_to_array this d = Raise e → ∃ key, e = KeyError key).
Proof.
  rewrite BayesianFit_dict_to_array_run.
  destruct (values_of d "fit_parameters" _) as [v1|e1] eqn:E1; simpl.
  2:{ split; [|split; [done|]].
      - split; [done|]. intros (Hh & _). apply values_of_total in Hh.
        by rewrite E1 in Hh.
      - intros e [= <-]. by apply values_of_Raise in E1. }
  destruct (values_of d "nuisance_parameters" _) as [v2|e2] eqn:E2; simpl.
  2:{ split; [|split; [done|]].
      - split; [done|]. intros (_ & Hh & _). apply values_of_total in Hh.
        by rewrite E2 in Hh.
      - intros e [= <-]. by apply values_of_Raise in E2. }
  destruct (values_of d "fit_wc" _) as [v3|e3] eqn:E3; simpl.
  2:{ split; [|split; [done|]].
      - split; [done|]. intros (_ & _ & Hh). apply values_of_total in Hh.
        by rewrite E3 in Hh.
      - intros e [= <-]. by apply values_of_Raise in E3. }
  apply values_of_inv in E1 as (Hh1 & L1 & Hv1).
  apply values_of_inv in E2 as (Hh2 & L2 & Hv2).
  apply values_of_inv in E3 as (Hh3 & L3 & Hv3).
  split; [done|]. split; [|done]. intros arr [= <-].
  split; [rewrite !length_app; lia|]. split; [|split].
  - intros i p sub Hp Hd. rewrite lookup_app_l by (rewrite L1; by eapply lookup_lt_Some).
    by apply (Hv1 i p sub).
  - intros i p sub Hp Hd. rewrite <- L1, lookup_app_r by lia.
    replace (length v1 + i - length v1) with i by lia.
    rewrite lookup_app_l by (rewrite L2; by eapply lookup_lt_Some).
    by apply (Hv2 i p sub).
  - intros i p sub Hp Hd. rewrite <- L1, <- L2, lookup_app_r by lia.
    replace (length v1 + length v2 + i - length v1) with (length v2 + i) by lia.
    rewrite lookup_app_r by lia.
    replace (length v2 + i - length v2) with i by lia.
    by apply (Hv3 i p sub).
Qed.

(** ** The values of the parameter dictionary *)

Lemma dict_comprehension_lookup names x k sub :
  NoDup names → k + length names ≤ length x →
  dict_comprehension names x k ∅ = Ok sub →
  (∀ i p, names !! i = Some p → sub !! p = x !! (k + i))
  ∧ (∀ p, p ∉ names → sub !! p = None).
Proof.
  intros Hnd Hlen E.
  destruct (dict_comprehension_NoDup names x k ∅ Hnd Hlen) as (sub' & E' & Hin).
  rewrite E in E'. injection E' as <-. split; [done|].
  intros p Hp. rewrite (dict_comprehension_out _ _ _ _ _ E p Hp). apply lookup_empty.
Qed.

Lemma par_dict_of_BayesianFit (this : FitObject) snap x fp np wc :
  cls this = BayesianFitC →
  BayesianFit_array_to_dict this x
    = Ok (<["fit_wc" := wc]>
            (<["nuisance_parameters" := np]> (<["fit_parameters" := fp]> ∅))) →
  par_dict_of this snap x = Ok (np ∪ (fp ∪ snap)).
Proof.
  intros Hc E. unfold par_dict_of, array_to_dict. rewrite Hc, E.
  set (d := <["fit_wc" := wc]> _).
  assert (getkey d "fit_parameters" = Ok fp) as G1.
  { unfold getkey, d. by rewrite lookup_insert_ne, lookup_insert_ne, lookup_insert_eq. }
  assert (getkey d "nuisance_parameters" = Ok np) as G2.
  { unfold getkey, d. by rewrite lookup_insert_ne, lookup_insert_eq. }
  simpl. rewrite G1. simpl. by rewrite G2.
Qed.

Lemma par_dict_of_FastFit (this : FitObject) snap x fp wc :
  cls this = FastFitC →
  FastFit_array_to_dict this x
    = Ok (<["fit_wc" := wc]> (<["fit_parameters" := fp]> ∅)) →
  par_dict_of this snap x = Ok (fp ∪ snap).
Proof.
  intros Hc E. unfold par_dict_of, array_to_dict. rewrite Hc, E.
  set (d := <["fit_wc" := wc]> _).
  assert (getkey d "fit_parameters" = Ok fp) as G1.
  { unfold getkey, d. by rewrite lookup_insert_ne, lookup_insert_eq. }
  simpl. by rewrite G1.
Qed.

Lemma FastFit_array_to_dict_parts (this : FitObject) x :
  length (fit_parameters this) + length (fit_wc_names this) ≤ length x →
  ∃ fp wc,
    FastFit_array_to_dict this x
      = Ok (<["fit_wc" := wc]> (<["fit_parameters" := fp]> ∅))
    ∧ dict_comprehension (fit_parameters this) x 0 ∅ = Ok fp
    ∧ dict_comprehension (fit_wc_names this) x (length (fit_parameters this)) ∅ = Ok wc.
Proof.
  intros Hlen. unfold FastFit_array_to_dict.
  destruct (dict_comprehension_Ok (fit_parameters this) x 0 ∅) as (fp & E1 & _); [lia|].
  destruct (dict_comprehension_Ok (fit_wc_names this) x
              (length (fit_parameters this)) ∅) as (wc & E2 & _); [lia|].
  exists fp, wc. rewrite E1. simpl. rewrite E2. done.
Qed.


(** ** The central values *)

Lemma get_central_fit_parameters_run self w (this : FitObject) snap :
  w_heap w !! self = Some (FitObj this) →
  w_heap w !! parameters_central this = Some (DictObj snap) →
  (get_central_fit_parameters self w).1 = mapM (getkey snap) (fit_parameters this).
Proof.
  intros Hself Hsnap. unfold get_central_fit_parameters. rewrite enter_bind.
  rewrite (bind_Ok _ _ _ _ _ (load_fit_Ok self (set_calls _ w) this Hself)).
  by rewrite (bind_Ok _ _ _ _ _ (load_dict_Ok _ (set_calls _ w) snap Hsnap)).
Qed.

Lemma get_central_nuisance_parameters_run self w (this : FitObject) snap :
  w_heap w !! self = Some (FitObj this) →
  w_heap w !! parameters_central this = Some (DictObj snap) →
  (get_central_nuisance_parameters self w).1
    = mapM (getkey snap) (nuisance_parameters this).
Proof.
  intros Hself Hsnap. unfold get_central_nuisance_parameters. rewrite enter_bind.
  rewrite (bind_Ok _ _ _ _ _ (load_fit_Ok self (set_calls _ w) this Hself)).
  by rewrite (bind_Ok _ _ _ _ _ (load_dict_Ok _ (set_calls _ w) snap Hsnap)).
Qed.

Lemma dict_comprehension_subseteq names (snap : gmap string float) vals x k sub :
  mapM (getkey snap) names = Ok vals →
  (∀ i, i < length vals → x !! (k + i) = vals !! i) →
  k + length names ≤ length x →
  dict_comprehension names x k ∅ = Ok sub → sub ⊆ snap.
Proof.
  intros Hv Hx Hlen E. apply mapM_getkey_inv in Hv as (_ & Hl & Hv).
  destruct (dict_comprehension_Ok names x k ∅ Hlen) as (sub' & E' & Hout & Hin).
  rewrite E in E'. injection E' as <-.
  apply map_subseteq_spec. intros p v Hp.
  destruct (decide (p ∈ names)) as [Hn|Hn].
  - destruct (Hin p Hn) as (i & Hi & _ & Hs).
    rewrite <- (Hv i p Hi), <- Hx, <- Hs; [done|].
    rewrite Hl. by eapply lookup_lt_Some.
  - rewrite (Hout p Hn), lookup_empty in Hp. done.
Qed.

(** Evaluated at the central values of the fit and nuisance parameters,
    whatever the entries for the couplings are, [get_par_dict] gives the
    snapshot of the central values back. *)
Theorem get_par_dict_at_central self (this : FitObject) snap w cf cn wc x :
  w_heap w !! self = Some (FitObj this) →
  w_heap w !! parameters_central this = Some (DictObj snap) →
  (get_central_fit_parameters self w).1 = Ok cf →
  (get_central_nuisance_parameters self w).1 = Ok cn →
  length wc = length (fit_wc_names this) →
  (cls this = BayesianFitC ∧ x = cf ++ cn ++ wc) ∨ (cls this = FastFitC ∧ x = cf ++ wc) →
  dict_at (get_par_dict self x w).2 (get_par_dict self x w).1 = Ok snap.
Proof.
  intros Hself Hsnap Hcf Hcn Hwc Hx.
  rewrite (get_central_fit_parameters_run self w this snap Hself Hsnap) in Hcf.
  rewrite (get_central_nuisance_parameters_run self w this snap Hself Hsnap) in Hcn.
  rewrite (get_par_dict_content self x w this snap Hself Hsnap).
  pose proof (mapM_Ok_length _ _ _ Hcf) as L1.
  pose proof (mapM_Ok_length _ _ _ Hcn) as L2.
  destruct Hx as [[Hc ->]|[Hc ->]].
  - destruct (BayesianFit_array_to_dict_Ok this (cf ++ cn ++ wc))
      as (fp & np & wc' & E & E1 & E2 & _); [rewrite !length_app; lia|].
    rewrite (par_dict_of_BayesianFit this snap _ fp np wc' Hc E). f_equal.
    assert (fp ⊆ snap) as H1.
    { apply (dict_comprehension_subseteq _ snap cf (cf ++ cn ++ wc) 0 fp Hcf);
        [|rewrite !length_app; lia|done].
      intros i Hi. by rewrite lookup_app_l. }
    assert (np ⊆ snap) as H2.
    { apply (dict_comprehension_subseteq _ snap cn (cf ++ cn ++ wc)
               (length (fit_parameters this)) np Hcn);
        [|rewrite !length_app; lia|done].
      intros i Hi. rewrite <- L1, lookup_app_r by lia.
      replace (length cf + i - length cf) with i by lia. by rewrite lookup_app_l. }
    rewrite (map_subseteq_union fp snap H1). by apply map_subseteq_union.
  - destruct (FastFit_array_to_dict_parts this (cf ++ wc)) as (fp & wc' & E & E1 & _);
      [rewrite !length_app; lia|].
    rewrite (par_dict_of_FastFit this snap _ fp wc' Hc E). f_equal.
    apply map_subseteq_union.
    apply (dict_comprehension_subseteq _ snap cf (cf ++ wc) 0 fp Hcf);
      [|rewrite !length_app; lia|done].
    intros i Hi. by rewrite lookup_app_l.
Qed.

(** ** The dictionary of predictions *)

Lemma obs_dict_set_keys {V} (k : obs) (v : V) d :
  (obs_dict_set k v d).*1 = if decide (k ∈ d.*1) then d.*1 else d.*1 ++ [k].
Proof.
  unfold obs_dict_set. destruct (decide (k ∈ d.*1)); [|by rewrite fmap_app].
  rewrite <- list_fmap_compose. apply list_fmap_ext. intros i [k' v'] _. simpl.
  by destruct (decide (k' = k)).
Qed.

Lemma assoc_lookup_app_new {V} (k : obs) (v : V) d :
  k ∉ d.*1 → assoc_lookup k (d ++ [(k, v)]) = Some v.
Proof.
  induction d as [|[k' v'] d IH]; simpl; intros Hk.
  - by rewrite decide_True.
  - apply not_elem_of_cons in Hk as [Hne Hk]. rewrite decide_False by done. by apply IH.
Qed.

Lemma assoc_lookup_app_other {V} (k k' : obs) (v : V) d :
  k' ≠ k → assoc_lookup k' (d ++ [(k, v)]) = assoc_lookup k' d.
Proof.
  intros Hne. induction d as [|[k'' v''] d IH]; simpl.
  - by rewrite decide_False.
  - by rewrite IH.
Qed.

Lemma assoc_lookup_obs_dict_set_eq {V} (k : obs) (v : V) d :
  assoc_lookup k (obs_dict_set k v d) = Some v.
Proof.
  unfold obs_dict_set. destruct (decide (k ∈ d.*1)) as [Hk|Hk];
    [|by apply assoc_lookup_app_new].
  induction d as [|[k' v'] d IH]; simpl in *; [by apply elem_of_nil in Hk|].
  destruct (decide (k' = k)) as [->|Hne]; simpl.
  - by rewrite decide_True.
  - rewrite decide_False by done. apply IH.
    apply elem_of_cons in Hk as [->|Hk]; done.
Qed.

Lemma assoc_lookup_obs_dict_set_ne {V} (k k' : obs) (v : V) d :
  k' ≠ k → assoc_lookup k' (obs_dict_set k v d) = assoc_lookup k' d.
Proof.
  intros Hne. unfold obs_dict_set. destruct (decide (k ∈ d.*1)) as [Hk|Hk];
    [|by apply assoc_lookup_app_other].
  clear Hk. induction d as [|[k'' v''] d IH]; simpl; [done|].
  destruct (decide (k'' = k)) as [->|Hne']; simpl.
  - rewrite !decide_False by done. exact IH.
  - destruct (decide (k' = k'')); [done|exact IH].
Qed.

Lemma predictions_loop pd wc_obj (registered : list string) (l : list obs) acc preds :
  for_fold l acc (λ all_predictions observable,
    _inst ← (if decide (obs_name observable ∈ registered)
             then Ok (obs_name observable)
             else Raise (KeyError (obs_name observable)));
    v ← prediction_par _inst pd wc_obj (obs_args observable);
    Ok (obs_dict_set observable v all_predictions)) = Ok preds →
  NoDup acc.*1 →
  NoDup preds.*1
  ∧ (∀ o, o ∈ preds.*1 ↔ o ∈ acc.*1 ∨ o ∈ l)
  ∧ (∀ o, o ∈ l →
       obs_name o ∈ registered
       ∧ ∃ v, prediction_par (obs_name o) pd wc_obj (obs_args o) = Ok v
              ∧ assoc_lookup o preds = Some v)
  ∧ (∀ o, o ∉ l → assoc_lookup o preds = assoc_lookup o acc).
Proof.
  revert acc. induction l as [|o l IH]; intros acc E Hnd; simpl in E.
  - injection E as <-. split; [done|]. split; [|split; [|done]].
    + intros o. split; [by left|]. intros [|Ho]; [done|by apply elem_of_nil in Ho].
    + intros o Ho. by apply elem_of_nil in Ho.
  - destruct (decide (obs_name o ∈ registered)) as [Hreg|]; [|done]. simpl in E.
    destruct (prediction_par (obs_name o) pd wc_obj (obs_args o)) as [v|] eqn:Hv;
      [|done].
    simpl in E. destruct (IH _ E) as (Hnd' & Hkeys & Hin & Hout).
    { rewrite obs_dict_set_keys. destruct (decide (o ∈ acc.*1)); [done|].
      apply NoDup_app. split; [done|]. split; [|apply NoDup_singleton].
      intros o' Ho' ->%list_elem_of_singleton. done. }
    split; [done|]. split; [|split].
    + intros o'. rewrite Hkeys, obs_dict_set_keys, elem_of_cons.
      destruct (decide (o ∈ acc.*1)) as [Ho|Ho].
      * split; [tauto|]. intros [|[->|]]; tauto.
      * rewrite elem_of_app, list_elem_of_singleton. tauto.
    + intros o' Ho'. destruct (decide (o' ∈ l)) as [Hl|Hl]; [by apply Hin|].
      apply elem_of_cons in Ho' as [->|]; [|done]. split; [done|].
      exists v. split; [done|]. by rewrite (Hout o Hl), assoc_lookup_obs_dict_set_eq.
    + intros o' Ho'. apply not_elem_of_cons in Ho' as [Hne Hl].
      by rewrite (Hout o' Hl), assoc_lookup_obs_dict_set_ne.
Qed.

(** When [get_predictions] returns, the keys of its dictionary are the
    observables of the fit, each once, and the value of an observable is
    what its prediction function returns on the dictionary of
    [get_par_dict], the Wilson coefficients of [get_wc_obj] and the extra
    arguments of the entry. *)
Theorem get_predictions_keys self (this : FitObject) snap w x preds :
  w_heap w !! self = Some (FitObj this) →
  w_heap w !! parameters_central this = Some (DictObj snap) →
  (get_predictions self x w).1 = Ok preds →
  NoDup preds.*1
  ∧ (∀ o, o ∈ preds.*1 ↔ o ∈ observables this)
  ∧ ∃ pd wc_obj,
      par_dict_of this snap x = Ok pd ∧ wc_obj_of this x = Ok wc_obj
      ∧ ∀ o, o ∈ observables this →
          obs_name o ∈ w_observables w
          ∧ ∃ v, prediction_par (obs_name o) pd wc_obj (obs_args o) = Ok v
                 ∧ assoc_lookup o preds = Some v.
Proof.
  intros Hself Hsnap E.
  rewrite (get_predictions_run self x w this snap Hself Hsnap) in E.
  unfold predictions_of in E.
  destruct (par_dict_of this snap x) as [pd|] eqn:Hpd; [|done]. simpl in E.
  destruct (wc_obj_of this x) as [wc_obj|] eqn:Hwc; [|done]. simpl in E.
  apply predictions_loop in E as (Hnd & Hkeys & Hin & _); [|apply NoDup_nil_2].
  split; [done|]. split.
  - intros o. rewrite Hkeys. split; [|by right].
    intros [Ho|Ho]; [by apply elem_of_nil in Ho|done].
  - by exists pd, wc_obj.
Qed.

(** ** The target is the sum of its three parts *)

Lemma log_prior_wilson_coeffs_run self x w (this : FitObject) priors :
  w_heap w !! self = Some (FitObj this) → wc_priors_in w this priors →
  (log_prior_wilson_coeffs self x w).1 = log_prior_wc_of this x priors.
Proof.
  intros Hself Hp. unfold log_prior_wilson_coeffs. rewrite enter_bind.
  rewrite (bind_Ok _ _ _ _ _ (load_fit_Ok self (set_calls _ w) this Hself)).
  unfold wc_priors_in in Hp. destruct (fit_wc_priors this) as [l|].
  - destruct Hp as (par & Hl & ->). simpl.
    destruct (array_to_dict this x) as [d|e];
      [rewrite lift_bind_Ok|by rewrite lift_bind_Raise].
    simpl. destruct (getkey d "fit_wc") as [wc_dict|e];
      [rewrite lift_bind_Ok|by rewrite lift_bind_Raise].
    rewrite (bind_Ok _ _ _ _ _ (load_params_Ok l (set_calls _ w) par Hl)). simpl.
    destruct (get_logprobability_all par wc_dict []) as [prob_dict|e];
      [by rewrite lift_bind_Ok|by rewrite lift_bind_Raise].
  - by subst priors.
Qed.

Lemma fit_in_frame_eval w w' self (this : FitObject) snap par :
  frame_eval w w' → fit_in w self this snap par → fit_in w' self this snap par.
Proof.
  intros Hf (H1 & H2 & H3).
  split; [|split]; by apply (frame_eval_lookup w w').
Qed.

Lemma wc_priors_in_frame_eval w w' (this : FitObject) priors :
  frame_eval w w' → wc_priors_in w this priors → wc_priors_in w' this priors.
Proof.
  intros Hf. unfold wc_priors_in. destruct (fit_wc_priors this) as [l|]; [|done].
  intros (par & Hl & ->). exists par. split; [|done].
  by apply (frame_eval_lookup w w').
Qed.

(** [log_target(x)] is the sum, from the left, of what [log_likelihood(x)],
    [log_prior_parameters(x)] and [log_prior_wilson_coeffs(x)] return when
    each is called on its own; it raises what the first of them to raise
    raises. *)
Theorem log_target_is_the_sum self (this : FitObject) snap par priors w x :
  fit_in w self this snap par → wc_priors_in w this priors →
  (log_target self x w).1
  = (ll ← (log_likelihood self x w).1;
     lp ← (log_prior_parameters self x w).1;
     lw ← (log_prior_wilson_coeffs self x w).1;
     Ok (PrimFloat.add (PrimFloat.add ll lp) lw)).
Proof.
  intros Hfit Hpri. pose proof Hfit as (Hself & Hsnap & Hpar).
  rewrite (log_likelihood_run self x w this snap Hself Hsnap).
  rewrite (log_prior_parameters_run self x w this snap par Hfit).
  rewrite (log_prior_wilson_coeffs_run self x w this priors Hself Hpri).
  unfold log_target. rewrite enter_bind.
  set (w0 := set_calls ("BayesianFit.log_target" :: w_calls w) w).
  assert (frame_eval w w0) as F0 by by apply frame_eval_same.
  pose proof (log_likelihood_run self x w0 this snap Hself Hsnap) as R1.
  pose proof (frame_eval_log_likelihood self x w0) as F1.
  destruct (log_likelihood self x w0) as [r1 w1] eqn:E1. simpl in R1, F1.
  rewrite <- R1. destruct r1 as [ll|e]; [|by rewrite (bind_Raise _ _ _ _ _ E1)].
  rewrite (bind_Ok _ _ _ _ _ E1). simpl.
  assert (frame_eval w w1) as Fw1 by by etrans.
  pose proof (log_prior_parameters_run self x w1 this snap par
                (fit_in_frame_eval w w1 _ _ _ _ Fw1 Hfit)) as R2.
  pose proof (frame_eval_log_prior_parameters self x w1) as F2.
  destruct (log_prior_parameters self x w1) as [r2 w2] eqn:E2. simpl in R2, F2.
  rewrite <- R2. destruct r2 as [lp|e]; [|by rewrite (bind_Raise _ _ _ _ _ E2)].
  rewrite (bind_Ok _ _ _ _ _ E2). simpl.
  assert (frame_eval w w2) as Fw2 by by etrans.
  pose proof (log_prior_wilson_coeffs_run self x w2 this priors
                (frame_eval_lookup w w2 _ _ Fw2 Hself)
                (wc_priors_in_frame_eval w w2 _ _ Fw2 Hpri)) as R3.
  destruct (log_prior_wilson_coeffs self x w2) as [r3 w3] eqn:E3. simpl in R3.
  rewrite <- R3. destruct r3 as [lw|e]; [|by rewrite (bind_Raise _ _ _ _ _ E3)].
  by rewrite (bind_Ok _ _ _ _ _ E3).
Qed.

(** ** The likelihood of a [FastFit] needs its pseudo-measurements *)

(** On a [FastFit] whose predictions can be computed, [log_likelihood]
    raises [KeyError] for the first relevant measurement when the
    pseudo-measurement of that measurement is not registered, as is the case
    before [make_measurement] has run. *)
Theorem FastFit_log_likelihood_needs_make_measurement self (this : FitObject)
    snap w x n rest :
  w_heap w !! self = Some (FitObj this) →
  w_heap w !! parameters_central this = Some (DictObj snap) →
  cls this = FastFitC →
  is_Ok (get_predictions self x w).1 = true →
  relevant_measurements this (w_measurements w) = n :: rest →
  w_pseudo_measurements w !! (name this +:+ n) = None →
  (log_likelihood self x w).1 = Raise (KeyError (name this +:+ n)).
Proof.
  intros Hself Hsnap Hc Hp Hrel Hnone.
  rewrite (log_likelihood_run self x w this snap Hself Hsnap).
  rewrite (get_predictions_run self x w this snap Hself Hsnap) in Hp.
  unfold log_likelihood_of. rewrite Hc.
  destruct (predictions_of this snap x (w_observables w)) as [preds|]; [|done].
  simpl. rewrite Hrel. simpl. by rewrite Hnone.
Qed.

(** ** The theory covariance *)

Lemma get_random_nuisance_parameters_run self w (this : FitObject) par :
  w_heap w !! self = Some (FitObj this) →
  w_heap w !! par_obj this = Some (ParamsObj par) →
  get_random_nuisance_parameters self w
  = (mapM (getkey (get_random_all par (w_rng w))) (nuisance_parameters this),
     set_rng (S (w_rng w))
       (set_calls ("Fit.get_random_nuisance_parameters" :: w_calls w) w)).
Proof.
  intros Hself Hpar. unfold get_random_nuisance_parameters. rewrite enter_bind.
  rewrite (bind_Ok _ _ _ _ _ (load_fit_Ok self (set_calls _ w) this Hself)).
  by rewrite (bind_Ok _ _ _ _ _ (load_params_Ok _ (set_calls _ w) par Hpar)).
Qed.

Lemma random_nuisance_dict_run self w (this : FitObject) par :
  w_heap w !! self = Some (FitObj this) →
  w_heap w !! par_obj this = Some (ParamsObj par) →
  random_nuisance_dict self (get_central_all par) w
  = (sampled_parameters this par (w_rng w),
     set_rng (S (w_rng w))
       (set_calls ("Fit.get_random_nuisance_parameters" :: w_calls w) w)).
Proof.
  intros Hself Hpar. unfold random_nuisance_dict, sampled_parameters.
  pose proof (get_random_nuisance_parameters_run self w this par Hself Hpar) as R.
  destruct (mapM (getkey (get_random_all par (w_rng w))) (nuisance_parameters this))
    as [arr|e]; [|by rewrite (bind_Raise _ _ _ _ _ R)].
  rewrite (bind_Ok _ _ _ _ _ R).
  rewrite (bind_Ok _ _ _ _ _ (load_fit_Ok self (set_rng _ (set_calls _ w)) this Hself)).
  simpl.
  destruct (dict_comprehension (nuisance_parameters this) arr 0 ∅) as [nuis|e];
    [by rewrite lift_bind_Ok|by rewrite lift_bind_Raise].
Qed.

Lemma sample_loop self (this : FitObject) par (l : list nat) w :
  w_heap w !! self = Some (FitObj this) →
  w_heap w !! par_obj this = Some (ParamsObj par) →
  ∃ w', mapM (λ _ : nat, random_nuisance_dict self (get_central_all par)) l w
          = (mapM (sampled_parameters this par) (seq (w_rng w) (length l)), w')
    ∧ w_heap w' = w_heap w ∧ w_observables w' = w_observables w
    ∧ w_pseudo_measurements w' = w_pseudo_measurements w
    ∧ (is_Ok (mapM (sampled_parameters this par) (seq (w_rng w) (length l))) = true →
       w_rng w' = w_rng w + length l).
Proof.
  revert w. induction l as [|i l IH]; intros w Hself Hpar.
  - exists w. simpl. repeat split; try done; try (intros _; lia).
  - pose proof (random_nuisance_dict_run self w this par Hself Hpar) as R.
    change (mapM (λ _ : nat, random_nuisance_dict self (get_central_all par)) (i :: l))
      with (y ← random_nuisance_dict self (get_central_all par);
            k ← mapM (λ _ : nat, random_nuisance_dict self (get_central_all par)) l;
            mret (y :: k)).
    change (mapM (sampled_parameters this par) (seq (w_rng w) (length (i :: l))))
      with (y ← sampled_parameters this par (w_rng w);
            k ← mapM (sampled_parameters this par) (seq (S (w_rng w)) (length l));
            mret (y :: k)).
    destruct (sampled_parameters this par (w_rng w)) as [y|e].
    2:{ rewrite (bind_Raise _ _ _ _ _ R). eexists. split; [done|].
        repeat split; done. }
    rewrite (bind_Ok _ _ _ _ _ R).
    destruct (IH (set_rng (S (w_rng w))
                    (set_calls ("Fit.get_random_nuisance_parameters" :: w_calls w) w)))
      as (w' & E & Hh & Ho & Hp & Hr); [done|done|]. simpl in E, Hh, Ho, Hp, Hr.
    destruct (mapM (sampled_parameters this par) (seq (S (w_rng w)) (length l)))
      as [k|e].
    + rewrite (bind_Ok _ _ _ _ _ E). exists w'. split; [done|].
      split; [done|]. split; [done|]. split; [done|].
      intros _. rewrite Hr by done. simpl. lia.
    + rewrite (bind_Raise _ _ _ _ _ E). exists w'. split; [done|].
      repeat split; done.
Qed.

Lemma mapM_reads_run {A B} (body : A → M B) (g : A → Result B) (l : list A) w :
  (∀ x, body x w = (g x, w)) → mapM body l w = (mapM g l, w).
Proof.
  intros Hb. induction l as [|x l IH]; [done|].
  change (mapM body (x :: l)) with (y ← body x; k ← mapM body l; mret (y :: k)).
  change (mapM g (x :: l)) with (y ← g x; k ← mapM g l; mret (y :: k)).
  pose proof (Hb x) as Hx.
  destruct (g x) as [y|e]; [|by rewrite (bind_Raise _ _ _ _ _ Hx)].
  rewrite (bind_Ok _ _ _ _ _ Hx).
  destruct (mapM g l) as [k|e];
    [by rewrite (bind_Ok _ _ _ _ _ IH)|by rewrite (bind_Raise _ _ _ _ _ IH)].
Qed.

Lemma _get_covariance_sm_run self N w (this : FitObject) par :
  w_heap w !! self = Some (FitObj this) →
  w_heap w !! par_obj this = Some (ParamsObj par) →
  ∃ w', _get_covariance_sm self N w
          = (covariance_sm_of this par (w_observables w) N (w_rng w), w')
    ∧ w_heap w' = w_heap w ∧ w_observables w' = w_observables w
    ∧ w_pseudo_measurements w' = w_pseudo_measurements w
    ∧ (is_Ok (covariance_sm_of this par (w_observables w) N (w_rng w)) = true →
       w_rng w' = w_rng w + N).
Proof.
  intros Hself Hpar. unfold _get_covariance_sm, covariance_sm_of. rewrite enter_bind.
  set (w0 := set_calls ("FastFit._get_covariance_sm" :: w_calls w) w).
  rewrite (bind_Ok _ _ _ _ _ (load_fit_Ok self w0 this Hself)).
  rewrite (bind_Ok _ _ _ _ _ (load_params_Ok _ w0 par Hpar)).
  destruct (sample_loop self this par (seq 0 N) w0 Hself Hpar)
    as (w' & E & Hh & Ho & Hp & Hr).
  rewrite length_seq in E, Hr. simpl in E, Hh, Ho, Hp, Hr.
  destruct (mapM (sampled_parameters this par) (seq (w_rng w) N)) as [par_random|e].
  2:{ rewrite (bind_Raise _ _ _ _ _ E). exists w'. repeat split; done. }
  rewrite (bind_Ok _ _ _ _ _ E). simpl.
  set (g := λ observable : obs,
       _inst ← (if decide (obs_name observable ∈ w_observables w)
                then Ok (obs_name observable)
                else Raise (KeyError (obs_name observable)));
       mapM (λ p, prediction_par _inst p {| wc_initial := None |} (obs_args observable))
            par_random).
  assert (mapM (λ observable : obs,
       _inst ← Observable_get_instance (obs_name observable);
       lift (mapM (λ p, prediction_par _inst p {| wc_initial := None |}
                          (obs_args observable)) par_random)) (observables this) w'
          = (mapM g (observables this), w')) as R.
  { apply mapM_reads_run. intros o. rewrite Observable_get_instance_bind, Ho.
    unfold g. destruct (decide (obs_name o ∈ w_observables w));
      [by rewrite lift_bind_Ok|by rewrite lift_bind_Raise]. }
  exists w'.
  split; [|split; [done|]; split; [done|]; split; [done|]; intros _; by apply Hr].
  destruct (mapM g (observables this)) as [pred_arr|e];
    [by rewrite (bind_Ok _ _ _ _ _ R)|by rewrite (bind_Raise _ _ _ _ _ R)].
Qed.

Lemma fit_in_with_snapshot w self (this : FitObject) snap par snap' :
  fit_in w self this snap par →
  fit_in (with_snapshot (parameters_central this) snap' w) self this snap' par.
Proof.
  intros (H1 & H2 & H3). unfold fit_in, with_snapshot. simpl.
  split; [|split].
  - rewrite list_lookup_insert_ne; [done|congruence].
  - apply list_lookup_insert_eq. by eapply lookup_lt_Some.
  - rewrite list_lookup_insert_ne; [done|congruence].
Qed.

(** [_get_covariance_sm(N)] samples with the parameter registry as it is at
    the time of the call: its result is the covariance of the predictions on
    [N] consecutive draws of the nuisance parameters over the current
    central values of the registry.  The snapshot of the fit is not read.
    When it returns, [N] draws have been taken. *)
Theorem covariance_sm_follows_the_registry w self (this : FitObject) snap par N :
  fit_in w self this snap par →
  (_get_covariance_sm self N w).1
    = covariance_sm_of this par (w_observables w) N (w_rng w)
  ∧ (∀ snap',
       (_get_covariance_sm self N (with_snapshot (parameters_central this) snap' w)).1
       = (_get_covariance_sm self N w).1)
  ∧ (∀ par',
       (_get_covariance_sm self N (with_registry (par_obj this) par' w)).1
       = covariance_sm_of this par' (w_observables w) N (w_rng w))
  ∧ (is_Ok (_get_covariance_sm self N w).1 = true →
     w_rng (_get_covariance_sm self N w).2 = w_rng w + N).
Proof.
  intros Hfit. pose proof Hfit as (Hself & Hsnap & Hpar).
  destruct (_get_covariance_sm_run self N w this par Hself Hpar)
    as (w' & E & _ & _ & _ & Hr).
  split; [by rewrite E|]. split; [|split].
  - intros snap'.
    destruct (fit_in_with_snapshot w self this snap par snap' Hfit) as (Hself' & _ & Hpar').
    destruct (_get_covariance_sm_run self N _ this par Hself' Hpar') as (w2 & E2 & _).
    by rewrite E2, E.
  - intros par'.
    destruct (fit_in_with_registry w self this snap par par' Hfit) as (Hself' & _ & Hpar').
    destruct (_get_covariance_sm_run self N _ this par' Hself' Hpar') as (w2 & E2 & _).
    by rewrite E2.
  - rewrite E. simpl. exact Hr.
Qed.

(** ** What [make_measurement] registers *)

Lemma add_theory_uncertainty_run self (this : FitObject) ms cov pm c ps pm0 w :
  fit_at self this ms w → w_pseudo_measurements w !! pm = Some pm0 →
  add_theory_uncertainty self cov pm (c, ps) w
  = match theory_constraint this cov c ps with
    | Ok constraint_th =>
        (Ok tt,
         set_pseudo_measurements
           (<[pm := add_constraint pm0 ps (convolve_distributions [c; constraint_th])]>
              (w_pseudo_measurements w)) w)
    | Raise e => (Raise e, w)
    end.
Proof.
  intros [Hh Hm] Hpm. unfold add_theory_uncertainty.
  rewrite (bind_Ok _ _ _ _ _ (load_fit_Ok self w this Hh)).
  destruct (theory_constraint this cov c ps) as [th|e];
    [rewrite lift_bind_Ok|by rewrite lift_bind_Raise].
  unfold pseudo_add_constraint.
  by rewrite PseudoMeasurement_get_instance_bind, Hpm, lift_bind_Ok.
Qed.

Lemma blocks_loop self (this : FitObject) ms cov pm blocks pm0 w :
  fit_at self this ms w → w_pseudo_measurements w !! pm = Some pm0 →
  match combine_blocks this cov blocks pm0 with
  | Ok pmf =>
      ∃ w', for_ blocks (add_theory_uncertainty self cov pm) w = (Ok tt, w')
        ∧ fit_at self this ms w'
        ∧ w_pseudo_measurements w' = <[pm := pmf]> (w_pseudo_measurements w)
  | Raise e => ∃ w', for_ blocks (add_theory_uncertainty self cov pm) w = (Raise e, w')
  end.
Proof.
  revert pm0 w. induction blocks as [|[c ps] blocks IH]; intros pm0 w Hw Hpm.
  - simpl. exists w. split; [done|]. split; [done|]. by rewrite insert_id.
  - unfold combine_blocks. simpl.
    pose proof (add_theory_uncertainty_run self this ms cov pm c ps pm0 w Hw Hpm) as R.
    destruct (theory_constraint this cov c ps) as [th|e]; simpl.
    2:{ exists w. by rewrite (bind_Raise _ _ _ _ _ R). }
    rewrite (bind_Ok _ _ _ _ _ R).
    specialize (IH (add_constraint pm0 ps (convolve_distributions [c; th]))
                   (set_pseudo_measurements
                      (<[pm := add_constraint pm0 ps (convolve_distributions [c; th])]>
                         (w_pseudo_measurements w)) w)).
    unfold combine_blocks in IH.
    destruct (for_fold blocks _ _) as [pmf|e].
    + destruct IH as (w' & E & Hw' & Hp); [by destruct Hw|by apply lookup_insert_eq|].
      exists w'. split; [done|]. split; [done|].
      rewrite Hp. simpl. apply insert_insert_eq.
    + apply IH; [by destruct Hw|by apply lookup_insert_eq].
Qed.

Lemma make_pseudo_measurement_run self (this : FitObject) ms cov n m w :
  fit_at self this ms w → assoc_lookup n ms = Some m →
  match pseudo_measurement_of this cov m with
  | Ok pmf =>
      ∃ w', make_pseudo_measurement self cov n w = (Ok tt, w')
        ∧ fit_at self this ms w'
        ∧ w_pseudo_measurements w'
          = <[name this +:+ n := pmf]> (w_pseudo_measurements w)
  | Raise e => ∃ w', make_pseudo_measurement self cov n w = (Raise e, w')
  end.
Proof.
  intros Hw Hn. unfold make_pseudo_measurement. pose proof Hw as [Hh Hm].
  rewrite (bind_Ok _ _ _ _ _ (Measurement_get_instance_Ok n m w ltac:(by rewrite Hm))).
  cbv beta. rewrite (bind_Ok _ _ _ _ _ (load_fit_Ok self w this Hh)). cbv beta.
  match goal with |- context [mbind ?f (modify ?g) w] =>
    rewrite (bind_Ok (modify g) f w tt (g w)) by done end.
  cbv beta.
  pose proof (blocks_loop self this ms cov (name this +:+ n) (_constraints m)
                empty_measurement
                (set_pseudo_measurements
                   (<[name this +:+ n := empty_measurement]> (w_pseudo_measurements w)) w))
    as L.
  unfold pseudo_measurement_of. destruct (combine_blocks _ _ _ _) as [pmf|e].
  - destruct L as (w' & E & Hw' & Hp); [done|by apply lookup_insert_eq|].
    exists w'. split; [done|]. split; [done|]. rewrite Hp. simpl.
    apply insert_insert_eq.
  - apply L; [done|by apply lookup_insert_eq].
Qed.

Lemma assoc_lookup_is_Some {V} (n : string) (v : V) l :
  (n, v) ∈ l → is_Some (assoc_lookup n l).
Proof.
  induction l as [|[n' v'] l IH]; intros Hin; [by apply elem_of_nil in Hin|].
  simpl. destruct (decide (n = n')); [done|]. apply IH.
  apply elem_of_cons in Hin as [[= -> ->]|Hin]; done.
Qed.

Lemma relevant_measurements_registered (this : FitObject)
    (ms : list (string * Measurement)) n :
  n ∈ relevant_measurements this ms → is_Some (assoc_lookup n ms).
Proof.
  intros Hn.
  assert (n ∈ (filter (λ m, isdisjoint (set_of (all_parameters m.2)) (observables this)
                             = false) ms).*1) as Hall.
  { unfold relevant_measurements in Hn.
    destruct (exclude_measurements this) as [excl|];
      [|destruct (include_measurements this) as [incl|]].
    - rewrite elem_of_set_diff, elem_of_set_of in Hn. tauto.
    - rewrite elem_of_set_inter, elem_of_set_of in Hn. tauto.
    - done. }
  apply elem_of_all_measurements in Hall as (m & _ & Hm & _).
  by apply (assoc_lookup_is_Some n m).
Qed.

Lemma measurements_loop self (this : FitObject) ms cov names w w' :
  (∀ n, n ∈ names → is_Some (assoc_lookup n ms)) →
  fit_at self this ms w →
  for_ names (make_pseudo_measurement self cov) w = (Ok tt, w') →
  (∀ n, n ∈ names →
     ∃ m pm, assoc_lookup n ms = Some m ∧ pseudo_measurement_of this cov m = Ok pm
       ∧ w_pseudo_measurements w' !! (name this +:+ n) = Some pm)
  ∧ (∀ key, (∀ n, n ∈ names → key ≠ name this +:+ n) →
       w_pseudo_measurements w' !! key = w_pseudo_measurements w !! key).
Proof.
  revert w. induction names as [|n names IH]; intros w Hreg Hw E.
  - injection E as <-. split; [|done]. intros n Hn. by apply elem_of_nil in Hn.
  - simpl in E. apply bind_inv_Ok in E as ([] & w1 & E1 & E).
    destruct (Hreg n) as [m Hm]; [left|].
    pose proof (make_pseudo_measurement_run self this ms cov n m w Hw Hm) as R.
    destruct (pseudo_measurement_of this cov m) as [pmf|e] eqn:Hpm.
    2:{ destruct R as (w2 & R). rewrite R in E1. discriminate E1. }
    destruct R as (w2 & R & Hw2 & Hp). rewrite R in E1. injection E1 as <-.
    destruct (IH w2) as (Hin & Hout); [intros; apply Hreg; by right|done|done|].
    split.
    + intros n' Hn'. destruct (decide (n' ∈ names)) as [Hl|Hl]; [by apply Hin|].
      apply elem_of_cons in Hn' as [->|]; [|done].
      exists m, pmf. split; [done|]. split; [done|].
      rewrite Hout, Hp; [by apply lookup_insert_eq|].
      intros n'' Hn'' Heq. apply (inj (String.append (name this))) in Heq.
      by subst n''.
    + intros key Hkey. rewrite Hout by (intros; apply Hkey; by right).
      rewrite Hp. apply lookup_insert_ne. intros Heq. by apply (Hkey n); [left|].
Qed.

(** [make_measurement] returns when the sampling of the theory covariance
    succeeds and the theory distribution of every block of every relevant
    measurement can be built.  When it returns, every relevant measurement
    has its pseudo-measurement, registered under the name of the fit
    followed by the name of the measurement: it holds, block after block of
    the measurement, the experimental constraint convolved with its theory
    distribution, and nothing of a pseudo-measurement that had that name
    before.  The other pseudo-measurements are as they were. *)
Theorem make_measurement_registers self (this : FitObject) par w N Nexp :
  w_heap w !! self = Some (FitObj this) →
  w_heap w !! par_obj this = Some (ParamsObj par) →
  (∀ cov, (_get_covariance_sm self N w).1 = Ok cov →
     measurements_complete this cov w (relevant_measurements this (w_measurements w)) →
     ∃ w', make_measurement self N Nexp w = (Ok tt, w'))
  ∧ (∀ w', make_measurement self N Nexp w = (Ok tt, w') →
       ∃ cov, (_get_covariance_sm self N w).1 = Ok cov
         ∧ (∀ n, n ∈ relevant_measurements this (w_measurements w) →
              ∃ m pm, assoc_lookup n (w_measurements w) = Some m
                ∧ pseudo_measurement_of this cov m = Ok pm
                ∧ w_pseudo_measurements w' !! (name this +:+ n) = Some pm)
         ∧ (∀ key,
              (∀ n, n ∈ relevant_measurements this (w_measurements w) →
                    key ≠ name this +:+ n) →
              w_pseudo_measurements w' !! key = w_pseudo_measurements w !! key)).
Proof.
  intros Hself Hpar.
  destruct (_get_covariance_sm_run self N w this par Hself Hpar) as (w1 & E1 & _).
  destruct (_get_covariance_sm_run self N
              (set_calls ("FastFit.make_measurement" :: w_calls w) w) this par Hself Hpar)
    as (w2 & E2 & Hh2 & _ & Hp2 & _).
  simpl in E2, Hh2, Hp2. rewrite E1. simpl.
  destruct (covariance_sm_of this par (w_observables w) N (w_rng w)) as [cov|e].
  2:{ split; [done|]. intros w' E. unfold make_measurement in E.
      rewrite enter_bind, (bind_Raise _ _ _ _ _ E2) in E. discriminate E. }
  destruct (make_measurement_eq self this N Nexp w cov w2 Hself E2) as [Hw2 ->].
  split.
  - intros cov' [= <-] Hc.
    destruct (for_all_Ok (fit_at self this (w_measurements w))
                (relevant_measurements this (w_measurements w))
                (make_pseudo_measurement self cov)
                (set_calls ("Fit.get_measurements" :: w_calls w2) w2))
      as (w' & E & _); [by destruct Hw2| |by exists w'].
    intros n w3 Hn Hw3. unfold measurements_complete in Hc.
    rewrite Forall_forall in Hc. destruct (Hc n Hn) as (m & Hm & Hb).
    by eapply make_pseudo_measurement_Ok.
  - intros w' E. exists cov. split; [done|].
    apply (measurements_loop self this (w_measurements w) cov _ _ w') in E;
      [|by intros n Hn; apply (relevant_measurements_registered this)
       |by destruct Hw2].
    simpl in E. by rewrite Hp2 in E.
Qed.

(** ** A fit with one observable *)

Lemma theory_constraint_scalar_never (this : FitObject) v c ps :
  is_Ok (theory_constraint this (Arr0 v) c ps) = false.
Proof.
  unfold theory_constraint.
  by destruct (mapM (list_index repr_obs (observables this)) ps).
Qed.

Lemma positions_total (this : FitObject) ps :
  (∀ p, p ∈ ps → p ∈ observables this) →
  ∃ ppos, mapM (list_index repr_obs (observables this)) ps = Ok ppos
    ∧ length ppos = length ps
    ∧ ∀ a p, ps !! a = Some p →
        ∃ i, ppos !! a = Some i ∧ observables this !! i = Some p.
Proof.
  induction ps as [|p ps IH]; intros Hin.
  - exists []. done.
  - destruct (list_index_Ok repr_obs (observables this) p) as (i & Hi & Hl);
      [apply Hin; left|].
    destruct IH as (ppos & E & Hlen & Hpos); [intros; apply Hin; by right|].
    exists (i :: ppos). simpl. rewrite Hi. simpl. rewrite E. simpl.
    split; [done|]. split; [by rewrite Hlen|].
    intros [|a] q Hq; simpl in *; [injection Hq as <-; eauto|by apply Hpos].
Qed.

Lemma theory_constraint_scalar (this : FitObject) v c ps :
  (∀ p, p ∈ ps → p ∈ observables this) →
  theory_constraint this (Arr0 v) c ps
    = Raise (IndexError "too many indices for array").
Proof.
  intros Hin. unfold theory_constraint.
  destruct (positions_total this ps Hin) as (ppos & -> & _). done.
Qed.

Lemma covariance_sm_of_shape (this : FitObject) par registered N k cov :
  covariance_sm_of this par registered N k = Ok cov →
  ∃ rows, cov = np_cov rows ∧ length rows = length (observables this).
Proof.
  unfold covariance_sm_of. intros E.
  destruct (mapM (sampled_parameters this par) (seq k N)) as [par_random|]; [|done].
  simpl in E. destruct (mapM _ (observables this)) as [rows|] eqn:Er; [|done].
  injection E as <-. exists rows. split; [done|]. by apply mapM_Ok_length in Er.
Qed.

(** [np.cov] of a single variable is an array of dimension zero, which
    cannot be indexed.  So on a [FastFit] with exactly one observable,
    [make_measurement] never returns when a relevant measurement has a
    constraint block: for a block within the observable of the fit, the
    selection of the covariance raises [IndexError]. *)
Theorem single_observable_fit_cannot_make_measurement self (this : FitObject)
    par w N Nexp o n m c ps :
  w_heap w !! self = Some (FitObj this) →
  w_heap w !! par_obj this = Some (ParamsObj par) →
  observables this = [o] →
  (∀ row, ∃ v, np_cov [row] = Arr0 v) →
  relevant_block this w n m c ps →
  is_Ok (make_measurement self N Nexp w).1 = false
  ∧ ∀ cov, (_get_covariance_sm self N w).1 = Ok cov →
      (∀ p, p ∈ ps → p ∈ observables this) →
      theory_constraint this cov c ps
        = Raise (IndexError "too many indices for array").
Proof.
  intros Hself Hpar Hobs Hcov (Hn & Hm & Hc).
  assert (∀ reg k cov, covariance_sm_of this par reg N k = Ok cov → ∃ v, cov = Arr0 v)
    as Hshape.
  { intros reg k cov E. apply covariance_sm_of_shape in E as (rows & -> & Hl).
    rewrite Hobs in Hl. destruct rows as [|row [|? ?]]; try done; apply Hcov. }
  split.
  - destruct (_get_covariance_sm_run self N
                (set_calls ("FastFit.make_measurement" :: w_calls w) w) this par Hself Hpar)
      as (w2 & E2 & _).
    destruct (covariance_sm_of this par _ N _) as [cov|e] eqn:Ec.
    + destruct (Hshape _ _ _ Ec) as [v ->].
      destruct (make_measurement_eq self this N Nexp w (Arr0 v) w2 Hself E2) as [Hw2 ->].
      pose proof (theory_constraint_scalar_never this v c ps) as Hnever.
      destruct (theory_constraint this (Arr0 v) c ps) as [|e] eqn:Et; [done|].
      apply (for_never_Ok (fit_at self this (w_measurements w)) _ n); [done| | |].
      * destruct Hw2. by split.
      * intros y w1 Hw1. eapply fit_at_frame; [|done].
        apply frame_make_pseudo_measurement.
      * intros w1 Hw1. by eapply make_pseudo_measurement_never_Ok.
    + unfold make_measurement. rewrite enter_bind.
      by rewrite (bind_Raise _ _ _ _ _ E2).
  - intros cov Ecov Hin.
    destruct (_get_covariance_sm_run self N w this par Hself Hpar) as (w1 & E1 & _).
    rewrite E1 in Ecov. simpl in Ecov. destruct (Hshape _ _ _ Ecov) as [v ->].
    by apply theory_constraint_scalar.
Qed.

(** ** What [make_measurement] leaves alone *)

Global Instance same_objects_preorder : PreOrder same_objects.
Proof.
  split.
  - intros w. by repeat split.
  - intros w1 w2 w3 (H1 & H2 & H3 & H4) (H1' & H2' & H3' & H4').
    repeat split; congruence.
Qed.

Lemma keeps_same_objects_enter method : keeps same_objects (enter method).
Proof. intros w. by repeat split. Qed.
Lemma keeps_same_objects_next_draw : keeps same_objects next_draw.
Proof. intros w. by repeat split. Qed.
Lemma keeps_same_objects_set_pseudo (f : World → gmap string Measurement) :
  keeps same_objects (modify (λ w, set_pseudo_measurements (f w) w)).
Proof. intros w. by repeat split. Qed.
Hint Resolve keeps_same_objects_enter keeps_same_objects_next_draw
  keeps_same_objects_set_pseudo : keeps.

Lemma keeps_same_objects_make_measurement self N Nexp :
  keeps same_objects (make_measurement self N Nexp).
Proof.
  unfold make_measurement, _get_covariance_sm, random_nuisance_dict,
    get_random_nuisance_parameters, get_measurements, make_pseudo_measurement,
    add_theory_uncertainty, pseudo_add_constraint, PseudoMeasurement_get_instance,
    Measurement_get_instance.
  solve_keeps.
Qed.

(** Neither [make_measurement] nor [_get_central_covariance_experiment]
    allocates or changes an object (the fit, its snapshot and the parameter
    registry among them), or changes the registries of observables, of
    measurements and of fits, whether they return or raise; the latter
    registers no pseudo-measurement either. *)
Theorem sampling_keeps_the_objects self N Nexp w :
  same_objects w (make_measurement self N Nexp w).2
  ∧ same_objects w (_get_central_covariance_experiment self Nexp w).2
  ∧ w_pseudo_measurements (_get_central_covariance_experiment self Nexp w).2
    = w_pseudo_measurements w.
Proof.
  split; [|split].
  - apply keeps_same_objects_make_measurement.
  - revert w. change (keeps same_objects (_get_central_covariance_experiment self Nexp)).
    unfold _get_central_covariance_experiment, get_measurements,
      Measurement_get_instance.
    solve_keeps.
  - revert w.
    change (keeps (λ w w', w_pseudo_measurements w' = w_pseudo_measurements w)
              (_get_central_covariance_experiment self Nexp)).
    assert (PreOrder (λ w w' : World,
              w_pseudo_measurements w' = w_pseudo_measurements w)) as Hpre.
    { split; [by intros w|]. intros w1 w2 w3 H1 H2. congruence. }
    assert (∀ method,
              keeps (λ w w', w_pseudo_measurements w' = w_pseudo_measurements w)
                    (enter method)) as Henter by by intros method w.
    assert (keeps (λ w w', w_pseudo_measurements w' = w_pseudo_measurements w)
                  next_draw) as Hdraw by by intros w.
    unfold _get_central_covariance_experiment, get_measurements,
      Measurement_get_instance.
    solve_keeps.
Qed.

(** ** A random point *)

Lemma get_random_fit_parameters_run self w (this : FitObject) par :
  w_heap w !! self = Some (FitObj this) →
  w_heap w !! par_obj this = Some (ParamsObj par) →
  get_random_fit_parameters self w
  = (mapM (getkey (get_random_all par (w_rng w))) (fit_parameters this),
     set_rng (S (w_rng w))
       (set_calls ("Fit.get_random_fit_parameters" :: w_calls w) w)).
Proof.
  intros Hself Hpar. unfold get_random_fit_parameters. rewrite enter_bind.
  rewrite (bind_Ok _ _ _ _ _ (load_fit_Ok self (set_calls _ w) this Hself)).
  by rewrite (bind_Ok _ _ _ _ _ (load_params_Ok _ (set_calls _ w) par Hpar)).
Qed.

Lemma get_random_wilson_coeffs_run self w (this : FitObject) priors :
  w_heap w !! self = Some (FitObj this) → wc_priors_in w this priors →
  get_random_wilson_coeffs self w
  = match priors with
    | None => (Ok None, set_calls ("Fit.get_random_wilson_coeffs" :: w_calls w) w)
    | Some pri =>
        (Some <$> mapM (getkey (get_random_all pri (w_rng w))) (fit_wc_names this),
         set_rng (S (w_rng w))
           (set_calls ("Fit.get_random_wilson_coeffs" :: w_calls w) w))
    end.
Proof.
  intros Hself Hp. unfold get_random_wilson_coeffs. rewrite enter_bind.
  rewrite (bind_Ok _ _ _ _ _ (load_fit_Ok self (set_calls _ w) this Hself)).
  unfold wc_priors_in in Hp. destruct (fit_wc_priors this) as [l|].
  - destruct Hp as (pri & Hl & ->).
    rewrite (bind_Ok _ _ _ _ _ (load_params_Ok l (set_calls _ w) pri Hl)).
    unfold next_draw, mbind, M_bind, lift. simpl.
    by destruct (mapM _ (fit_wc_names this)).
  - by subst priors.
Qed.

Lemma setslice_end_scalar (pre mid : list float) v :
  setslice (pre ++ mid) (length pre) None [v] = Ok (pre ++ replicate (length mid) v).
Proof.
  unfold setslice. simpl. rewrite !length_app.
  replace (length pre `min` (length pre + length mid)) with (length pre) by lia.
  replace (length pre + length mid - length pre) with (length mid) by lia.
  rewrite take_app_length.
  replace (drop (length pre + length mid) (pre ++ mid)) with (@nil float).
  2:{ symmetry. apply drop_ge. rewrite length_app. lia. }
  rewrite !app_nil_r. destruct (decide (1 = length mid)) as [<-|]; done.
Qed.

(** A random point of a fit that has its dimension: the entries of the fit
    parameters come from one draw of the parameter registry and those of the
    nuisance parameters from the next draw; the entries of the couplings
    come from a draw of their priors, and are NaN when the fit has no
    priors for the couplings. *)
Theorem get_random_draws self (this : FitObject) par priors w :
  w_heap w !! self = Some (FitObj this) →
  w_heap w !! par_obj this = Some (ParamsObj par) →
  wc_priors_in w this priors →
  dimension this = Some (length (fit_parameters this)
                         + length (nuisance_parameters this)
                         + length (fit_wc_names this)) →
  (∀ p, p ∈ fit_parameters this → is_Some (get_random_all par (w_rng w) !! p)) →
  (∀ p, p ∈ nuisance_parameters this →
        is_Some (get_random_all par (S (w_rng w)) !! p)) →
  (∀ pri p, priors = Some pri → p ∈ fit_wc_names this →
            is_Some (get_random_all pri (S (S (w_rng w))) !! p)) →
  ∃ arr, (BayesianFit_get_random self w).1 = Ok arr
    ∧ length arr = length (fit_parameters this) + length (nuisance_parameters this)
                   + length (fit_wc_names this)
    ∧ (∀ i p, fit_parameters this !! i = Some p →
         arr !! i = get_random_all par (w_rng w) !! p)
    ∧ (∀ i p, nuisance_parameters this !! i = Some p →
         arr !! (length (fit_parameters this) + i)
           = get_random_all par (S (w_rng w)) !! p)
    ∧ (∀ i p, fit_wc_names this !! i = Some p →
         arr !! (length (fit_parameters this) + length (nuisance_parameters this) + i)
           = match priors with
             | Some pri => get_random_all pri (S (S (w_rng w))) !! p
             | None => Some nan
             end).
Proof.
  intros Hself Hpar Hpri Hdim K1 K2 K3.
  destruct (mapM_getkey_total (get_random_all par (w_rng w)) (fit_parameters this) K1)
    as (v1 & E1 & L1 & H1).
  destruct (mapM_getkey_total (get_random_all par (S (w_rng w)))
              (nuisance_parameters this) K2) as (v2 & E2 & L2 & H2).
  assert (∃ v3,
    (match priors with
     | Some pri =>
         Some <$> mapM (getkey (get_random_all pri (S (S (w_rng w)))))
                       (fit_wc_names this)
     | None => Ok None
     end) = Ok v3
    ∧ ∃ c, setslice (v1 ++ v2 ++ replicate (length (fit_wc_names this)) 0%float)
             (length (fit_parameters this) + length (nuisance_parameters this))
             None (stored_values v3) = Ok (v1 ++ v2 ++ c)
        ∧ length c = length (fit_wc_names this)
        ∧ ∀ i p, fit_wc_names this !! i = Some p →
            c !! i = match priors with
                     | Some pri => get_random_all pri (S (S (w_rng w))) !! p
                     | None => Some nan
                     end) as (v3 & E3 & c & S3 & L3 & H3).
  { destruct priors as [pri|].
    - destruct (mapM_getkey_total (get_random_all pri (S (S (w_rng w))))
                  (fit_wc_names this)) as (v3 & E3 & L3 & H3); [intros p Hp; by apply K3|].
      exists (Some v3). rewrite E3. split; [done|]. exists v3. simpl.
      pose proof (setslice_end (v1 ++ v2)
                    (replicate (length (fit_wc_names this)) 0%float) v3) as S3.
      rewrite length_replicate, length_app, L1, L2, <- app_assoc in S3.
      rewrite S3 by done. by rewrite <- app_assoc.
    - exists None. split; [done|].
      exists (replicate (length (fit_wc_names this)) nan). simpl.
      pose proof (setslice_end_scalar (v1 ++ v2)
                    (replicate (length (fit_wc_names this)) 0%float) nan) as S3.
      rewrite length_replicate, length_app, L1, L2, <- app_assoc in S3.
      rewrite S3, <- app_assoc. split; [done|].
      split; [by rewrite length_replicate|].
      intros i p Hp. apply lookup_replicate_2. by eapply lookup_lt_Some. }
  exists (v1 ++ v2 ++ c). split.
  - unfold BayesianFit_get_random. rewrite enter_bind.
    set (w0 := set_calls ("BayesianFit.get_random" :: w_calls w) w).
    rewrite (bind_Ok _ _ _ _ _ (load_fit_Ok self w0 this Hself)).
    rewrite Hdim, lift_bind_Ok.
    pose proof (get_random_fit_parameters_run self w0 this par Hself Hpar) as R1.
    simpl in R1. rewrite E1 in R1. rewrite (bind_Ok _ _ _ _ _ R1).
    unfold np_zeros. rewrite <- Nat.add_assoc, !replicate_add.
    set (z1 := replicate (length (fit_parameters this)) 0%float).
    set (z2 := replicate (length (nuisance_parameters this)) 0%float).
    set (z3 := replicate (length (fit_wc_names this)) 0%float) in *.
    assert (Hz1 : length z1 = length (fit_parameters this)) by apply length_replicate.
    assert (Hz2 : length z2 = length (nuisance_parameters this)) by apply length_replicate.
    pose proof (setslice_middle [] z1 (z2 ++ z3) v1 ltac:(lia)) as S1.
    simpl in S1. rewrite Hz1 in S1. rewrite S1, lift_bind_Ok.
    match goal with |- context [mbind _ (get_random_nuisance_parameters self) ?w1] =>
      pose proof (get_random_nuisance_parameters_run self w1 this par Hself Hpar) as R2
    end.
    simpl in R2. rewrite E2 in R2. rewrite (bind_Ok _ _ _ _ _ R2).
    pose proof (setslice_middle v1 z2 z3 v2 ltac:(lia)) as S2.
    rewrite L1, Hz2 in S2. rewrite S2, lift_bind_Ok.
    match goal with |- context [mbind _ (get_random_wilson_coeffs self) ?w2] =>
      pose proof (get_random_wilson_coeffs_run self w2 this priors Hself Hpri) as R3;
      change (w_rng w2) with (S (S (w_rng w))) in R3;
      assert (∃ w3, get_random_wilson_coeffs self w2 = (Ok v3, w3)) as (w3 & R3')
    end.
    { destruct priors as [pri|]; rewrite R3; cbv iota in E3;
        [rewrite E3|injection E3 as <-]; by eexists. }
    rewrite (bind_Ok _ _ _ _ _ R3'). by rewrite S3, lift_bind_Ok.
  - split; [rewrite !length_app; lia|]. split; [|split].
    + intros i p Hp. rewrite lookup_app_l by (rewrite L1; by eapply lookup_lt_Some).
      by apply H1.
    + intros i p Hp. rewrite <- L1, lookup_app_r by lia.
      replace (length v1 + i - length v1) with i by lia.
      rewrite lookup_app_l by (rewrite L2; by eapply lookup_lt_Some).
      by apply H2.
    + intros i p Hp. rewrite <- L1, <- L2, lookup_app_r by lia.
      replace (length v1 + length v2 + i - length v1) with (length v2 + i) by lia.
      rewrite lookup_app_r by lia.
      replace (length v2 + i - length v2) with i by lia.
      by apply H3.
Qed.

(** ** The theory distribution of a regular block *)

Lemma mapM_Ok_inv {A B} (f : A → Result B) l l' :
  mapM f l = Ok l' →
  length l' = length l
  ∧ ∀ a x, l !! a = Some x → ∃ y, f x = Ok y ∧ l' !! a = Some y.
Proof.
  revert l'. induction l as [|x l IH]; intros l' E; simpl in E.
  - injection E as <-. split; [done|]. intros a x Hx. done.
  - destruct (f x) as [y|] eqn:Hy; simpl in E; [|done].
    destruct (mapM f l) as [k|]; simpl in E; [|done].
    injection E as <-. destruct (IH k eq_refl) as [Hl Hk].
    split; [simpl; by rewrite Hl|].
    intros [|a] x' Hx'; simpl in *; [injection Hx' as <-; eauto|by apply Hk].
Qed.

Lemma mapM_total {A B} (f : A → Result B) l :
  (∀ x, x ∈ l → is_Ok (f x) = true) → ∃ l', mapM f l = Ok l'.
Proof.
  induction l as [|x l IH]; intros Hf; [by exists []|].
  destruct (f x) as [y|] eqn:Hy.
  2:{ specialize (Hf x ltac:(left)). by rewrite Hy in Hf. }
  destruct IH as [k Hk]; [intros; apply Hf; by right|].
  exists (y :: k). simpl. rewrite Hy. simpl. by rewrite Hk.
Qed.

Lemma list_index_inv {A} `{EqDecision A} (repr : A → string) (l : list A) x i :
  list_index repr l x = Ok i → l !! i = Some x.
Proof.
  revert i. induction l as [|y l IH]; intros i E; simpl in E; [done|].
  destruct (decide (x = y)) as [->|]; [by injection E as <-|].
  destruct (list_index repr l x) as [j|]; simpl in E; [|done].
  injection E as <-. by apply IH.
Qed.

Lemma getitem_Ok {A} (l : list A) i : i < length l → is_Ok (getitem l i) = true.
Proof.
  intros Hi. unfold getitem.
  by destruct (lookup_lt_is_Some_2 l i Hi) as [v ->].
Qed.

Lemma getitem_inv {A} (l : list A) i v : getitem l i = Ok v → l !! i = Some v.
Proof. unfold getitem. destruct (l !! i); [by intros [= ->]|done]. Qed.

Lemma fancy_index_Ok rows ppos n :
  square n rows → (∀ i, i ∈ ppos → i < n) →
  ∃ sub, fancy_index (Arr2 rows) ppos = Ok sub
    ∧ square (length ppos) sub
    ∧ ∀ a b i j, ppos !! a = Some i → ppos !! b = Some j →
        entry sub a b = entry rows i j.
Proof.
  intros [Hn Hrows] Hpos. unfold fancy_index.
  destruct (mapM_total (getitem rows) ppos) as [sel Hsel].
  { intros i Hi. apply getitem_Ok. rewrite Hn. by apply Hpos. }
  rewrite Hsel. simpl. apply mapM_Ok_inv in Hsel as [Lsel Hsel].
  assert (∀ row, row ∈ sel → length row = n) as Hlen.
  { intros row Hrow. apply list_elem_of_lookup in Hrow as [a Ha].
    destruct (lookup_lt_is_Some_2 ppos a) as [i Hi].
    { rewrite <- Lsel. by eapply lookup_lt_Some. }
    destruct (Hsel a i Hi) as (row' & Hg & Hs).
    assert (row' = row) as -> by congruence.
    apply getitem_inv in Hg. rewrite Forall_forall in Hrows.
    apply Hrows. by eapply list_elem_of_lookup_2. }
  destruct (mapM_total (λ row : list float, mapM (getitem row) ppos) sel) as [sub Hsub].
  { intros row Hrow.
    destruct (mapM_total (getitem row) ppos) as [r Hr]; [|by rewrite Hr].
    intros i Hi. apply getitem_Ok. rewrite (Hlen row Hrow). by apply Hpos. }
  exists sub. split; [done|]. apply mapM_Ok_inv in Hsub as [Lsub Hsub].
  split.
  - split; [by rewrite Lsub|]. apply Forall_forall. intros r Hr.
    apply list_elem_of_lookup in Hr as [a Ha].
    destruct (lookup_lt_is_Some_2 sel a) as [row Hrow].
    { rewrite <- Lsub. by eapply lookup_lt_Some. }
    destruct (Hsub a row Hrow) as (r' & Hr' & Hs).
    assert (r' = r) as -> by congruence.
    by apply mapM_Ok_inv in Hr' as [-> _].
  - intros a b i j Ha Hb. unfold entry.
    destruct (Hsel a i Ha) as (row & Hg & Hs). apply getitem_inv in Hg.
    destruct (Hsub a row Hs) as (r & Hr & Hsa).
    rewrite Hsa, Hg. simpl.
    apply mapM_Ok_inv in Hr as [_ Hr]. destruct (Hr b j Hb) as (v & Hv & ->).
    by apply getitem_inv in Hv.
Qed.

Lemma Result_bind_Ok {A B} (f : A → Result B) (a : A) : Ok a ≫= f = f a.
Proof. done. Qed.

Lemma where_zero_nil v :
  (∀ i x, v !! i = Some x → PrimFloat.eqb x 0%float = false) → where_zero v = [].
Proof.
  intros Hnz. destruct (where_zero v) as [|i l] eqn:E; [done|].
  assert (i ∈ where_zero v) as Hi by (rewrite E; left).
  apply elem_of_where_zero in Hi as (x & Hx & Hz). by rewrite (Hnz i x Hx) in Hz.
Qed.

(** For a block whose observables are observables of the fit and whose
    theory variances are not zero: over one observable at position [i], the
    theory distribution is the univariate Gaussian at the central value of
    the constraint with the square root of the entry [(i, i)] of the
    covariance as its scale; over another number of observables, it is the
    multivariate Gaussian at that central value, whose covariance is the
    selection of the covariance at the positions of the observables, and the
    support of the constraint is not consulted. *)
Theorem theory_distribution_of_regular_blocks (this : FitObject) rows constraint :
  (∀ p i v,
     list_index repr_obs (observables this) p = Ok i →
     entry rows i i = Some v →
     PrimFloat.eqb (PrimFloat.sqrt v) 0%float = false →
     theory_constraint this (Arr2 rows) constraint [p]
       = Ok (NormalDistribution (central_value constraint) (PrimFloat.sqrt v)))
  ∧ (∀ ps ppos,
       square (length (observables this)) rows →
       mapM (list_index repr_obs (observables this)) ps = Ok ppos →
       length ps ≠ 1 →
       (∀ i v, i ∈ ppos → entry rows i i = Some v → PrimFloat.eqb v 0%float = false) →
       ∃ sub,
         theory_constraint this (Arr2 rows) constraint ps
           = Ok (MultivariateNormalDistribution (central_value constraint) sub)
         ∧ square (length ps) sub
         ∧ ∀ a b i j, ppos !! a = Some i → ppos !! b = Some j →
             entry sub a b = entry rows i j).
Proof.
  split.
  - intros p i v Hi Hv Hz. unfold entry in Hv.
    destruct (rows !! i) as [row|] eqn:Hrow; [|done]. simpl in Hv.
    by apply (nonzero_variance_single_observable this rows constraint p i row v).
  - intros ps ppos Hsq Hpos Hlen Hnz.
    pose proof (mapM_Ok_inv _ _ _ Hpos) as [Lpos Hinv].
    destruct (fancy_index_Ok rows ppos (length (observables this)) Hsq)
      as (sub & Hsub & Hsqsub & Hent).
    { intros i Hi. apply list_elem_of_lookup in Hi as [a Ha].
      destruct (lookup_lt_is_Some_2 ps a) as [p Hp].
      { rewrite <- Lpos. by eapply lookup_lt_Some. }
      destruct (Hinv a p Hp) as (i' & Hi' & Ha').
      assert (i' = i) as -> by congruence.
      apply list_index_inv in Hi'. by eapply lookup_lt_Some. }
    exists sub. rewrite <- Lpos. split; [|done].
    unfold theory_constraint.
    rewrite Hpos, Result_bind_Ok, Hsub, Result_bind_Ok, decide_False by lia.
    unfold fix_zero_variances. rewrite where_zero_nil; [done|].
    intros a x Hx. rewrite (np_diag_lookup _ _ _ Hsqsub) in Hx.
    destruct (lookup_lt_is_Some_2 ppos a) as [i Hi].
    { destruct Hsqsub as [Hl Hrows]. unfold entry in Hx.
      destruct (sub !! a) eqn:Hs; [|done]. rewrite <- Hl. by eapply lookup_lt_Some. }
    rewrite (Hent a a i i Hi Hi) in Hx.
    apply (Hnz i x); [by eapply list_elem_of_lookup_2|done].
Qed.

(** ** The likelihood of a [FastFit] after [make_measurement] *)

Lemma for_fold_ext_in {A S} (l : list A) (s : S) (f g : S → A → Result S) :
  (∀ s x, x ∈ l → f s x = g s x) → for_fold l s f = for_fold l s g.
Proof.
  revert s. induction l as [|x l IH]; intros s Hfg; [done|]. simpl.
  rewrite (Hfg s x) by left. destruct (g s x) as [s'|]; [|done]. simpl.
  apply IH. intros s'' y Hy. apply Hfg. by right.
Qed.

(** Once [make_measurement] has returned, the likelihood of the [FastFit]
    is, for every relevant measurement in turn, the log-probability of the
    predictions under the constraints of the measurement convolved with
    their theory distributions, added up from the left. *)
Theorem FastFit_log_likelihood_after_make_measurement self (this : FitObject)
    snap par w N Nexp w' x :
  fit_in w self this snap par →
  cls this = FastFitC →
  make_measurement self N Nexp w = (Ok tt, w') →
  ∃ cov, (_get_covariance_sm self N w).1 = Ok cov
    ∧ (log_likelihood self x w').1
      = (predictions ← (get_predictions self x w).1;
         combined_log_likelihood this cov (w_measurements w) predictions).
Proof.
  intros Hfit Hc E. pose proof Hfit as (Hself & Hsnap & Hpar).
  assert (same_objects w w') as (Hh & Ho & Hm & _).
  { pose proof (keeps_same_objects_make_measurement self N Nexp w) as Hk.
    by rewrite E in Hk. }
  assert (w_heap w' !! self = Some (FitObj this)) as Hself' by by rewrite Hh.
  assert (w_heap w' !! parameters_central this = Some (DictObj snap)) as Hsnap'
    by by rewrite Hh.
  rewrite (log_likelihood_run self x w' this snap Hself' Hsnap').
  rewrite (get_predictions_run self x w this snap Hself Hsnap).
  destruct (_get_covariance_sm_run self N w this par Hself Hpar) as (w1 & E1 & _).
  destruct (_get_covariance_sm_run self N
              (set_calls ("FastFit.make_measurement" :: w_calls w) w) this par Hself Hpar)
    as (w2 & E2 & _ & _ & Hp2 & _).
  simpl in E2, Hp2. rewrite E1. simpl.
  destruct (covariance_sm_of this par (w_observables w) N (w_rng w)) as [cov|e].
  2:{ unfold make_measurement in E.
      rewrite enter_bind, (bind_Raise _ _ _ _ _ E2) in E. discriminate E. }
  exists cov. split; [done|].
  destruct (make_measurement_eq self this N Nexp w cov w2 Hself E2) as [Hw2 Eq].
  rewrite Eq in E.
  apply (measurements_loop self this (w_measurements w) cov _ _ w') in E as [Hin _];
    [|by intros n Hn; apply (relevant_measurements_registered this)
     |by destruct Hw2].
  unfold log_likelihood_of, combined_log_likelihood. rewrite Hc, Ho, Hm.
  destruct (predictions_of this snap x (w_observables w)) as [preds|]; [|done].
  simpl. apply for_fold_ext_in. intros ll n Hn.
  destruct (Hin n Hn) as (m & pm & Hm' & Hpm & Hlook).
  rewrite Hlook, Hm', !Result_bind_Ok. by rewrite Hpm.
Qed.

(** ** Repeated names *)

Lemma dict_comprehension_last names x k acc sub i p :
  dict_comprehension names x k acc = Ok sub →
  last_occurrence names p i → sub !! p = x !! (k + i).
Proof.
  revert k acc i. induction names as [|q names IH]; intros k acc i E [Hi Hlast].
  - done.
  - simpl in E. destruct (getitem x k) as [v|] eqn:Hv; [|done]. simpl in E.
    apply getitem_inv in Hv. destruct i as [|i]; simpl in Hi.
    + injection Hi as ->. rewrite Nat.add_0_r, Hv.
      rewrite (dict_comprehension_out _ _ _ _ _ E); [by apply lookup_insert_eq|].
      intros Hin. apply list_elem_of_lookup in Hin as [j Hj].
      apply (Hlast (S j)); [lia|done].
    + rewrite Nat.add_succ_r. apply (IH (S k) _ i E). split; [done|].
      intros j' Hj'. apply (Hlast (S j')). lia.
Qed.

Lemma values_collapsed names (sub : gmap string float) x k :
  k + length names ≤ length x →
  dict_comprehension names x k ∅ = Ok sub →
  ∃ vals, mapM (getkey sub) names = Ok vals ∧ length vals = length names
    ∧ ∀ i p j, names !! i = Some p → last_occurrence names p j →
        vals !! i = x !! (k + j).
Proof.
  intros Hlen E.
  destruct (dict_comprehension_Ok names x k ∅ Hlen) as (sub' & E' & _ & Hin).
  rewrite E in E'. injection E' as <-.
  destruct (mapM_getkey_total sub names) as (vals & Ev & Lv & Hv).
  { intros p Hp. destruct (Hin p Hp) as (i & _ & Hs & ->). done. }
  exists vals. split; [done|]. split; [done|].
  intros i p j Hi Hj. rewrite (Hv i p Hi).
  by apply (dict_comprehension_last names x k ∅).
Qed.

(** On a [BayesianFit], whatever its lists of names are, a vector of the
    dimension of the fit goes through [dict_to_array(array_to_dict(x))] and
    comes back with, at the position of every name, the entry of the last
    occurrence of that name in its list: a name that is repeated in a list
    makes the round trip lose the entries of its earlier occurrences. *)
Theorem BayesianFit_roundtrip_repeated_names (this : FitObject) x :
  length x = length (fit_parameters this) + length (nuisance_parameters this)
             + length (fit_wc_names this) →
  ∃ x', BayesianFit_array_to_dict this x ≫= BayesianFit_dict_to_array this = Ok x'
    ∧ length x' = length x
    ∧ collapsed (fit_parameters this) 0 x x'
    ∧ collapsed (nuisance_parameters this) (length (fit_parameters this)) x x'
    ∧ collapsed (fit_wc_names this)
        (length (fit_parameters this) + length (nuisance_parameters this)) x x'.
Proof.
  intros Hlen.
  destruct (BayesianFit_array_to_dict_Ok this x) as (fp & np & wc & E & E1 & E2 & E3);
    [lia|].
  destruct (values_collapsed (fit_parameters this) fp x 0) as (v1 & V1 & L1 & H1);
    [lia|done|].
  destruct (values_collapsed (nuisance_parameters this) np x
              (length (fit_parameters this))) as (v2 & V2 & L2 & H2); [lia|done|].
  destruct (values_collapsed (fit_wc_names this) wc x
              (length (fit_parameters this) + length (nuisance_parameters this)))
    as (v3 & V3 & L3 & H3); [lia|done|].
  exists (v1 ++ v2 ++ v3). split; [|split; [rewrite !length_app; lia|]].
  - rewrite E. simpl. apply BayesianFit_dict_to_array_eq.
    + rewrite (values_of_sub _ _ fp); [done|].
      by rewrite lookup_insert_ne, lookup_insert_ne, lookup_insert_eq.
    + rewrite (values_of_sub _ _ np); [done|].
      by rewrite lookup_insert_ne, lookup_insert_eq.
    + rewrite (values_of_sub _ _ wc); [done|]. by rewrite lookup_insert_eq.
  - split; [|split].
    + intros i p j Hi Hj. simpl.
      rewrite lookup_app_l by (rewrite L1; by eapply lookup_lt_Some).
      by apply (H1 i p j).
    + intros i p j Hi Hj. rewrite <- L1, lookup_app_r by lia.
      replace (length v1 + i - length v1) with i by lia.
      rewrite lookup_app_l by (rewrite L2; by eapply lookup_lt_Some).
      rewrite L1. by apply (H2 i p j).
    + intros i p j Hi Hj. rewrite <- L1, <- L2, lookup_app_r by lia.
      replace (length v1 + length v2 + i - length v1) with (length v2 + i) by lia.
      rewrite lookup_app_r by lia.
      replace (length v2 + i - length v2) with i by lia.
      rewrite L1, L2. by apply (H3 i p j).
Qed.

End Properties.

(** * Closed instances *)

Section Instances.
Import Demo.
Existing Instance externals.

Ltac decide_now := apply (bool_decide_unpack _); vm_compute; exact I.

Lemma pair_of_fst {A B} (r : A * B) (a : A) : r.1 = a → r = (a, r.2).
Proof. intros <-. by destruct r. Qed.

Lemma constructed_at k a w self :
  (new k a w).1 = Ok self →
  w_heap (new k a w).2 !! self
    = Some (FitObj (constructed_object k a (S (length (w_heap w))))).
Proof.
  intros E. apply (constructed_lookup k a w), new_inv. by apply pair_of_fst.
Qed.

(** C1: the array of a dictionary of a fast fit. *)
Example FastFit_dict_to_array_example :
  FastFit_dict_to_array (constructed_object FastFitC args_abc 2) dict_abc
    = Raise (NameError "n_nui_p").
Proof. by vm_compute. Qed.

(** C2: the block of [A] in a fit on [A] and [C] with zero covariance. *)
Lemma zero_variance_single_observable_witness :
  theory_constraint this_AC (Arr2 zero_covariance) gaussian_1 [ObsName "A"]
    = Raise (NameError "DeltaDistribution").
Proof.
  apply (zero_variance_single_observable this_AC zero_covariance
           (gaussian_1 : @Distribution Z externals)
           (ObsName "A") 0 [0%float; 0%float] 0%float); reflexivity.
Defined.

(** C2: [make_measurement] on that fit, with the default sample sizes. *)
Example make_measurement_raises_NameError :
  (make_measurement 1 100 5000 world_AC_MP).1 = Raise (NameError "DeltaDistribution").
Proof. by vm_compute. Qed.

(** C3: a zero variance at index 0, the support being [0, 2] along the axis
    of index 0 and [10, 40] along the axis of index 1. *)
Lemma zero_variance_uses_axis_one_witness :
  ∃ fixed, fix_zero_variances gaussian_2 covariance_zero_first = Ok fixed ∧
    ∀ i j, entry fixed i j =
      match entry covariance_zero_first i i with
      | Some v =>
          if PrimFloat.eqb v 0%float && bool_decide (i = j)
          then Some (small_variance (PrimFloat.sub 40%float 10%float))
          else entry covariance_zero_first i j
      | None => entry covariance_zero_first i j
      end.
Proof.
  apply (zero_variance_uses_axis_one
           (gaussian_2 : @Distribution Z externals) [0%float; 10%float]
           [2%float; 40%float] 10%float 40%float 2 covariance_zero_first);
    [reflexivity|reflexivity|reflexivity|].
  split; [reflexivity|]. repeat constructor.
Defined.

(** C3: the entry of index 0 gets the square of 30/100000, about 9.0e-8,
    not that of 2/100000, about 4.0e-10. *)
Example zero_first_gets_range_of_second :
  fix_zero_variances gaussian_2 covariance_zero_first
    = Ok [[0x1.828c0be769dcp-24%float; 0%float]; [0%float; 4%float]]
  ∧ small_variance (PrimFloat.sub 2%float 0%float) = 0x1.b7cdfd9d7bdbcp-32%float.
Proof. split; by vm_compute. Qed.

(** C4: the fast fit with one fit parameter, one nuisance parameter and one
    coupling. *)
Lemma dimension_and_partition_witness :
  ∃ this, w_heap world_abc !! 1 = Some (FitObj this) ∧ cls this = FastFitC
    ∧ fit_parameters this = ["a"]
    ∧ nuisance_parameters this = ["b"]
    ∧ fit_wc_names this = ["C9"]
    ∧ dimension this = Some (length (fit_parameters this)
                             + length (nuisance_parameters this)
                             + length (fit_wc_names this)).
Proof.
  apply (proj1 dimension_and_partition FastFitC args_abc world_M 1 world_abc);
    [apply pair_of_fst; by vm_compute|by right].
Defined.

(** C4: its dimension is 3, while [array_to_dict] takes a vector of two
    entries, one for the fit parameter and one for the coupling. *)
Lemma fastfit_dimension_counts_nuisance :
  (new FastFitC args_abc world_M).1 = Ok 1
  ∧ object_at world_abc 1 ≫= dimension = Some 3
  ∧ (object_at world_abc 1 ≫= λ this,
       Some (FastFit_array_to_dict this [5%float; 9%float]))
    = Some (Ok (<["fit_wc" := {["C9" := 9%float]}]>
                  (<["fit_parameters" := {["a" := 5%float]}]> ∅)))
  ∧ (object_at world_abc 1 ≫= λ this,
       Some (length (fit_parameters this) + length (fit_wc_names this)))
    = Some 2.
Proof. repeat split; by vm_compute. Qed.

(** C5: a fit on [A] and [C] that leaves out [P], of the measurements [M]
    and [P]. *)
Lemma get_measurements_relevant_filtered_witness :
  ∃ names, (get_measurements 1 world_without_P).1 = Ok names ∧
    ∀ n, n ∈ names ↔
      constrains_fit_observable this_without_P world_without_P n
      ∧ (∀ excl, exclude_measurements this_without_P = Some excl → n ∉ excl)
      ∧ (∀ incl, include_measurements this_without_P = Some incl → n ∈ incl).
Proof.
  apply (get_measurements_relevant_filtered 1 this_without_P world_without_P).
  - apply (constructed_at BayesianFitC args_without_P world_MP 1). by vm_compute.
  - intros [_ [incl Hincl]]. discriminate Hincl.
Defined.

Example get_measurements_example : (get_measurements 1 world_without_P).1 = Ok ["M"].
Proof. by vm_compute. Qed.

(** C6: the observables [D] and [C] have no measurement in a registry that
    holds [M] only. *)
Lemma unconstrained_observable_rejected_witness :
  ∃ names,
    (new FitC args_unconstrained world_M).1
      = Raise (AssertionError
                 ("No measurement found for the observables: " +:+ join ", " names))
    ∧ NoDup names
    ∧ ∀ n, n ∈ names ↔ unconstrained args_unconstrained world_M (ObsName n).
Proof.
  destruct (unconstrained_observable_rejected FitC args_unconstrained world_M
              (ObsName "D")) as (e & w' & Hnew & _ & Hmsg).
  { apply elem_of_missing_obs. decide_now. }
  destruct Hmsg as (names & -> & Hnd & Hin).
  - intros p Hp. exists registry. split; [reflexivity|].
    apply list_elem_of_singleton in Hp as ->. decide_now.
  - intros o Ho. simpl in Ho.
    repeat (apply elem_of_cons in Ho as [->|Ho]; [decide_now|]).
    by apply elem_of_nil in Ho.
  - intros o' [Ho _]. simpl in Ho.
    repeat (apply elem_of_cons in Ho as [->|Ho]; [by eexists|]).
    by apply elem_of_nil in Ho.
  - exists names. rewrite Hnew. done.
Defined.

Example unconstrained_observable_message :
  (new FitC args_unconstrained world_M).1
    = Raise (AssertionError "No measurement found for the observables: D, C").
Proof. by vm_compute. Qed.

(** C6: with an unknown parameter too, the message is that of the check of
    the parameters, and names no observable, though [D] has no measurement. *)
Lemma unknown_parameter_reported_first :
  (new FitC args_unknown world_M).1
    = Raise (AssertionError "Parameter zz not found in Constraints")
  ∧ unconstrained args_unknown world_M (ObsName "D").
Proof.
  split; [by vm_compute|]. apply elem_of_missing_obs. decide_now.
Qed.

(** C6: an unconstrained observable given as a tuple. *)
Example unconstrained_tuple_raises_TypeError :
  (new FitC (args ["a"] [] [ObsTuple "D" [1%Z]] [] None None) world_M).1
    = Raise (TypeError "sequence item: expected str instance, tuple found").
Proof. by vm_compute. Qed.

(** C7: both filters given. *)
Lemma both_filters_rejected_witness :
  ∃ e w', new FastFitC args_both world_M = (Raise e, w')
    ∧ no_object_produced world_M w'.
Proof.
  apply (both_filters_rejected FastFitC args_both world_M ["M"] ["M"]); reflexivity.
Defined.


Example make_measurement_raises_ValueError :
  (make_measurement 1 100 5000 world_AC_NP).1 = Raise (ValueError "'B' is not in list").
Proof. by vm_compute. Qed.




(** The round trips of a Bayesian fit. *)
Lemma BayesianFit_roundtrip_array_witness :
  BayesianFit_array_to_dict this_abc [5%float; 7%float; 9%float]
    ≫= BayesianFit_dict_to_array this_abc
  = Ok [5%float; 7%float; 9%float].
Proof.
  apply (BayesianFit_roundtrip_array this_abc [5%float; 7%float; 9%float]);
    [decide_now|decide_now|decide_now|reflexivity].
Defined.

Lemma keys_are_singleton (p : string) (v : float) : keys_are [p] {[p := v]}.
Proof.
  intros q. rewrite list_elem_of_singleton. split.
  - intros [v' Hq]. apply lookup_singleton_Some in Hq as [-> _]. done.
  - intros ->. exists v. apply lookup_singleton_eq.
Qed.

Lemma BayesianFit_roundtrip_dict_witness :
  BayesianFit_dict_to_array this_abc dict_abc ≫= BayesianFit_array_to_dict this_abc
  = Ok dict_abc.
Proof.
  apply (BayesianFit_roundtrip_dict this_abc dict_abc).
  exists {["a" := 5%float]}, {["b" := 7%float]}, {["C9" := 9%float]}.
  split; [reflexivity|]. repeat split; apply keys_are_singleton.
Defined.

(** ** Instances of the further properties *)

Ltac known :=
  let p := fresh "p" in
  let Hp := fresh "Hp" in
  intros p Hp; exists registry; split; [reflexivity|]; simpl in Hp;
  repeat (apply elem_of_cons in Hp as [->|Hp]; [decide_now|]);
  by apply elem_of_nil in Hp.

Ltac registered :=
  let o := fresh "o" in
  let Ho := fresh "Ho" in
  intros o Ho; simpl in Ho;
  repeat (apply elem_of_cons in Ho as [->|Ho]; [decide_now|]);
  by apply elem_of_nil in Ho.

Ltac constrained_by n m :=
  let o := fresh "o" in
  let Ho := fresh "Ho" in
  let Hn := fresh "Hn" in
  intros o [Ho Hn]; simpl in Ho;
  repeat (apply elem_of_cons in Ho as [->|Ho];
          [apply (Hn n m); [left|decide_now]|]);
  by apply elem_of_nil in Ho.

Ltac no_filter :=
  let H := fresh "H" in
  intros [[? H] _]; discriminate H.

Lemma construction_succeeds_iff_witness :
  valid_arguments args_abc world_M ∧ registry_at world_M 0.
Proof.
  apply (proj1 (proj1 (construction_succeeds_iff FastFitC args_abc world_M))).
  exists 1, world_abc. apply pair_of_fst. by vm_compute.
Defined.

Lemma failed_construction_cases_witness :
  ∃ msg w',
    new FastFitC args_no_registry world_M = (Raise (AttributeError msg), w')
    ∧ registered_only FastFitC args_no_registry world_M w'.
Proof.
  apply (proj2 (failed_construction_cases FastFitC args_no_registry world_M)).
  - split; [|split; [|split; [|split; [|split]]]].
    + intros p Hp. by apply elem_of_nil in Hp.
    + registered.
    + constrained_by "M" measurement_AB.
    + no_filter.
    + intros p Hp. by apply elem_of_nil in Hp.
    + by left.
  - intros [par Hpar]. discriminate Hpar.
Defined.

Example failed_construction_registers :
  (new FastFitC args_no_registry world_M).1
    = Raise (AttributeError "dangling reference")
  ∧ w_fit_instances (new FastFitC args_no_registry world_M).2 !! "fit" = Some 1
  ∧ w_heap (new FastFitC args_no_registry world_M).2 !! 1
    = Some (NewObj FastFitC "fit" (Some 7))
  ∧ same_but_log world_M (new FitC args_both world_M).2.
Proof. repeat split; by vm_compute. Qed.

Lemma unknown_parameter_rejected_witness :
  ∃ w', new FitC args_unknown world_M
          = (Raise (AssertionError "Parameter zz not found in Constraints"), w')
        ∧ same_but_log world_M w'.
Proof.
  apply (unknown_parameter_rejected FitC args_unknown world_M
           (registry : @ParameterConstraints Z externals) [] "zz" []).
  - reflexivity.
  - reflexivity.
  - intros q Hq. by apply elem_of_nil in Hq.
  - decide_now.
Defined.

Lemma unknown_observable_rejected_witness :
  ∃ w', new BayesianFitC args_unregistered world_M
          = (Raise (ValueError "Observable Z not found!"), w')
        ∧ same_but_log world_M w'.
Proof.
  apply (unknown_observable_rejected BayesianFitC args_unregistered world_M
           [ObsName "A"] (ObsName "Z") []).
  - known.
  - reflexivity.
  - registered.
  - decide_now.
Defined.

Lemma shared_parameter_rejected_witness :
  ∃ shared w',
    new FastFitC args_shared world_M
      = (Raise (AssertionError
          ("Parameters appearing as fit_parameters and nuisance_parameters: "
           +:+ str_set shared)), w')
    ∧ (∀ q, q ∈ shared ↔ q ∈ ["a"; "b"] ∧ q ∈ ["b"])
    ∧ same_but_log world_M w'.
Proof.
  apply (shared_parameter_rejected FastFitC args_shared world_M "b").
  - known.
  - registered.
  - constrained_by "M" measurement_AB.
  - no_filter.
  - decide_now.
  - decide_now.
Defined.

Example shared_parameter_message :
  (new FastFitC args_shared world_M).1
    = Raise (AssertionError
        "Parameters appearing as fit_parameters and nuisance_parameters: {'b'}").
Proof. by vm_compute. Qed.

Lemma wc_function_failure_rejected_witness :
  ∃ w', new BayesianFitC args_no_function world_M
          = (Raise (ValueError "Error in calling the Wilson coefficient function"), w')
        ∧ same_but_log world_M w'.
Proof.
  apply (wc_function_failure_rejected BayesianFitC args_no_function world_M).
  - known.
  - registered.
  - constrained_by "M" measurement_AB.
  - no_filter.
  - intros p Hp Hn. by apply elem_of_nil in Hn.
  - done.
  - intros f Hf. discriminate Hf.
Defined.

Lemma get_par_dict_at_central_witness :
  dict_at (get_par_dict 1 [1%float] world_a).2 (get_par_dict 1 [1%float] world_a).1
    = Ok (list_to_map registry).
Proof.
  apply (get_par_dict_at_central 1 this_a (list_to_map registry) world_a
           [1%float] [] [] [1%float]).
  - apply (constructed_at BayesianFitC args_a world_M 1). by vm_compute.
  - by vm_compute.
  - by vm_compute.
  - by vm_compute.
  - reflexivity.
  - left. by split.
Defined.

Lemma get_predictions_keys_witness :
  NoDup [ObsName (Arg:=Z) "A"]
  ∧ ∀ o, o ∈ [ObsName (Arg:=Z) "A"] ↔ o ∈ observables this_a.
Proof.
  destruct (get_predictions_keys 1 this_a (list_to_map registry) world_a [1%float]
              [(ObsName "A", 1%float)]) as (Hnd & Hkeys & _).
  - apply (constructed_at BayesianFitC args_a world_M 1). by vm_compute.
  - by vm_compute.
  - by vm_compute.
  - by split.
Defined.

Lemma log_target_is_the_sum_witness :
  (log_target 1 [1%float] world_a).1
  = (ll ← (log_likelihood 1 [1%float] world_a).1;
     lp ← (log_prior_parameters 1 [1%float] world_a).1;
     lw ← (log_prior_wilson_coeffs 1 [1%float] world_a).1;
     Ok (PrimFloat.add (PrimFloat.add ll lp) lw)).
Proof.
  apply (log_target_is_the_sum 1 this_a (list_to_map registry)
           (registry : @ParameterConstraints Z externals) None world_a [1%float]).
  - split; [|split].
    + apply (constructed_at BayesianFitC args_a world_M 1). by vm_compute.
    + by vm_compute.
    + by vm_compute.
  - reflexivity.
Defined.

Lemma FastFit_log_likelihood_needs_make_measurement_witness :
  (log_likelihood 1 [1%float] world_AC_MP).1 = Raise (KeyError "fitM").
Proof.
  apply (FastFit_log_likelihood_needs_make_measurement 1 this_AC
           (list_to_map registry) world_AC_MP [1%float] "M" ["P"]).
  - apply (constructed_at FastFitC args_AC world_MP 1). by vm_compute.
  - by vm_compute.
  - reflexivity.
  - by vm_compute.
  - by vm_compute.
  - by vm_compute.
Defined.

Lemma fit_in_AC_P :
  fit_in world_AC_P 1 this_AC (list_to_map registry)
    (registry : @ParameterConstraints Z externals).
Proof.
  split; [|split].
  - apply (constructed_at FastFitC args_AC world_P 1). by vm_compute.
  - by vm_compute.
  - by vm_compute.
Qed.

Lemma covariance_sm_follows_the_registry_witness :
  (_get_covariance_sm 1 3 (with_snapshot 2 ∅ world_AC_P)).1
    = (_get_covariance_sm 1 3 world_AC_P).1
  ∧ (_get_covariance_sm 1 3 (with_registry 0 registry_moved world_AC_P)).1
    = covariance_sm_of this_AC (registry_moved : @ParameterConstraints Z externals)
        (w_observables world_AC_P) 3 (w_rng world_AC_P).
Proof.
  destruct (covariance_sm_follows_the_registry world_AC_P 1 this_AC
              (list_to_map registry) (registry : @ParameterConstraints Z externals) 3
              fit_in_AC_P) as (_ & Hsnap & Hreg & _).
  split; [apply (Hsnap ∅)|apply (Hreg registry_moved)].
Defined.

Lemma make_measurement_AC_P :
  make_measurement 1 3 5000 world_AC_P = (Ok tt, world_AC_P_made).
Proof. unfold world_AC_P_made. apply pair_of_fst. by vm_compute. Qed.

Lemma make_measurement_registers_witness :
  ∃ cov m pm,
    (_get_covariance_sm 1 3 world_AC_P).1 = Ok cov
    ∧ assoc_lookup "P" (w_measurements world_AC_P) = Some m
    ∧ pseudo_measurement_of this_AC cov m = Ok pm
    ∧ w_pseudo_measurements world_AC_P_made !! "fitP" = Some pm.
Proof.
  destruct fit_in_AC_P as (Hself & _ & Hpar).
  destruct (proj2 (make_measurement_registers 1 this_AC
                     (registry : @ParameterConstraints Z externals)
                     world_AC_P 3 5000 Hself Hpar)
              world_AC_P_made make_measurement_AC_P) as (cov & Hcov & Hin & _).
  destruct (Hin "P") as (m & pm & Hm & Hpm & Hlook); [decide_now|].
  by exists cov, m, pm.
Defined.

Lemma single_observable_fit_cannot_make_measurement_witness :
  is_Ok (make_measurement 1 3 5000 world_a_fast).1 = false.
Proof.
  apply (single_observable_fit_cannot_make_measurement 1 this_a_fast
           (registry : @ParameterConstraints Z externals) world_a_fast 3 5000
           (ObsName "A") "M" (measurement_AB : @Measurement Z externals)
           (gaussian_1 : @Distribution Z externals) [ObsName "A"]).
  - apply (constructed_at FastFitC args_a world_M 1). by vm_compute.
  - by vm_compute.
  - reflexivity.
  - intros row. by eexists.
  - split; [decide_now|]. split; [reflexivity|]. left.
Defined.

Example single_observable_fit_raises_IndexError :
  (make_measurement 1 3 5000 world_a_fast).1
    = Raise (IndexError "too many indices for array").
Proof. by vm_compute. Qed.

Lemma get_random_draws_witness :
  ∃ arr, (BayesianFit_get_random 1 world_abc_bayes).1 = Ok arr
    ∧ length arr = 3 ∧ arr !! 2 = Some nan.
Proof.
  destruct (get_random_draws 1 this_abc (registry : @ParameterConstraints Z externals)
              None world_abc_bayes) as (arr & E & Hl & _ & _ & Hwc).
  - apply (constructed_at BayesianFitC args_abc world_M 1). by vm_compute.
  - by vm_compute.
  - reflexivity.
  - reflexivity.
  - intros p Hp. apply list_elem_of_singleton in Hp as ->. by eexists.
  - intros p Hp. apply list_elem_of_singleton in Hp as ->. by eexists.
  - intros pri p Hpri. discriminate Hpri.
  - exists arr. split; [done|]. split; [done|]. by apply (Hwc 0 "C9").
Defined.

Example get_random_example :
  (BayesianFit_get_random 1 world_abc_bayes).1 = Ok [1%float; 2%float; nan].
Proof. by vm_compute. Qed.

Lemma FastFit_log_likelihood_after_make_measurement_witness :
  ∃ cov, (_get_covariance_sm 1 3 world_AC_P).1 = Ok cov
    ∧ (log_likelihood 1 [1%float] world_AC_P_made).1
      = (predictions ← (get_predictions 1 [1%float] world_AC_P).1;
         combined_log_likelihood this_AC cov (w_measurements world_AC_P) predictions).
Proof.
  apply (FastFit_log_likelihood_after_make_measurement 1 this_AC
           (list_to_map registry) (registry : @ParameterConstraints Z externals)
           world_AC_P 3 5000 world_AC_P_made [1%float]).
  - apply fit_in_AC_P.
  - reflexivity.
  - apply make_measurement_AC_P.
Defined.

Lemma BayesianFit_roundtrip_repeated_names_witness :
  ∃ x', BayesianFit_array_to_dict this_aa [5%float; 7%float]
          ≫= BayesianFit_dict_to_array this_aa = Ok x'
    ∧ length x' = 2 ∧ x' !! 0 = Some 7%float.
Proof.
  destruct (BayesianFit_roundtrip_repeated_names this_aa [5%float; 7%float])
    as (x' & E & Hl & Hfit & _); [reflexivity|].
  exists x'. split; [done|]. split; [done|].
  apply (Hfit 0 "a" 1); [reflexivity|]. split; [reflexivity|].
  intros [|[|j']] Hj'; [lia|lia|done].
Defined.

Example roundtrip_repeated_names_example :
  BayesianFit_array_to_dict this_aa [5%float; 7%float]
    ≫= BayesianFit_dict_to_array this_aa = Ok [7%float; 7%float].
Proof. by vm_compute. Qed.

Lemma theory_distribution_of_regular_blocks_witness :
  ∃ sub,
    theory_constraint this_AC (Arr2 [[1%float; 2%float]; [2%float; 4%float]])
      gaussian_2 [ObsName "C"; ObsName "A"]
      = Ok (MultivariateNormal (dist_central gaussian_2) sub)
    ∧ entry sub 0 1 = Some 2%float.
Proof.
  destruct (proj2 (theory_distribution_of_regular_blocks this_AC
                     [[1%float; 2%float]; [2%float; 4%float]]
                     (gaussian_2 : @Distribution Z externals))
              [ObsName "C"; ObsName "A"] [1; 0]) as (sub & E & _ & Hent).
  - split; [reflexivity|]. repeat constructor.
  - reflexivity.
  - done.
  - intros i v Hi Hv.
    apply elem_of_cons in Hi as [->|Hi];
      [|apply list_elem_of_singleton in Hi as ->];
      injection Hv as <-; reflexivity.
  - exists sub. split; [exact E|]. by rewrite (Hent 0 1 1 0).
Defined.

End Instances.
